(** * Windowed evaluation of a cached language model

    A shallow embedding of the helper functions of the two notebooks
    [language-model2/use_pretrained_lm.ipynb] and
    [language-model2/train_language_model.ipynb]:

    - [detach]          (both notebooks, identical text),
    - [evaluate]        (both notebooks, identical text),
    - [get_batch]       (use_pretrained_lm, cell 5),
    - [evaluate_cache]  (use_pretrained_lm, cell 6),
    - [train]           (train_language_model, cell 8).

    Conventions of the embedding.
    - Python integers are [Z].  Arithmetic on floats is idealised as
      arithmetic on real numbers (no rounding, no overflow).  The losses of
      [evaluate], which [train] compares, are [Float]s: a real number, an
      infinity or nan; the floats of [evaluate_cache] and those [train] only
      prints are real numbers [R].
    - A Python exception is a value of [exn]; a call that may raise
      returns a [Res].  Printing appends to an explicit [Stdout].
    - [data_source] is a two-dimensional array of token ids indexed
      [time step, lane]; [len] and slicing act on the first axis.  The
      bounds of a slice are normalised as for a Python sequence (a negative
      bound counts from the end), but the array does not answer a slice
      that lies outside it with an empty array: it raises.
    - The language model, the cache model and the loss are external
      collaborators: they are parameters of the functions that use them. *)

From Stdlib Require Import String ZArith List Bool Lia Reals Lra.
From Stdlib Require Import DecimalString.
Import ListNotations.

Local Open Scope Z_scope.
Set Warnings "-register-all".

(** ** Exceptions, results, output *)

Inductive exn : Type :=
| ZeroDivisionError
| ValueError
| Foreign (name : string).

Inductive Res (A : Type) : Type :=
| Ok (a : A)
| Raise (e : exn).

Arguments Ok {A} a.
Arguments Raise {A} e.

Definition res_bind {A B : Type} (r : Res A) (k : A -> Res B) : Res B :=
  match r with
  | Ok a => k a
  | Raise e => Raise e
  end.

(** One printed line ['Batch %d, ppl %f' % (i, ppl)]. *)
Definition Line : Type := (Z * R)%type.
Definition Stdout : Type := list Line.

(** Computations that print and may raise; what was printed before an
    exception stays printed. *)
Definition M (A : Type) : Type := Stdout -> Res A * Stdout.

Definition ret {A : Type} (a : A) : M A := fun s => (Ok a, s).

Definition bind {A B : Type} (c : M A) (k : A -> M B) : M B :=
  fun s =>
    match c s with
    | (Ok a, s') => k a s'
    | (Raise e, s') => (Raise e, s')
    end.

Definition lift {A : Type} (r : Res A) : M A := fun s => (r, s).

Definition print (line : Line) : M unit := fun s => (Ok tt, s ++ [line]).

Declare Scope res_scope.
Delimit Scope res_scope with res.
Declare Scope io_scope.
Delimit Scope io_scope with io.

Notation "x <- c ;; k" := (res_bind c (fun x => k))
  (at level 61, c at next level, right associativity) : res_scope.
Notation "' p <- c ;; k" := (res_bind c (fun x => match x with p => k end))
  (at level 61, p pattern, c at next level, right associativity) : res_scope.

Notation "x <- c ;; k" := (bind c (fun x => k))
  (at level 61, c at next level, right associativity) : io_scope.
Notation "' p <- c ;; k" := (bind c (fun x => match x with p => k end))
  (at level 61, p pattern, c at next level, right associativity) : io_scope.
Notation "c ;; k" := (bind c (fun _ => k))
  (at level 61, right associativity) : io_scope.

(** [x / n] for a float [x] and an integer [n]. *)
Definition py_div (x : R) (n : Z) : Res R :=
  if n =? 0 then Raise ZeroDivisionError else Ok (x / IZR n)%R.

(** A probability strictly between 0 and 1. *)
Definition in_unit_interval (p : R) : Prop := (0 < p < 1)%R.

(** ** Python sequences: [len], slicing, [range] *)

Definition py_len {A : Type} (l : list A) : Z := Z.of_nat (length l).

(** Clipping of one slice bound against a sequence of length [n]
    (step 1): a negative bound counts from the end. *)
Definition slice_bound (n k : Z) : Z :=
  if k <? 0 then Z.max (k + n) 0 else Z.min k n.

(** [l[start:stop]] *)
Definition py_slice {A : Type} (l : list A) (start stop : Z) : list A :=
  let n := py_len l in
  let lo := slice_bound n start in
  let hi := slice_bound n stop in
  firstn (Z.to_nat (hi - lo)) (skipn (Z.to_nat lo) l).

(** [l[k]] for a non-negative [k]; [None] when there is no such position.
    Only used to state properties. *)
Definition py_at {A : Type} (l : list A) (k : Z) : option A :=
  if k <? 0 then None else nth_error l (Z.to_nat k).

(** Number of elements of [range(start, stop, step)], [step <> 0]. *)
Definition range_count (start stop step : Z) : nat :=
  if 0 <? step then
    if start <? stop then Z.to_nat ((stop - start - 1) / step + 1) else 0%nat
  else
    if stop <? start then Z.to_nat ((start - stop - 1) / (- step) + 1) else 0%nat.

(** [range(start, stop, step)]; a zero step raises [ValueError]. *)
Definition py_range (start stop step : Z) : Res (list Z) :=
  if step =? 0 then Raise ValueError
  else Ok (map (fun k => start + Z.of_nat k * step)
               (seq 0 (range_count start stop step))).

(** ** Arrays of token ids *)

(** A two-dimensional array [time step, lane]: [nd_rows] is the first axis,
    [nd_cols] is [shape[1]]. *)
Record NDArray : Type := mkND {
  nd_rows : list (list Z);
  nd_cols : nat
}.

(** [len(a)] *)
Definition nd_len (a : NDArray) : Z := py_len (nd_rows a).

(** The time steps of [a] from [start] up to [stop], as an array with the
    lanes of [a]: what [a[start:stop]] holds when the slice is accepted. *)
Definition nd_window (a : NDArray) (start stop : Z) : NDArray :=
  mkND (py_slice (nd_rows a) start stop) (nd_cols a).

(** [a[start:stop]] on an mxnet [NDArray].  Unlike a list, the array
    refuses a slice that lies outside it: bounds that cross raise
    [MXNetError] ("Invalid slicing range"), a start at or past the end
    raises [IndexError] ("Slicing start exceeds limit"). *)
Definition nd_slice (a : NDArray) (start stop : Z) : Res NDArray :=
  let n := nd_len a in
  let lo := slice_bound n start in
  let hi := slice_bound n stop in
  if hi <? lo then Raise (Foreign "MXNetError")
  else if n <=? lo then Raise (Foreign "IndexError")
  else Ok (nd_window a start stop).

(** [a[k]], to state properties. *)
Definition nd_at (a : NDArray) (k : Z) : option (list Z) := py_at (nd_rows a) k.

(** [a.shape[1]] *)
Definition shape1 (a : NDArray) : Z := Z.of_nat (nd_cols a).

(** [a.as_in_context(ctx)]: a device transfer, the identity on values. *)
Definition as_in_context {Ctx : Type} (a : NDArray) (ctx : Ctx) : NDArray := a.

(** [a.reshape(-1)] *)
Definition reshape_flat (a : NDArray) : list Z := concat (nd_rows a).

(** [x if x else d] for an optional integer [x]: [None] and [0] are falsy. *)
Definition py_or_default (x : option Z) (d : Z) : Z :=
  match x with
  | Some w => if w =? 0 then d else w
  | None => d
  end.

(** ** Floats *)

(** A float as the code compares and divides it: a number, an infinity or
    nan. *)
Inductive Float : Type :=
| Finite (x : R)
| Infinity
| NegInfinity
| NaN.

Definition is_nan (x : Float) : bool :=
  match x with
  | NaN => true
  | _ => false
  end.

(** [x + y] *)
Definition float_add (x y : Float) : Float :=
  match x, y with
  | NaN, _ | _, NaN => NaN
  | Infinity, NegInfinity | NegInfinity, Infinity => NaN
  | Infinity, _ | _, Infinity => Infinity
  | NegInfinity, _ | _, NegInfinity => NegInfinity
  | Finite a, Finite b => Finite (a + b)
  end.

(** [x < y]: [False] as soon as one side is nan. *)
Definition float_lt (x y : Float) : bool :=
  match x, y with
  | NaN, _ | _, NaN => false
  | Infinity, _ | _, NegInfinity => false
  | NegInfinity, _ | _, Infinity => true
  | Finite a, Finite b => if Rlt_dec a b then true else false
  end.

(** [math.exp(x)] *)
Definition float_exp (x : Float) : Float :=
  match x with
  | Finite a => Finite (exp a)
  | Infinity => Infinity
  | NegInfinity => Finite 0
  | NaN => NaN
  end.

(** [x / n] for a [numpy.float64] [x] and an integer [n].  numpy does not
    raise on a division by zero: it warns and returns an infinity, or nan
    for [0 / 0]. *)
Definition np_div (x : Float) (n : Z) : Float :=
  match x with
  | Finite a =>
      if n =? 0 then
        if Req_dec_T a 0 then NaN
        else if Rlt_dec 0 a then Infinity else NegInfinity
      else Finite (a / IZR n)
  | Infinity => if n <? 0 then NegInfinity else Infinity
  | NegInfinity => if n <? 0 then Infinity else NegInfinity
  | NaN => NaN
  end.

(** The float a Python variable holds: a built-in [float], or the
    [numpy.float64] that [x += a.asscalar()] leaves in [x].  The two divide
    by zero differently. *)
Inductive Scalar : Type :=
| PyFloat (x : Float)
| NpFloat (x : Float).

Definition scalar_value (x : Scalar) : Float :=
  match x with
  | PyFloat x => x
  | NpFloat x => x
  end.

(** [x + a] for the result [a] of an [asscalar()]: numpy's addition,
    whatever [x] is. *)
Definition scalar_add (x : Scalar) (a : Float) : Scalar :=
  NpFloat (float_add (scalar_value x) a).

(** [x / n] for an integer [n]: a built-in float raises on a zero divisor;
    on any other the two divide alike. *)
Definition scalar_div (x : Scalar) (n : Z) : Res Float :=
  match x with
  | PyFloat x => if n =? 0 then Raise ZeroDivisionError else Ok (np_div x n)
  | NpFloat x => Ok (np_div x n)
  end.

(** ** Hidden state *)

(** The recurrent state: a tensor, or a tuple or a list of states. *)
Inductive Hidden (Tensor : Type) : Type :=
| HTensor (t : Tensor)
| HTuple (hs : list (Hidden Tensor))
| HList (hs : list (Hidden Tensor)).

Arguments HTensor {Tensor} t.
Arguments HTuple {Tensor} hs.
Arguments HList {Tensor} hs.

(** The nesting of a state, tags and tensors erased. *)
Inductive Shape : Type :=
| SLeaf
| SNode (children : list Shape).

Fixpoint shape {Tensor : Type} (h : Hidden Tensor) : Shape :=
  match h with
  | HTensor _ => SLeaf
  | HTuple hs => SNode (map shape hs)
  | HList hs => SNode (map shape hs)
  end.

Fixpoint depth {Tensor : Type} (h : Hidden Tensor) : nat :=
  match h with
  | HTensor _ => 0%nat
  | HTuple hs => S (fold_right Nat.max 0%nat (map depth hs))
  | HList hs => S (fold_right Nat.max 0%nat (map depth hs))
  end.

(** The tensors of a state, left to right. *)
Fixpoint leaves {Tensor : Type} (h : Hidden Tensor) : list Tensor :=
  match h with
  | HTensor t => [t]
  | HTuple hs => flat_map leaves hs
  | HList hs => flat_map leaves hs
  end.

(** The immediate children of a node. *)
Definition children {Tensor : Type} (h : Hidden Tensor) : list (Hidden Tensor) :=
  match h with
  | HTensor _ => []
  | HTuple hs => hs
  | HList hs => hs
  end.

(** No tuple node anywhere in the state. *)
Fixpoint tuple_free {Tensor : Type} (h : Hidden Tensor) : bool :=
  match h with
  | HTensor _ => true
  | HTuple _ => false
  | HList hs => forallb tuple_free hs
  end.

(** ** The notebook's functions *)

Section Notebook.
(** The device context, the tensors of the recurrent state, the output of
    the language model, and the two histories of the cache model are
    opaque values of the framework. *)
Context {Ctx Tensor Out Hist Cache : Type}.

(** [t.detach()] on a tensor. *)
Variable tensor_detach : Tensor -> Tensor.

(** [output.reshape(-3, -1)] *)
Variable reshape_3_1 : Out -> Out.

(** [loss = gluon.loss.SoftmaxCrossEntropyLoss()]: one loss value per
    example. *)
Variable loss : Out -> list Z -> Res (list Float).

(** The global [bptt] ([35] in the first cells, [2000] for the cache
    model). *)
Variable bptt : Z.

(** [[
def detach(hidden):
    if isinstance(hidden, (tuple, list)):
        hidden = [detach(i) for i in hidden]
    else:
        hidden = hidden.detach()
    return hidden
]] *)
Fixpoint detach (hidden : Hidden Tensor) : Hidden Tensor :=
  match hidden with
  | HTuple hs => HList (map detach hs)
  | HList hs => HList (map detach hs)
  | HTensor t => HTensor (tensor_detach t)
  end.

(** [[
def get_batch(data_source, i, seq_len=None):
    seq_len = min(seq_len if seq_len else bptt, len(data_source) - 1 - i)
    data = data_source[i:i + seq_len]
    target = data_source[i + 1:i + 1 + seq_len]
    return data, target
]] *)
Definition get_batch (data_source : NDArray) (i : Z) (seq_len : option Z)
    : Res (NDArray * NDArray) :=
  (let seq_len :=
     Z.min (py_or_default seq_len bptt) (nd_len data_source - 1 - i) in
   data <- nd_slice data_source i (i + seq_len) ;;
   target <- nd_slice data_source (i + 1) (i + 1 + seq_len) ;;
   Ok (data, target))%res.

(** *** [evaluate] *)

(** A language model: [model.begin_state(batch_size=.., func=mx.nd.zeros,
    ctx=..)] and [model(data, hidden)]. *)
Record LanguageModel : Type := {
  lm_begin_state : Z -> Ctx -> Res (Hidden Tensor);
  lm_forward : NDArray -> Hidden Tensor -> Res (Out * Hidden Tensor)
}.

(** [mx.nd.sum(L).asscalar()] and [L.size] *)
Definition nd_sum (L : list Float) : Float :=
  fold_right float_add (Finite 0) L.
Definition nd_size (L : list Float) : Z := py_len L.

(** The [for] loop of [evaluate] over the remaining batches; it returns the
    loop's variables as they are when the loop ends. *)
Fixpoint evaluate_loop (model : LanguageModel) (ctx : Ctx)
    (batches : list (NDArray * NDArray))
    (total_L : Scalar) (ntotal : Z) (hidden : Hidden Tensor)
    : Res (Scalar * Z * Hidden Tensor) :=
  match batches with
  | [] => Ok (total_L, ntotal, hidden)
  | (data, target) :: batches =>
      let data := as_in_context data ctx in
      let target := as_in_context target ctx in
      (' (output, hidden) <- lm_forward model data hidden ;;
       let hidden := detach hidden in
       L <- loss (reshape_3_1 output) (reshape_flat target) ;;
       let total_L := scalar_add total_L (nd_sum L) in
       let ntotal := ntotal + nd_size L in
       evaluate_loop model ctx batches total_L ntotal hidden)%res
  end.

(** [[
def evaluate(model, data_source, batch_size, ctx):
    total_L = 0.0
    ntotal = 0
    hidden = model.begin_state(
        batch_size=batch_size, func=mx.nd.zeros, ctx=ctx)
    for i, (data, target) in enumerate(data_source):
        data = data.as_in_context(ctx)
        target = target.as_in_context(ctx)
        output, hidden = model(data, hidden)
        hidden = detach(hidden)
        L = loss(output.reshape(-3, -1), target.reshape(-1))
        total_L += mx.nd.sum(L).asscalar()
        ntotal += L.size
    return total_L / ntotal
]] *)
Definition evaluate (model : LanguageModel)
    (data_source : list (NDArray * NDArray)) (batch_size : Z) (ctx : Ctx)
    : Res Float :=
  (let total_L := PyFloat (Finite 0) in
   let ntotal := 0 in
   hidden <- lm_begin_state model batch_size ctx ;;
   ' (total_L, ntotal, _) <-
      evaluate_loop model ctx data_source total_L ntotal hidden ;;
   scalar_div total_L ntotal)%res.

(** *** [evaluate_cache] *)

(** What one call of the cache model returns:
    [outs, next_word_history, cache_history, hidden]. *)
Definition CacheOut : Type :=
  (list R * option Hist * option Cache * Hidden Tensor)%type.

(** A cache model: [model.begin_state(..)] and
    [model(data, target, next_word_history, cache_history, hidden)]. *)
Record CacheModel : Type := {
  cm_begin_state : Z -> Ctx -> Res (Hidden Tensor);
  cm_forward : NDArray -> NDArray -> option Hist -> option Cache ->
               Hidden Tensor -> Res CacheOut
}.

(** The variables of [evaluate_cache] that live across iterations. *)
Record CacheState : Type := mkCacheState {
  total_L : R;
  hidden : Hidden Tensor;
  next_word_history : option Hist;
  cache_history : option Cache
}.

(** How one iteration of the loop ends: the loop goes on, or the function
    returns. *)
Inductive Flow : Type :=
| Next (st : CacheState)
| Return (v : R).

(** [[
        L = 0
        ...
        for out in outs:
            L += (-mx.nd.log(out)).asscalar()
]] *)
Definition chunk_loss (outs : list R) : R :=
  fold_left (fun L out => (L + - ln out)%R) outs 0%R.

(** [[
        if i > 0:
            print('Batch %d, ppl %f' % (i, math.exp(total_L / i)))
]] *)
Definition report (i : Z) (total_L : R) : M unit :=
  if 0 <? i then print (i, exp (total_L / IZR i)) else ret tt.

(** The body of the [for] loop of [evaluate_cache] at cursor [i]. *)
Definition cache_body (model : CacheModel) (data_source : NDArray)
    (ctx : Ctx) (i : Z) (st : CacheState) : M Flow :=
  (report i (total_L st) ;;
   if i =? bptt then
     v <- lift (py_div (total_L st) i) ;;
     ret (Return v)
   else
     ' (data, target) <- lift (get_batch data_source i None) ;;
     let data := as_in_context data ctx in
     let target := as_in_context target ctx in
     ' (outs, next_word_history, cache_history, hidden) <-
        lift (cm_forward model data target (next_word_history st)
                (cache_history st) (hidden st)) ;;
     let L := chunk_loss outs in
     q <- lift (py_div L (shape1 data)) ;;
     let total_L := (total_L st + q)%R in
     let hidden := detach hidden in
     ret (Next (mkCacheState total_L hidden next_word_history
                  cache_history)))%io.

(** The [for] loop over the remaining cursors, and the [return] after
    it. *)
Fixpoint cache_loop (model : CacheModel) (data_source : NDArray) (ctx : Ctx)
    (cursors : list Z) (st : CacheState) : M R :=
  match cursors with
  | [] => lift (py_div (total_L st) (nd_len data_source))
  | i :: cursors =>
      (flow <- cache_body model data_source ctx i st ;;
       match flow with
       | Return v => ret v
       | Next st => cache_loop model data_source ctx cursors st
       end)%io
  end.

(** The first iterations of the loop, over a prefix [cursors] of the
    range: the state the loop is in after them, or the value returned in
    them.  Only used to state properties of the loop. *)
Fixpoint cache_steps (model : CacheModel) (data_source : NDArray) (ctx : Ctx)
    (cursors : list Z) (st : CacheState) : M Flow :=
  match cursors with
  | [] => ret (Next st)
  | i :: cursors =>
      (flow <- cache_body model data_source ctx i st ;;
       match flow with
       | Return v => ret (Return v)
       | Next st => cache_steps model data_source ctx cursors st
       end)%io
  end.

(** [[
def evaluate_cache(model, data_source, batch_size, ctx):
    total_L = 0.0
    hidden = model.begin_state(
        batch_size=batch_size, func=mx.nd.zeros, ctx=ctx)
    next_word_history = None
    cache_history = None
    for i in range(0, len(data_source) - 1, bptt):
        if i > 0:
            print('Batch %d, ppl %f' % (i, math.exp(total_L / i)))
        if i == bptt:
            return total_L / i
        data, target = get_batch(data_source, i)
        data = data.as_in_context(ctx)
        target = target.as_in_context(ctx)
        L = 0
        outs, next_word_history, cache_history, hidden = model(
            data, target, next_word_history, cache_history, hidden)
        for out in outs:
            L += (-mx.nd.log(out)).asscalar()
        total_L += L / data.shape[1]
        hidden = detach(hidden)
    return total_L / len(data_source)
]] *)
Definition evaluate_cache (model : CacheModel) (data_source : NDArray)
    (batch_size : Z) (ctx : Ctx) : M R :=
  (let total_L := 0%R in
   hidden <- lift (cm_begin_state model batch_size ctx) ;;
   let next_word_history := None in
   let cache_history := None in
   cursors <- lift (py_range 0 (nd_len data_source - 1) bptt) ;;
   cache_loop model data_source ctx cursors
     (mkCacheState total_L hidden next_word_history cache_history))%io.

(** *** Runs of [evaluate_cache] against a model given as a relation

    A model that is a Rocq function answers the same call the same way by
    construction.  To speak about models that may not, the collaborator is
    also given as a relation between a call and its possible answers, and
    [evaluate_cache] as the relation between a starting output and the
    possible outcomes of a run.  [cache_run] follows [evaluate_cache] line
    by line; [evaluate_cache_run] below shows that on a functional model it
    has the outcome computed by [evaluate_cache].  A run also records the
    blended probabilities ([outs]) in the order the model emitted them. *)

Record CacheModelRel : Type := {
  rel_begin_state : Z -> Ctx -> Res (Hidden Tensor) -> Prop;
  rel_forward : NDArray -> NDArray -> option Hist -> option Cache ->
                Hidden Tensor -> Res CacheOut -> Prop
}.

(** The relation of a functional model. *)
Definition graph (m : CacheModel) : CacheModelRel :=
  {| rel_begin_state := fun b c r => cm_begin_state m b c = r;
     rel_forward := fun d t n c h r => cm_forward m d t n c h = r |}.

(** Every call has at most one answer. *)
Definition deterministic (m : CacheModelRel) : Prop :=
  (forall b c r1 r2,
      rel_begin_state m b c r1 -> rel_begin_state m b c r2 -> r1 = r2) /\
  (forall d t n c h r1 r2,
      rel_forward m d t n c h r1 -> rel_forward m d t n c h r2 -> r1 = r2).

(** One iteration at cursor [i]: how it ends, the output after it, and
    the probabilities the model emitted in it. *)
Inductive cache_iter (model : CacheModelRel) (data_source : NDArray)
    (ctx : Ctx) (i : Z) (st : CacheState) (s : Stdout)
    : Res Flow -> Stdout -> list R -> Prop :=
| iter_return :
    i = bptt ->
    cache_iter model data_source ctx i st s
      (v <- py_div (total_L st) i ;; Ok (Return v))%res
      (snd (report i (total_L st) s)) []
| iter_batch_raise e :
    i <> bptt ->
    get_batch data_source i None = Raise e ->
    cache_iter model data_source ctx i st s
      (Raise e) (snd (report i (total_L st) s)) []
| iter_model_raise data target e :
    i <> bptt ->
    get_batch data_source i None = Ok (data, target) ->
    rel_forward model (as_in_context data ctx) (as_in_context target ctx)
      (next_word_history st) (cache_history st)
      (hidden st) (Raise e) ->
    cache_iter model data_source ctx i st s
      (Raise e) (snd (report i (total_L st) s)) []
| iter_chunk data target outs nwh ch h :
    i <> bptt ->
    get_batch data_source i None = Ok (data, target) ->
    rel_forward model (as_in_context data ctx) (as_in_context target ctx)
      (next_word_history st) (cache_history st)
      (hidden st) (Ok (outs, nwh, ch, h)) ->
    cache_iter model data_source ctx i st s
      (q <- py_div (chunk_loss outs) (shape1 (as_in_context data ctx)) ;;
       Ok (Next
             (mkCacheState (total_L st + q)%R
                (detach h) nwh ch)))%res
      (snd (report i (total_L st) s)) outs.

(** The loop from the remaining cursors on; [tr] is what was emitted so
    far. *)
Inductive cache_run_loop (model : CacheModelRel) (data_source : NDArray)
    (ctx : Ctx)
    : list Z -> CacheState -> Stdout -> list R ->
      Res R -> Stdout -> list R -> Prop :=
| loop_exhausted st s tr :
    cache_run_loop model data_source ctx [] st s tr
      (py_div (total_L st) (nd_len data_source)) s tr
| loop_raise i cursors st s tr e s' outs :
    cache_iter model data_source ctx i st s (Raise e) s' outs ->
    cache_run_loop model data_source ctx (i :: cursors) st s tr
      (Raise e) s' (tr ++ outs)
| loop_return i cursors st s tr v s' outs :
    cache_iter model data_source ctx i st s (Ok (Return v)) s' outs ->
    cache_run_loop model data_source ctx (i :: cursors) st s tr
      (Ok v) s' (tr ++ outs)
| loop_next i cursors st s tr st' s' outs r s'' tr'' :
    cache_iter model data_source ctx i st s (Ok (Next st')) s' outs ->
    cache_run_loop model data_source ctx cursors st' s' (tr ++ outs)
      r s'' tr'' ->
    cache_run_loop model data_source ctx (i :: cursors) st s tr r s'' tr''.

(** A whole run from fresh ([None]) histories: the result, the output
    and the sequence of blended probabilities. *)
Inductive cache_run (model : CacheModelRel) (data_source : NDArray)
    (batch_size : Z) (ctx : Ctx) (s : Stdout)
    : Res R -> Stdout -> list R -> Prop :=
| run_begin_raise e :
    rel_begin_state model batch_size ctx (Raise e) ->
    cache_run model data_source batch_size ctx s (Raise e) s []
| run_range_raise h e :
    rel_begin_state model batch_size ctx (Ok h) ->
    py_range 0 (nd_len data_source - 1) bptt = Raise e ->
    cache_run model data_source batch_size ctx s (Raise e) s []
| run_loop h cursors r s' tr :
    rel_begin_state model batch_size ctx (Ok h) ->
    py_range 0 (nd_len data_source - 1) bptt = Ok cursors ->
    cache_run_loop model data_source ctx cursors
      (mkCacheState 0%R h None None) s [] r s' tr ->
    cache_run model data_source batch_size ctx s r s' tr.
End Notebook.

Arguments LanguageModel : clear implicits.
Arguments CacheModel : clear implicits.
Arguments CacheModelRel : clear implicits.
Arguments CacheState : clear implicits.
Arguments CacheOut : clear implicits.
Arguments Flow : clear implicits.

(** ** Observations of a run of [evaluate]

    Used to state properties; [evaluate] itself does not keep these
    values. *)

Section Observations.
Context {Ctx Tensor Out : Type}.
Variable tensor_detach : Tensor -> Tensor.
Variable reshape_3_1 : Out -> Out.
Variable loss : Out -> list Z -> Res (list Float).

(** The loss arrays [L] that the loop of [evaluate] computes, one per
    batch, in the order of the batches; the first failure of the model or
    of the loss if there is one. *)
Fixpoint evaluate_losses (model : LanguageModel Ctx Tensor Out) (ctx : Ctx)
    (batches : list (NDArray * NDArray)) (hidden : Hidden Tensor)
    : Res (list (list Float)) :=
  match batches with
  | [] => Ok []
  | (data, target) :: batches =>
      let data := as_in_context data ctx in
      let target := as_in_context target ctx in
      (' (output, hidden) <- lm_forward model data hidden ;;
       let hidden := detach tensor_detach hidden in
       L <- loss (reshape_3_1 output) (reshape_flat target) ;;
       Ls <- evaluate_losses model ctx batches hidden ;;
       Ok (L :: Ls))%res
  end.
End Observations.

(** ** [train]

    [train] sequences calls of the framework (the model, autograd, the
    trainer, the clock) and does a little arithmetic of its own.  The
    framework's calls are parameters: each one acts on a [World], which
    stands for everything the framework keeps between calls (parameters,
    gradients, what autograd recorded, the optimizer, the random generator,
    the clock), and may raise.  What [train] makes visible outside is
    recorded as a list of [Event]s: the lines it prints, the parameter files
    it writes and the learning rates it sets. *)

(** [x / y] for floats. *)
Definition py_fdiv (x y : R) : Res R :=
  if Req_dec_T y 0 then Raise ZeroDivisionError else Ok (x / y)%R.

(** [a % b] for integers. *)
Definition py_mod (a b : Z) : Res Z :=
  if b =? 0 then Raise ZeroDivisionError else Ok (a mod b).

(** [str(z)], as [format] renders an integer. *)
Definition py_str (z : Z) : string := NilZero.string_of_int (Z.to_int z).

(** [sum(xs)] for a list of floats. *)
Definition py_sum (xs : list R) : R := fold_left Rplus xs 0%R.

(** [zip(xs, ys, zs)] *)
Fixpoint zip3 {A B C : Type} (xs : list A) (ys : list B) (zs : list C)
    : list (A * B * C) :=
  match xs, ys, zs with
  | x :: xs, y :: ys, z :: zs => (x, y, z) :: zip3 xs ys zs
  | _, _, _ => []
  end.

(** [l[j] = x] for [j >= 0]: an index past the end raises [IndexError]. *)
Fixpoint py_setitem {A : Type} (l : list A) (j : nat) (x : A)
    : Res (list A) :=
  match l, j with
  | [], _ => Raise (Foreign "IndexError")
  | _ :: l, O => Ok (x :: l)
  | y :: l, S j => res_bind (py_setitem l j x) (fun l => Ok (y :: l))
  end.

(** [a.size] of a two-dimensional array. *)
Definition nd_elems (a : NDArray) : Z := nd_len a * shape1 a.

(** What [train] makes visible. *)
Inductive Event : Type :=
| PrintBatch (epoch i batches : Z) (cur_L ppl throughput : R)
    (** ['[Epoch %d Batch %d/%d] loss %.2f, ppl %.2f, throughput %.2f
        samples/s'] *)
| PrintEpoch (epoch : Z) (throughput : R)
    (** ['[Epoch %d] throughput %.2f samples/s'] *)
| PrintValid (epoch : Z) (time_cost : R) (val_L ppl : Float)
    (** ['[Epoch %d] time cost %.2fs, valid loss %.2f, valid ppl %.2f'] *)
| PrintTest (test_L ppl : Float)
    (** ['test loss %.2f, test ppl %.2f'] *)
| PrintLearningRate (lr : R)
    (** ['Learning rate now %f'] *)
| PrintTotal (throughput : R)
    (** ['Total training throughput %.2f samples/s'] *)
| SaveParameters (filename : string)
    (** [model.save_parameters(filename)] *)
| SetLearningRate (lr : R).
    (** [trainer.set_learning_rate(lr)] *)

(** [L] in the body of [train]: the integer it starts as, or an array. *)
Inductive LossSum (Arr : Type) : Type :=
| LInt (z : Z)
| LArr (a : Arr).

Arguments LInt {Arr} z.
Arguments LArr {Arr} a.

Section Training.
Context {Ctx Tensor Out : Type}.

(** The framework's state, the handle on the parameters, the gradients, and
    the float arrays computed while autograd records. *)
Context {World Params Grads Arr : Type}.

(** The calls of the framework. *)
Record Framework : Type := {
  (** [time.time()] *)
  time_time : World -> R * World;
  (** [model.collect_params().values()] *)
  collect_params : World -> Res Params * World;
  (** [model.begin_state(n, func=mx.nd.zeros, ctx=ctx)] *)
  begin_state : Z -> Ctx -> World -> Res (Hidden Tensor) * World;
  (** [gluon.utils.split_and_load(a, context, batch_axis=1,
      even_split=True)] *)
  split_and_load : NDArray -> list Ctx -> World -> Res (list NDArray) * World;
  (** entering and leaving [with autograd.record()] *)
  record_enter : World -> World;
  record_exit : World -> World;
  (** [model(X, h)] while recording *)
  forward : NDArray -> Hidden Tensor -> World
            -> Res (Out * Hidden Tensor) * World;
  (** [loss(output, y)] while recording *)
  loss_recorded : Out -> list Z -> World -> Res Arr * World;
  (** [a / n], [z + a] and [a + b] on arrays while recording *)
  arr_div : Arr -> Z -> World -> Res Arr * World;
  int_add_arr : Z -> Arr -> World -> Res Arr * World;
  arr_add : Arr -> Arr -> World -> Res Arr * World;
  (** [L.backward()] *)
  backward : Arr -> World -> Res unit * World;
  (** [[p.grad(x.context) for p in parameters for x in data_list]] *)
  gradients : Params -> list NDArray -> World -> Res Grads * World;
  (** [gluon.utils.clip_global_norm(grads, grad_clip)] *)
  clip_global_norm : Grads -> R -> World -> Res unit * World;
  (** [trainer.step(n)] *)
  trainer_step : Z -> World -> Res unit * World;
  (** [mx.nd.sum(l).asscalar()] *)
  sum_asscalar : Arr -> World -> Res R * World;
  (** [mx.nd.waitall()] *)
  waitall : World -> Res unit * World;
  (** the model with its parameters as they are, as [evaluate] sees it *)
  model_now : World -> LanguageModel Ctx Tensor Out;
  (** [model.save_parameters(filename)] *)
  save_parameters : string -> World -> Res unit * World;
  (** [trainer.set_learning_rate(lr)] *)
  set_learning_rate : R -> World -> Res unit * World
}.

(** The global [context]; it is never empty:
    [[mx.gpu(i) for i in range(num_gpus)] if num_gpus else [mx.cpu()]]. *)
Variable context0 : Ctx.
Variable context_rest : list Ctx.

Definition context : list Ctx := context0 :: context_rest.

(** The state [train] runs in, and computations in it. *)
Record TrainState : Type := mkTrainState {
  world : World;
  trace : list Event
}.

Definition T (A : Type) : Type := TrainState -> Res A * TrainState.

Definition t_ret {A : Type} (a : A) : T A := fun s => (Ok a, s).

Definition t_bind {A B : Type} (c : T A) (k : A -> T B) : T B :=
  fun s =>
    match c s with
    | (Ok a, s') => k a s'
    | (Raise e, s') => (Raise e, s')
    end.

Definition t_lift {A : Type} (r : Res A) : T A := fun s => (r, s).

(** A call of the framework. *)
Definition call {A : Type} (op : World -> Res A * World) : T A :=
  fun s => let (r, w) := op (world s) in (r, mkTrainState w (trace s)).

(** A call of the framework that cannot raise and returns nothing. *)
Definition call_ (op : World -> World) : T unit :=
  fun s => (Ok tt, mkTrainState (op (world s)) (trace s)).

(** [time.time()] *)
Definition clock (fw : Framework) : T R :=
  fun s => let (t, w) := time_time fw (world s) in
           (Ok t, mkTrainState w (trace s)).

(** The framework's state as it is. *)
Definition get_world : T World := fun s => (Ok (world s), s).

Definition emit (e : Event) : T unit :=
  fun s => (Ok tt, mkTrainState (world s) (trace s ++ [e])).

(** [with ...: body]: the scope is left whether [body] raises or not. *)
Definition t_finally {A : Type} (body : T A) (leave : T unit) : T A :=
  fun s =>
    let (r, s1) := body s in
    match leave s1 with
    | (Ok _, s2) => (r, s2)
    | (Raise e, s2) => (Raise e, s2)
    end.

(** [[f(x) for x in xs]] *)
Fixpoint t_map {A B : Type} (f : A -> T B) (xs : list A) : T (list B) :=
  match xs with
  | [] => t_ret []
  | x :: xs =>
      t_bind (f x) (fun y =>
      t_bind (t_map f xs) (fun ys =>
      t_ret (y :: ys)))
  end.
End Training.

Arguments Framework : clear implicits.
Arguments TrainState : clear implicits.
Arguments T : clear implicits.

Declare Scope train_scope.
Delimit Scope train_scope with train.

Notation "x <- c ;; k" := (t_bind c (fun x => k))
  (at level 61, c at next level, right associativity) : train_scope.
Notation "' p <- c ;; k" := (t_bind c (fun x => match x with p => k end))
  (at level 61, p pattern, c at next level, right associativity)
  : train_scope.
Notation "c ;; k" := (t_bind c (fun _ => k))
  (at level 61, right associativity) : train_scope.

Section TrainingLoop.
Context {Ctx Tensor Out World Params Grads Arr : Type}.
Variable tensor_detach : Tensor -> Tensor.
Variable reshape_3_1 : Out -> Out.

(** The global [loss], as [evaluate] calls it. *)
Variable loss : Out -> list Z -> Res (list Float).

(** The other globals of the notebook. *)
Variable context0 : Ctx.
Variable context_rest : list Ctx.
Variables batch_size log_interval : Z.
Variable grad_clip : R.
Variables model_name dataset_name : string.

(** The model, the trainer and the rest of the framework. *)
Variable fw : Framework Ctx Tensor Out World Params Grads Arr.

(** [a.as_in_context(ctx)] on a float array, as on an array of tokens. *)
Definition arr_as_in_context (a : Arr) (ctx : Ctx) : Arr := a.

(** [L + d] *)
Definition loss_sum_add (L : LossSum Arr) (d : Arr) : T World (LossSum Arr) :=
  match L with
  | LInt z => (a <- call (int_add_arr fw z d) ;; t_ret (LArr a))%train
  | LArr b => (a <- call (arr_add fw b d) ;; t_ret (LArr a))%train
  end.

(** [L.backward()]: an integer has no such method. *)
Definition loss_sum_backward (L : LossSum Arr) : T World unit :=
  match L with
  | LInt _ => t_lift (Raise (Foreign "AttributeError"))
  | LArr a => call (backward fw a)
  end.

(** [[
                for j, (X, y, h) in enumerate(zip(data_list, target_list, hiddens)):
                    output, h = model(X, h)
                    batch_L = loss(output.reshape(-3, -1), y.reshape(-1,))
                    L = L + batch_L.as_in_context(context[0]) / (len(context) * X.size)
                    Ls.append(batch_L / (len(context) * X.size))
                    hiddens[j] = h
]]
    [triples] is what is left of the [zip]; [hiddens[j] = h] only writes
    positions the [zip] has already read. *)
Fixpoint record_loop (j : nat)
    (triples : list (NDArray * NDArray * Hidden Tensor))
    (L : LossSum Arr) (Ls : list Arr) (hiddens : list (Hidden Tensor))
    : T World (LossSum Arr * list Arr * list (Hidden Tensor)) :=
  match triples with
  | [] => t_ret (L, Ls, hiddens)
  | (X, y, h) :: triples =>
      (' (output, h) <- call (forward fw X h) ;;
       batch_L <- call (loss_recorded fw (reshape_3_1 output)
                          (reshape_flat y)) ;;
       d <- call (arr_div fw (arr_as_in_context batch_L context0)
                    (py_len (context context0 context_rest) * nd_elems X)) ;;
       L <- loss_sum_add L d ;;
       l <- call (arr_div fw batch_L
                    (py_len (context context0 context_rest) * nd_elems X)) ;;
       let Ls := Ls ++ [l] in
       hiddens <- t_lift (py_setitem hiddens j h) ;;
       record_loop (S j) triples L Ls hiddens)%train
  end.

(** One batch up to the update of [total_L]; it returns [total_L] and
    [hiddens] as they are then.
[[
            data_list = gluon.utils.split_and_load(data, context,
                                                   batch_axis=1, even_split=True)
            target_list = gluon.utils.split_and_load(target, context,
                                                     batch_axis=1, even_split=True)
            hiddens = detach(hiddens)
            L = 0
            Ls = []

            with autograd.record():
                for j, (X, y, h) in enumerate(zip(data_list, target_list, hiddens)):
                    ...
            L.backward()
            grads = [p.grad(x.context) for p in parameters for x in data_list]
            gluon.utils.clip_global_norm(grads, grad_clip)

            trainer.step(1)

            total_L += sum([mx.nd.sum(l).asscalar() for l in Ls])
]] *)
Definition batch_update (parameters : Params) (data target : NDArray)
    (total_L : R) (hiddens : list (Hidden Tensor))
    : T World (R * list (Hidden Tensor)) :=
  (data_list <- call (split_and_load fw data
                        (context context0 context_rest)) ;;
   target_list <- call (split_and_load fw target
                          (context context0 context_rest)) ;;
   let hiddens := children (detach tensor_detach (HList hiddens)) in
   let L := LInt 0 in
   let Ls := [] in
   ' (L, Ls, hiddens) <-
      t_finally
        (call_ (record_enter fw) ;;
         record_loop 0 (zip3 data_list target_list hiddens) L Ls hiddens)
        (call_ (record_exit fw)) ;;
   loss_sum_backward L ;;
   grads <- call (gradients fw parameters data_list) ;;
   call (clip_global_norm fw grads grad_clip) ;;
   call (trainer_step fw 1) ;;
   sums <- t_map (fun l => call (sum_asscalar fw l)) Ls ;;
   let total_L := (total_L + py_sum sums)%R in
   t_ret (total_L, hiddens))%train.

(** The loop of [train] over the batches that are left; [i] is the index
    [enumerate] gives the first of them.  It returns [total_L],
    [start_log_interval_time] and [hiddens] as they are when the loop
    ends.
[[
        for i, (data, target) in enumerate(train_data):
            ...
            total_L += sum([mx.nd.sum(l).asscalar() for l in Ls])

            if i % log_interval == 0 and i > 0:
                cur_L = total_L / log_interval
                print('[Epoch %d Batch %d/%d] loss %.2f, ppl %.2f, '
                      'throughput %.2f samples/s'%(
                    epoch, i, len(train_data), cur_L, math.exp(cur_L),
                    batch_size * log_interval / (time.time() - start_log_interval_time)))
                total_L = 0.0
                start_log_interval_time = time.time()
]] *)
Fixpoint batch_loop (parameters : Params) (epoch batches : Z) (i : Z)
    (train_data : list (NDArray * NDArray))
    (total_L start_log_interval_time : R) (hiddens : list (Hidden Tensor))
    : T World (R * R * list (Hidden Tensor)) :=
  match train_data with
  | [] => t_ret (total_L, start_log_interval_time, hiddens)
  | (data, target) :: train_data =>
      (' (total_L, hiddens) <-
          batch_update parameters data target total_L hiddens ;;
       r <- t_lift (py_mod i log_interval) ;;
       if (r =? 0) && (0 <? i) then
         cur_L <- t_lift (py_div total_L log_interval) ;;
         now <- clock fw ;;
         throughput <- t_lift (py_fdiv (IZR (batch_size * log_interval))
                                 (now - start_log_interval_time)) ;;
         emit (PrintBatch epoch i batches cur_L (exp cur_L) throughput) ;;
         let total_L := 0%R in
         start_log_interval_time <- clock fw ;;
         batch_loop parameters epoch batches (i + 1) train_data total_L
           start_log_interval_time hiddens
       else
         batch_loop parameters epoch batches (i + 1) train_data total_L
           start_log_interval_time hiddens)%train
  end.

(** ['{}_{}-{}.params'.format(model_name, dataset_name, epoch)] *)
Definition params_file (epoch : Z) : string :=
  (model_name ++ "_" ++ dataset_name ++ "-" ++ py_str epoch ++ ".params")
  %string.

(** The body of the loop over the epochs; it returns [best_val] and [lr]
    as they are after the epoch.
[[
        total_L = 0.0
        start_epoch_time = time.time()
        start_log_interval_time = time.time()
        hiddens = [model.begin_state(batch_size//len(context), func=mx.nd.zeros, ctx=ctx)
                   for ctx in context]

        for i, (data, target) in enumerate(train_data):
            ...

        mx.nd.waitall()

        print('[Epoch %d] throughput %.2f samples/s'%(
                    epoch, len(train_data)*batch_size / (time.time() - start_epoch_time)))

        val_L = evaluate(model, val_data, batch_size, context[0])
        print('[Epoch %d] time cost %.2fs, valid loss %.2f, valid ppl %.2f'%(
            epoch, time.time()-start_epoch_time, val_L, math.exp(val_L)))

        if val_L < best_val:
            best_val = val_L
            test_L = evaluate(model, test_data, batch_size, context[0])
            model.save_parameters('{}_{}-{}.params'.format(model_name, dataset_name, epoch))
            print('test loss %.2f, test ppl %.2f'%(test_L, math.exp(test_L)))
        else:
            lr = lr*0.25
            print('Learning rate now %f'%(lr))
            trainer.set_learning_rate(lr)
]] *)
Definition train_epoch (parameters : Params)
    (train_data val_data test_data : list (NDArray * NDArray))
    (epoch : Z) (best_val : Float) (lr : R) : T World (Float * R) :=
  (let total_L := 0%R in
   start_epoch_time <- clock fw ;;
   start_log_interval_time <- clock fw ;;
   hiddens <- t_map (fun ctx =>
                call (begin_state fw
                        (batch_size / py_len (context context0 context_rest))
                        ctx))
              (context context0 context_rest) ;;
   _ <- batch_loop parameters epoch (py_len train_data) 0 train_data
          total_L start_log_interval_time hiddens ;;
   call (waitall fw) ;;
   now <- clock fw ;;
   throughput <- t_lift (py_fdiv (IZR (py_len train_data * batch_size))
                           (now - start_epoch_time)) ;;
   emit (PrintEpoch epoch throughput) ;;
   w <- get_world ;;
   val_L <- t_lift (evaluate tensor_detach reshape_3_1 loss (model_now fw w)
                      val_data batch_size context0) ;;
   now <- clock fw ;;
   emit (PrintValid epoch (now - start_epoch_time) val_L
           (float_exp val_L)) ;;
   if float_lt val_L best_val then
     let best_val := val_L in
     w <- get_world ;;
     test_L <- t_lift (evaluate tensor_detach reshape_3_1 loss
                         (model_now fw w) test_data batch_size context0) ;;
     emit (SaveParameters (params_file epoch)) ;;
     call (save_parameters fw (params_file epoch)) ;;
     emit (PrintTest test_L (float_exp test_L)) ;;
     t_ret (best_val, lr)
   else
     let lr := (lr * 0.25)%R in
     emit (PrintLearningRate lr) ;;
     emit (SetLearningRate lr) ;;
     call (set_learning_rate fw lr) ;;
     t_ret (best_val, lr))%train.

(** The loop over the epochs that are left. *)
Fixpoint epoch_loop (parameters : Params)
    (train_data val_data test_data : list (NDArray * NDArray))
    (epochs : list Z) (best_val : Float) (lr : R) : T World (Float * R) :=
  match epochs with
  | [] => t_ret (best_val, lr)
  | epoch :: epochs =>
      (' (best_val, lr) <- train_epoch parameters train_data val_data
                             test_data epoch best_val lr ;;
       epoch_loop parameters train_data val_data test_data epochs
         best_val lr)%train
  end.

(** [[
def train(model, train_data, val_data, test_data, epochs, lr):
    best_val = float("Inf")
    start_train_time = time.time()
    parameters = model.collect_params().values()

    for epoch in range(epochs):
        ...

    print('Total training throughput %.2f samples/s'%(
                            (batch_size * len(train_data) * epochs) /
                            (time.time() - start_train_time)))
]]
    The model is part of [fw]. *)
Definition train (train_data val_data test_data : list (NDArray * NDArray))
    (epochs : Z) (lr : R) : T World unit :=
  (let best_val := Infinity in
   start_train_time <- clock fw ;;
   parameters <- call (collect_params fw) ;;
   range_epochs <- t_lift (py_range 0 epochs 1) ;;
   _ <- epoch_loop parameters train_data val_data test_data range_epochs
          best_val lr ;;
   now <- clock fw ;;
   throughput <- t_lift (py_fdiv
                           (IZR (batch_size * py_len train_data * epochs))
                           (now - start_train_time)) ;;
   emit (PrintTotal throughput))%train.
End TrainingLoop.

(** *** What a trace shows of the decisions of [train] *)

(** The learning rates set, in order. *)
Definition learning_rates (evs : list Event) : list R :=
  flat_map (fun e => match e with SetLearningRate lr => [lr] | _ => [] end)
    evs.

(** The files written, in order. *)
Definition saved_files (evs : list Event) : list string :=
  flat_map (fun e => match e with SaveParameters f => [f] | _ => [] end) evs.

(** The validation losses printed, in order. *)
Definition valid_losses (evs : list Event) : list Float :=
  flat_map (fun e => match e with PrintValid _ _ v _ => [v] | _ => [] end)
    evs.

(** The decisions taken, in order: [true] for parameters saved, [false]
    for a learning rate set. *)
Definition decisions (evs : list Event) : list bool :=
  flat_map (fun e => match e with
                     | SaveParameters _ => [true]
                     | SetLearningRate _ => [false]
                     | _ => []
                     end) evs.

(** The batch lines printed, in order: the epoch and the index of the
    batch. *)
Definition batch_lines (evs : list Event) : list (Z * Z) :=
  flat_map (fun e => match e with
                     | PrintBatch epoch i _ _ _ _ => [(epoch, i)]
                     | _ => []
                     end) evs.

(** The indices [i] among [first, first + 1, ..., first + n - 1] with
    [i % log_interval == 0 and i > 0]. *)
Definition logged_batches (log_interval first : Z) (n : nat) : list Z :=
  filter (fun i => (i mod log_interval =? 0) && (0 <? i))
    (map (fun k => first + Z.of_nat k) (seq 0 n)).

(** *** Descriptions of traces and computations, used in the proofs *)

(** A computation that, when it returns, has printed the batch lines
    [lines] and no other batch line. *)
Definition prints_batches {World A : Type} (lines : list (Z * Z))
    (c : T World A) : Prop :=
  forall s a s', c s = (Ok a, s') ->
    exists evs, trace s' = trace s ++ evs /\ batch_lines evs = lines.

(** An event that is neither a decision nor a validation loss. *)
Definition silent (e : Event) : Prop :=
  match e with
  | PrintBatch _ _ _ _ _ _ => True
  | PrintEpoch _ _ => True
  | _ => False
  end.

Definition batch_line (e : Event) : Prop :=
  match e with
  | PrintBatch _ _ _ _ _ _ => True
  | _ => False
  end.

(** A computation that adds nothing to the trace, however it ends. *)
Definition quiet {World A : Type} (c : T World A) : Prop :=
  forall s r s', c s = (r, s') -> trace s' = trace s.

(** A computation that only adds events satisfying [P]. *)
Definition emits {World A : Type} (P : Event -> Prop) (c : T World A) : Prop :=
  forall s r s', c s = (r, s') ->
    exists evs, trace s' = trace s ++ evs /\ Forall P evs.

(** The events of completed epochs: for each epoch some batch lines and
    the throughput line, the validation line, and then either the file
    saved and the test line (the validation loss compares below the best
    so far, which it becomes), or the learning rate printed and set to a
    quarter of what it was. *)
Inductive epochs_trace (file : Z -> string)
    : list Z -> Float -> R -> list Event -> Float -> R -> Prop :=
| epochs_done best lr :
    epochs_trace file [] best lr [] best lr
| epoch_saved epoch epochs best lr pre tc v t evs best' lr' :
    Forall silent pre ->
    float_lt v best = true ->
    epochs_trace file epochs v lr evs best' lr' ->
    epochs_trace file (epoch :: epochs) best lr
      (pre ++ PrintValid epoch tc v (float_exp v)
           :: SaveParameters (file epoch)
           :: PrintTest t (float_exp t) :: evs)
      best' lr'
| epoch_cut epoch epochs best lr pre tc v evs best' lr' :
    Forall silent pre ->
    float_lt v best = false ->
    epochs_trace file epochs best (lr * 0.25)%R evs best' lr' ->
    epochs_trace file (epoch :: epochs) best lr
      (pre ++ PrintValid epoch tc v (float_exp v)
           :: PrintLearningRate (lr * 0.25)
           :: SetLearningRate (lr * 0.25) :: evs)
      best' lr'.

(** ** Sample inputs *)

(** A stream of three time steps and one lane. *)
Definition stream3 : NDArray := mkND [[10]; [11]; [12]] 1.

(** A stream of five time steps and one lane. *)
Definition stream5 : NDArray := mkND [[10]; [11]; [12]; [13]; [14]] 1.

(** A tensor for the examples: a value and whether it is still attached to
    the computation graph. *)
Definition SampleTensor : Type := (Z * bool)%type.

Definition sample_detach (t : SampleTensor) : SampleTensor := (fst t, false).

(** The state of a two-layer LSTM as the framework hands it out: a list of
    layers, each a tuple of two tensors. *)
Definition sample_hidden : Hidden SampleTensor :=
  HList [HTuple [HTensor (1, true); HTensor (2, true)];
         HTuple [HTensor (3, true); HTensor (4, true)]].

(** A cache model for the examples: it keeps the state, emits the
    probability [1/2] for every target step and marks both histories as
    present. *)
Definition sample_cache_model : CacheModel unit SampleTensor unit unit :=
  {| cm_begin_state := fun _ _ => Ok sample_hidden;
     cm_forward := fun _ target _ _ h =>
       Ok (map (fun _ => (/ 2)%R) (nd_rows target), Some tt, Some tt, h) |}.

(** A cache model whose forward call fails. *)
Definition failing_cache_model : CacheModel unit SampleTensor unit unit :=
  {| cm_begin_state := fun _ _ => Ok sample_hidden;
     cm_forward := fun _ _ _ _ _ => Raise (Foreign "MXNetError") |}.

(** A language model that succeeds on its first call (the fresh state is
    still attached) and fails afterwards. *)
Definition failing_language_model : LanguageModel unit SampleTensor unit :=
  {| lm_begin_state := fun _ _ => Ok (HTensor (0, true));
     lm_forward := fun _ h =>
       match h with
       | HTensor (_, true) => Ok (tt, h)
       | _ => Raise (Foreign "MXNetError")
       end |}.

(** A loss for the examples: one value per target. *)
Definition sample_loss (output : unit) (target : list Z)
    : Res (list Float) :=
  Ok (map (fun _ => Finite 1) target).

(** The batches of a short corpus, as [(data, target)] pairs. *)
Definition sample_batches : list (NDArray * NDArray) :=
  [(mkND [[10]; [11]] 1, mkND [[11]; [12]] 1);
   (mkND [[12]; [13]] 1, mkND [[13]; [14]] 1);
   (mkND [[14]; [15]] 1, mkND [[15]; [16]] 1)].

(** A language model that keeps its state and never fails. *)
Definition sample_language_model : LanguageModel unit SampleTensor unit :=
  {| lm_begin_state := fun _ _ => Ok (HTensor (0, true));
     lm_forward := fun _ h => Ok (tt, h) |}.

(** A cache model that emits the same probabilities as
    [sample_cache_model] but hands back no history and an empty state. *)
Definition forgetful_cache_model : CacheModel unit SampleTensor unit unit :=
  {| cm_begin_state := fun _ _ => Ok sample_hidden;
     cm_forward := fun _ target _ _ _ =>
       Ok (map (fun _ => (/ 2)%R) (nd_rows target), None, None, HList []) |}.

(** A framework for the examples.  Its state is the reading of the clock,
    which advances by one at each [time.time()]; float arrays are single
    floats; every call succeeds; the model as [evaluate] sees it is
    [sample_language_model] throughout. *)
Definition sample_framework
    : Framework unit SampleTensor unit Z unit unit R :=
  {| time_time := fun w => (IZR w, w + 1);
     collect_params := fun w => (Ok tt, w);
     begin_state := fun _ _ w => (Ok (HTensor (0, true)), w);
     split_and_load := fun a ctxs w => (Ok (map (fun _ => a) ctxs), w);
     record_enter := fun w => w;
     record_exit := fun w => w;
     forward := fun _ h w => (Ok (tt, h), w);
     loss_recorded := fun _ _ w => (Ok 1%R, w);
     arr_div := fun a n w => (Ok (a / IZR n)%R, w);
     int_add_arr := fun z a w => (Ok (IZR z + a)%R, w);
     arr_add := fun a b w => (Ok (a + b)%R, w);
     backward := fun _ w => (Ok tt, w);
     gradients := fun _ _ w => (Ok tt, w);
     clip_global_norm := fun _ _ w => (Ok tt, w);
     trainer_step := fun _ w => (Ok tt, w);
     sum_asscalar := fun a w => (Ok a, w);
     waitall := fun w => (Ok tt, w);
     model_now := fun _ => sample_language_model;
     save_parameters := fun _ w => (Ok tt, w);
     set_learning_rate := fun _ w => (Ok tt, w) |}.

(** * Properties *)

(** ** Slicing *)

Section SliceFacts.
Context {A : Type}.
Implicit Types (l : list A) (a b k : Z).

Lemma py_len_nonneg l : 0 <= py_len l.
Proof. unfold py_len; lia. Qed.

Lemma slice_bound_inside n k : 0 <= k <= n -> slice_bound n k = k.
Proof.
  intros Hk; unfold slice_bound.
  destruct (Z.ltb_spec k 0); lia.
Qed.


Lemma slice_bound_range n k : 0 <= n -> 0 <= slice_bound n k <= n.
Proof.
  intros Hn; unfold slice_bound.
  destruct (Z.ltb_spec k 0); lia.
Qed.

Lemma py_slice_inside l a b :
  0 <= a <= b -> b <= py_len l ->
  py_slice l a b = firstn (Z.to_nat (b - a)) (skipn (Z.to_nat a) l).
Proof.
  intros Ha Hb; unfold py_slice; cbv zeta.
  rewrite !slice_bound_inside by lia; reflexivity.
Qed.

Lemma py_slice_length l a b :
  0 <= a <= b -> b <= py_len l -> py_len (py_slice l a b) = b - a.
Proof.
  intros Ha Hb; rewrite py_slice_inside by assumption.
  unfold py_len in *.
  rewrite length_firstn, length_skipn; lia.
Qed.

Lemma py_slice_at l a b k :
  0 <= a <= b -> b <= py_len l -> 0 <= k < b - a ->
  py_at (py_slice l a b) k = py_at l (a + k).
Proof.
  intros Ha Hb Hk; rewrite py_slice_inside by assumption.
  unfold py_at.
  destruct (Z.ltb_spec k 0); [lia|].
  destruct (Z.ltb_spec (a + k) 0); [lia|].
  rewrite nth_error_firstn.
  destruct (Nat.ltb_spec (Z.to_nat k) (Z.to_nat (b - a))); [|lia].
  rewrite nth_error_skipn; f_equal; lia.
Qed.

Lemma py_at_some l k : 0 <= k < py_len l -> exists x, py_at l k = Some x.
Proof.
  intros Hk; unfold py_at, py_len in *.
  destruct (Z.ltb_spec k 0); [lia|].
  destruct (nth_error l (Z.to_nat k)) eqn:E; [eauto|].
  apply nth_error_None in E; lia.
Qed.

(** A slice whose clipped bounds cross is empty. *)
Lemma py_slice_crossed l a b :
  slice_bound (py_len l) b <= slice_bound (py_len l) a -> py_slice l a b = [].
Proof.
  intros H; unfold py_slice; cbv zeta.
  replace (Z.to_nat _) with 0%nat by lia; reflexivity.
Qed.
(** Slicing a prefix of a sequence is slicing the sequence. *)
Lemma py_slice_prefix l a b c :
  0 <= a <= b -> b <= c -> c <= py_len l ->
  py_slice (py_slice l 0 c) a b = py_slice l a b.
Proof.
  intros Ha Hb Hc.
  assert (Hlen : py_len (py_slice l 0 c) = c - 0)
    by (apply py_slice_length; lia).
  rewrite (py_slice_inside (py_slice l 0 c)) by lia.
  rewrite (py_slice_inside l 0 c), (py_slice_inside l a b) by lia.
  cbn [Z.to_nat skipn].
  rewrite skipn_firstn_comm, firstn_firstn.
  f_equal; lia.
Qed.
End SliceFacts.

Example py_slice_clipped : py_slice [1; 2; 3; 4] 2 9 = [3; 4].
Proof. reflexivity. Qed.

Example py_slice_from_end : py_slice [1; 2; 3; 4] (-3) (-1) = [2; 3].
Proof. reflexivity. Qed.

Example py_range_by_two : py_range 0 4 2 = Ok [0; 2].
Proof. reflexivity. Qed.

Example py_range_zero_step : py_range 0 4 0 = Raise ValueError.
Proof. reflexivity. Qed.

(** ** [get_batch] *)

Example get_batch_inner_window :
  get_batch 2 stream5 1 None
  = Ok (mkND [[11]; [12]] 1, mkND [[12]; [13]] 1).
Proof. reflexivity. Qed.

Example get_batch_last_window :
  get_batch 2 stream5 3 None = Ok (mkND [[13]] 1, mkND [[14]] 1).
Proof. reflexivity. Qed.

Section GetBatch.
Variable bptt : Z.
Implicit Types (ds : NDArray) (i w : Z) (seq_len : option Z).

Lemma nd_len_nonneg ds : 0 <= nd_len ds.
Proof. apply py_len_nonneg. Qed.

Lemma nd_window_len ds a b :
  0 <= a <= b -> b <= nd_len ds -> nd_len (nd_window ds a b) = b - a.
Proof. intros; unfold nd_len, nd_window; cbn; now apply py_slice_length. Qed.

Lemma nd_window_at ds a b k :
  0 <= a <= b -> b <= nd_len ds -> 0 <= k < b - a ->
  nd_at (nd_window ds a b) k = nd_at ds (a + k).
Proof. intros; unfold nd_at, nd_window; cbn; now apply py_slice_at. Qed.

(** A slice that lies inside the array is accepted. *)
Lemma nd_slice_inside ds a b :
  0 <= a <= b -> b <= nd_len ds -> a < nd_len ds ->
  nd_slice ds a b = Ok (nd_window ds a b).
Proof.
  intros Ha Hb Hlt; unfold nd_slice; cbv zeta.
  rewrite !slice_bound_inside by lia.
  destruct (Z.ltb_spec b a); [lia|].
  destruct (Z.leb_spec (nd_len ds) a); [lia | reflexivity].
Qed.

(** The window [get_batch] cuts at a cursor that leaves room for a target:
    both halves have the effective length. *)
Lemma get_batch_window ds i seq_len :
  0 <= i <= nd_len ds - 2 -> 1 <= py_or_default seq_len bptt ->
  let w_eff := Z.min (py_or_default seq_len bptt) (nd_len ds - 1 - i) in
  get_batch bptt ds i seq_len =
    Ok (nd_window ds i (i + w_eff), nd_window ds (i + 1) (i + 1 + w_eff)) /\
  nd_slice ds i (i + w_eff) = Ok (nd_window ds i (i + w_eff)) /\
  nd_slice ds (i + 1) (i + 1 + w_eff)
    = Ok (nd_window ds (i + 1) (i + 1 + w_eff)) /\
  nd_len (nd_window ds i (i + w_eff)) = w_eff /\
  nd_len (nd_window ds (i + 1) (i + 1 + w_eff)) = w_eff /\
  1 <= w_eff.
Proof.
  intros Hi Hw w_eff.
  assert (1 <= w_eff <= nd_len ds - 1 - i) by (subst w_eff; lia).
  assert (Hd : nd_slice ds i (i + w_eff) = Ok (nd_window ds i (i + w_eff)))
    by (apply nd_slice_inside; lia).
  assert (Ht : nd_slice ds (i + 1) (i + 1 + w_eff)
               = Ok (nd_window ds (i + 1) (i + 1 + w_eff)))
    by (apply nd_slice_inside; lia).
  split; [|split; [exact Hd | split; [exact Ht|]]].
  - unfold get_batch; cbv zeta; fold w_eff.
    now rewrite Hd, Ht.
  - rewrite !nd_window_len by lia.
    repeat split; lia.
Qed.

(** C1: at a cursor [0 <= i <= len(data_source) - 2] and for a window
    [w >= 1] given by the caller, [get_batch] returns data and target of
    length exactly [min(w, len(data_source) - 1 - i)]: never more than [w],
    exactly [w] when [i + w < len(data_source) - 1], exactly [1] when
    [i = len(data_source) - 2]. *)
Theorem get_batch_window_length ds i w :
  0 <= i <= nd_len ds - 2 -> 1 <= w ->
  exists data target,
    get_batch bptt ds i (Some w) = Ok (data, target) /\
    nd_len data = Z.min w (nd_len ds - 1 - i) /\
    nd_len target = Z.min w (nd_len ds - 1 - i) /\
    nd_len data <= w /\ nd_len target <= w /\
    (i + w < nd_len ds - 1 -> nd_len data = w /\ nd_len target = w) /\
    (i = nd_len ds - 2 -> nd_len data = 1 /\ nd_len target = 1).
Proof.
  intros Hi Hw.
  assert (Hd : py_or_default (Some w) bptt = w).
  { cbn; destruct (Z.eqb_spec w 0); [lia | reflexivity]. }
  destruct (get_batch_window ds i (Some w) Hi)
    as (Hg & _ & _ & Hdata & Htarget & _); [lia|].
  rewrite Hd in *.
  eexists _, _; split; [exact Hg|].
  rewrite Hdata, Htarget.
  repeat split; lia.
Qed.

(** C2: in a window returned at a cursor [0 <= i <= len(data_source) - 2],
    the target is the slice [data_source[i+1 : i+1+w_eff]]: data and target
    read the stream at [i + t] and [i + 1 + t], so [target[t] = data[t+1]]
    where both exist, and the last target is the token that follows the
    last input of the window in the stream. *)
Theorem get_batch_target_shifted ds i seq_len :
  0 <= i <= nd_len ds - 2 -> 1 <= py_or_default seq_len bptt ->
  let w_eff := Z.min (py_or_default seq_len bptt) (nd_len ds - 1 - i) in
  exists data target,
    get_batch bptt ds i seq_len = Ok (data, target) /\
    nd_slice ds (i + 1) (i + 1 + w_eff) = Ok target /\
    (forall t, 0 <= t < w_eff ->
       nd_at data t = nd_at ds (i + t) /\
       nd_at target t = nd_at ds (i + 1 + t) /\
       exists tok, nd_at target t = Some tok) /\
    (forall t, 0 <= t -> t + 1 < w_eff ->
       nd_at target t = nd_at data (t + 1)) /\
    nd_at data (w_eff - 1) = nd_at ds (i + w_eff - 1) /\
    nd_at target (w_eff - 1) = nd_at ds (i + w_eff - 1 + 1).
Proof.
  intros Hi Hw w_eff.
  destruct (get_batch_window ds i seq_len Hi Hw)
    as (Hg & _ & Hslice & _ & _ & Hw1).
  fold w_eff in Hg, Hslice, Hw1.
  assert (Hle : w_eff <= nd_len ds - 1 - i) by (subst w_eff; lia).
  assert (Hrd : forall t, 0 <= t < w_eff ->
            nd_at (nd_window ds i (i + w_eff)) t = nd_at ds (i + t)).
  { intros t Ht; apply nd_window_at; lia. }
  assert (Hrt : forall t, 0 <= t < w_eff ->
            nd_at (nd_window ds (i + 1) (i + 1 + w_eff)) t
            = nd_at ds (i + 1 + t)).
  { intros t Ht; apply nd_window_at; lia. }
  eexists _, _; split; [exact Hg|].
  split; [exact Hslice|].
  split; [|split; [|split]].
  - intros t Ht; split; [now apply Hrd|]; split; [now apply Hrt|].
    rewrite Hrt by lia.
    apply py_at_some; fold (nd_len ds); lia.
  - intros t Ht0 Ht1.
    rewrite Hrt, Hrd by lia; f_equal; lia.
  - rewrite Hrd by lia; f_equal; lia.
  - rewrite Hrt by lia; f_equal; lia.
Qed.


(** C9: [seq_len=0] is falsy, so [get_batch(data_source, i, 0)] is
    [get_batch(data_source, i)]; at a cursor that leaves room for a target
    and with [bptt >= 1] the window is not empty and has length
    [min(bptt, len(data_source) - 1 - i)]. *)
Theorem get_batch_zero_is_default ds i :
  get_batch bptt ds i (Some 0) = get_batch bptt ds i None /\
  (1 <= bptt -> 0 <= i <= nd_len ds - 2 ->
   exists data target,
     get_batch bptt ds i (Some 0) = Ok (data, target) /\
     nd_len data = Z.min bptt (nd_len ds - 1 - i) /\
     nd_len target = Z.min bptt (nd_len ds - 1 - i) /\
     1 <= nd_len data).
Proof.
  split; [reflexivity|].
  intros Hb Hi.
  destruct (get_batch_window ds i (Some 0) Hi)
    as (Hg & _ & _ & Hdata & Htarget & Hw); [cbn; lia|].
  cbn [py_or_default Z.eqb] in *.
  eexists _, _; split; [exact Hg|].
  rewrite Hdata, Htarget; repeat split; lia.
Qed.
End GetBatch.

Lemma get_batch_window_length_witness :
  exists data target,
    get_batch 2000 stream5 1 (Some 2) = Ok (data, target) /\
    nd_len data = Z.min 2 (nd_len stream5 - 1 - 1) /\
    nd_len target = Z.min 2 (nd_len stream5 - 1 - 1) /\
    nd_len data <= 2 /\ nd_len target <= 2 /\
    (1 + 2 < nd_len stream5 - 1 -> nd_len data = 2 /\ nd_len target = 2) /\
    (1 = nd_len stream5 - 2 -> nd_len data = 1 /\ nd_len target = 1).
Proof.
  apply (get_batch_window_length 2000 stream5 1 2); cbn; lia.
Defined.

Lemma get_batch_target_shifted_witness :
  exists data target,
    get_batch 2000 stream5 1 (Some 2) = Ok (data, target) /\
    nd_slice stream5 (1 + 1) (1 + 1 + 2) = Ok target /\
    (forall t, 0 <= t < 2 ->
       nd_at data t = nd_at stream5 (1 + t) /\
       nd_at target t = nd_at stream5 (1 + 1 + t) /\
       exists tok, nd_at target t = Some tok) /\
    (forall t, 0 <= t -> t + 1 < 2 -> nd_at target t = nd_at data (t + 1)) /\
    nd_at data (2 - 1) = nd_at stream5 (1 + 2 - 1) /\
    nd_at target (2 - 1) = nd_at stream5 (1 + 2 - 1 + 1).
Proof.
  apply (get_batch_target_shifted 2000 stream5 1 (Some 2)); cbn; lia.
Defined.


Lemma get_batch_zero_is_default_witness :
  exists data target,
    get_batch 2 stream5 1 (Some 0) = Ok (data, target) /\
    nd_len data = Z.min 2 (nd_len stream5 - 1 - 1) /\
    nd_len target = Z.min 2 (nd_len stream5 - 1 - 1) /\
    1 <= nd_len data.
Proof.
  apply (get_batch_zero_is_default 2 stream5 1); cbn; lia.
Defined.

(** ** [detach] *)

Section HiddenInduction.
Context {Tensor : Type} (P : Hidden Tensor -> Prop).
Hypothesis P_tensor : forall t, P (HTensor t).
Hypothesis P_tuple : forall hs, Forall P hs -> P (HTuple hs).
Hypothesis P_list : forall hs, Forall P hs -> P (HList hs).

(** Induction on a state, with the hypothesis for every child of a node. *)
Lemma Hidden_nested_ind : forall h, P h.
Proof.
  fix IH 1.
  intros [t | hs | hs].
  - apply P_tensor.
  - apply P_tuple.
    induction hs as [| c hs IHhs]; constructor; [apply IH | exact IHhs].
  - apply P_list.
    induction hs as [| c hs IHhs]; constructor; [apply IH | exact IHhs].
Qed.
End HiddenInduction.

Section Detach.
Context {Tensor : Type}.
Variable tensor_detach : Tensor -> Tensor.

Lemma Forall_map_eq {A B : Type} (f g : A -> B) (l : list A) :
  Forall (fun x => f x = g x) l -> map f l = map g l.
Proof. induction 1; cbn; congruence. Qed.

Lemma detach_children_depth (hs : list (Hidden Tensor)) :
  Forall (fun h => depth (detach tensor_detach h) = depth h) hs ->
  map depth (map (detach tensor_detach) hs) = map depth hs.
Proof. intros H; rewrite map_map; now apply Forall_map_eq. Qed.

Lemma detach_children_shape (hs : list (Hidden Tensor)) :
  Forall (fun h => shape (detach tensor_detach h) = shape h) hs ->
  map shape (map (detach tensor_detach) hs) = map shape hs.
Proof. intros H; rewrite map_map; now apply Forall_map_eq. Qed.

Lemma detach_children_leaves (hs : list (Hidden Tensor)) :
  Forall (fun h => leaves (detach tensor_detach h) = map tensor_detach (leaves h)) hs ->
  flat_map leaves (map (detach tensor_detach) hs) = map tensor_detach (flat_map leaves hs).
Proof.
  induction 1 as [| h hs Hh _ IH]; cbn; [reflexivity|].
  now rewrite map_app, Hh, IH.
Qed.

Lemma detach_children_tuple_free (hs : list (Hidden Tensor)) :
  Forall (fun h => tuple_free (detach tensor_detach h) = true) hs ->
  forallb tuple_free (map (detach tensor_detach) hs) = true.
Proof.
  induction 1 as [| h hs Hh _ IH]; cbn; [reflexivity|].
  now rewrite Hh, IH.
Qed.

Lemma detach_depth (h : Hidden Tensor) : depth (detach tensor_detach h) = depth h.
Proof.
  induction h using Hidden_nested_ind; cbn; [reflexivity | |];
    now rewrite detach_children_depth.
Qed.

Lemma detach_shape (h : Hidden Tensor) : shape (detach tensor_detach h) = shape h.
Proof.
  induction h using Hidden_nested_ind; cbn; [reflexivity | |];
    now rewrite detach_children_shape.
Qed.

Lemma detach_leaves (h : Hidden Tensor) :
  leaves (detach tensor_detach h) = map tensor_detach (leaves h).
Proof.
  induction h using Hidden_nested_ind; cbn; [reflexivity | |];
    now apply detach_children_leaves.
Qed.

Lemma detach_tuple_free (h : Hidden Tensor) : tuple_free (detach tensor_detach h) = true.
Proof.
  induction h using Hidden_nested_ind; cbn; [reflexivity | |];
    now apply detach_children_tuple_free.
Qed.

(** C10: [detach] keeps the nesting of a state (its depth and, at every
    node, the number and order of children), detaches every tensor once and
    in place (the leaves of the result are the detached leaves of the
    input, in the same order), and returns a list for every tuple or list
    node, so that no tuple is left in the result. *)
Theorem detach_preserves_structure (h : Hidden Tensor) :
  depth (detach tensor_detach h) = depth h /\
  shape (detach tensor_detach h) = shape h /\
  length (children (detach tensor_detach h)) = length (children h) /\
  leaves (detach tensor_detach h) = map tensor_detach (leaves h) /\
  length (leaves (detach tensor_detach h)) = length (leaves h) /\
  tuple_free (detach tensor_detach h) = true /\
  match h with
  | HTensor t => detach tensor_detach h = HTensor (tensor_detach t)
  | HTuple hs => detach tensor_detach h = HList (map (detach tensor_detach) hs)
  | HList hs => detach tensor_detach h = HList (map (detach tensor_detach) hs)
  end.
Proof.
  split; [apply detach_depth|].
  split; [apply detach_shape|].
  split; [destruct h; cbn; now rewrite ?length_map|].
  split; [apply detach_leaves|].
  split; [rewrite detach_leaves; apply length_map|].
  split; [apply detach_tuple_free|].
  destruct h; reflexivity.
Qed.
End Detach.

Example detach_sample_hidden :
  detach sample_detach sample_hidden =
    HList [HList [HTensor (1, false); HTensor (2, false)];
           HList [HTensor (3, false); HTensor (4, false)]].
Proof. reflexivity. Qed.

(** ** [range] *)

Lemma py_range_two_cursors (stop step : Z) :
  1 <= step -> step < stop ->
  exists rest, py_range 0 stop step = Ok (0 :: step :: rest).
Proof.
  intros Hstep Hstop; unfold py_range, range_count.
  destruct (Z.eqb_spec step 0) as [H0 | H0]; [lia|].
  destruct (Z.ltb_spec 0 step) as [Hs | Hs]; [|lia].
  destruct (Z.ltb_spec 0 stop) as [Hp | Hp]; [|lia].
  assert (Hq : 1 <= (stop - 0 - 1) / step)
    by (apply Z.div_le_lower_bound; lia).
  destruct (Z.to_nat ((stop - 0 - 1) / step + 1)) as [| [| k]] eqn:E;
    [lia | lia |].
  cbn [seq map]; eexists; do 3 f_equal; lia.
Qed.

Lemma py_range_empty (stop step : Z) :
  1 <= step -> stop <= 0 -> py_range 0 stop step = Ok [].
Proof.
  intros Hstep Hstop; unfold py_range, range_count.
  destruct (Z.eqb_spec step 0); [lia|].
  destruct (Z.ltb_spec 0 step); [|lia].
  destruct (Z.ltb_spec 0 stop); [lia | reflexivity].
Qed.

(** ** [evaluate_cache] *)

Section EvaluateCache.
Context {Ctx Tensor Hist Cache : Type}.
Variable tensor_detach : Tensor -> Tensor.
Variable bptt : Z.
Variable model : CacheModel Ctx Tensor Hist Cache.
Variable ctx : Ctx.

Implicit Types (st : CacheState Tensor Hist Cache) (s : Stdout) (i : Z).
Implicit Types (data_source : NDArray).

(** The iteration at cursor [0] when more than [bptt] targets remain: one
    call of the model on the first [bptt] steps. *)
Lemma cache_body_first data_source st s :
  1 <= bptt -> bptt < nd_len data_source - 1 ->
  cache_body tensor_detach bptt model data_source ctx 0 st s =
    match cm_forward model (nd_window data_source 0 bptt)
            (nd_window data_source 1 (1 + bptt))
            (next_word_history st) (cache_history st) (hidden st) with
    | Raise e => (Raise e, s)
    | Ok (outs, nwh, ch, h) =>
        match py_div (chunk_loss outs) (shape1 data_source) with
        | Raise e => (Raise e, s)
        | Ok q =>
            (Ok (Next (mkCacheState (total_L st + q)%R
                         (detach tensor_detach h) nwh ch)), s)
        end
    end.
Proof.
  intros Hb Hlen.
  destruct (get_batch_window bptt data_source 0 None) as (Hg & _);
    [lia | cbn; lia |].
  cbn [py_or_default] in Hg.
  replace (Z.min bptt (nd_len data_source - 1 - 0)) with bptt in Hg by lia.
  replace (0 + bptt) with bptt in Hg by lia.
  replace (0 + 1) with 1 in Hg by lia.
  unfold cache_body, bind, report, lift, ret, as_in_context.
  cbn [Z.ltb Z.compare].
  destruct (Z.eqb_spec 0 bptt); [lia|].
  rewrite Hg.
  destruct (cm_forward _ _ _ _ _ _) as [[[[outs nwh] ch] h] | e];
    [|reflexivity].
  change (shape1 (nd_window data_source 0 bptt)) with (shape1 data_source).
  destruct (py_div _ _); reflexivity.
Qed.

(** The iteration at cursor [bptt]: a line is printed and the function
    returns. *)
Lemma cache_body_at_bptt data_source st s :
  1 <= bptt ->
  cache_body tensor_detach bptt model data_source ctx bptt st s =
    (Ok (Return (total_L st / IZR bptt)%R),
     s ++ [(bptt, exp (total_L st / IZR bptt))]).
Proof.
  intros Hb.
  unfold cache_body, bind, report, lift, ret, print, py_div.
  destruct (Z.ltb_spec 0 bptt); [|lia].
  rewrite Z.eqb_refl.
  destruct (Z.eqb_spec bptt 0); [lia | reflexivity].
Qed.

Lemma nd_window_prefix data_source a b c :
  0 <= a <= b -> b <= c -> c <= nd_len data_source ->
  nd_window (nd_window data_source 0 c) a b = nd_window data_source a b.
Proof.
  intros; unfold nd_window; cbn [nd_rows nd_cols].
  now rewrite py_slice_prefix.
Qed.

(** C3: on a data source longer than [bptt + 1], [evaluate_cache] calls the
    model once, on the first [bptt] steps, prints one line at cursor [bptt]
    and returns there the loss of that window divided by [bptt].  The limit
    is the global [bptt] and the test [i == bptt] in the body, not an
    argument of the function.  Two such data sources with the same first
    [bptt + 1] steps give the same result: no later token is read. *)
Theorem evaluate_cache_one_window data_source batch_size s :
  1 <= bptt -> bptt + 1 < nd_len data_source ->
  evaluate_cache tensor_detach bptt model data_source batch_size ctx s =
    (hidden <- lift (cm_begin_state model batch_size ctx) ;;
     ' (outs, _, _, _) <-
        lift (cm_forward model (nd_window data_source 0 bptt)
                (nd_window data_source 1 (1 + bptt)) None None hidden) ;;
     q <- lift (py_div (chunk_loss outs) (shape1 data_source)) ;;
     let total_L := (0 + q)%R in
     print (bptt, exp (total_L / IZR bptt)) ;;
     ret (total_L / IZR bptt)%R)%io s /\
  forall data_source',
    bptt + 1 < nd_len data_source' ->
    nd_window data_source' 0 (bptt + 1) = nd_window data_source 0 (bptt + 1) ->
    evaluate_cache tensor_detach bptt model data_source' batch_size ctx s =
    evaluate_cache tensor_detach bptt model data_source batch_size ctx s.
Proof.
  intros Hb Hlen.
  assert (Hone : forall ds, bptt + 1 < nd_len ds ->
    evaluate_cache tensor_detach bptt model ds batch_size ctx s =
      (hidden <- lift (cm_begin_state model batch_size ctx) ;;
       ' (outs, _, _, _) <-
          lift (cm_forward model (nd_window ds 0 bptt)
                  (nd_window ds 1 (1 + bptt)) None None hidden) ;;
       q <- lift (py_div (chunk_loss outs) (shape1 ds)) ;;
       let total_L := (0 + q)%R in
       print (bptt, exp (total_L / IZR bptt)) ;;
       ret (total_L / IZR bptt)%R)%io s).
  { intros ds Hds.
    destruct (py_range_two_cursors (nd_len ds - 1) bptt) as [rest Hr];
      [lia | lia |].
    unfold evaluate_cache.
    unfold bind at 1 3; unfold lift at 1 4.
    destruct (cm_begin_state model batch_size ctx) as [h0 | e];
      [|reflexivity].
    unfold bind at 1; unfold lift at 1; rewrite Hr.
    cbn [cache_loop].
    unfold bind at 1; rewrite cache_body_first by lia.
    cbn [next_word_history cache_history hidden total_L].
    unfold bind at 2; unfold lift at 1.
    destruct (cm_forward _ _ _ _ _ _) as [[[[outs nwh] ch] h] | e];
      [|reflexivity].
    unfold bind at 2; unfold lift at 1.
    destruct (py_div _ _) as [q | e]; [|reflexivity].
    unfold bind at 1; rewrite cache_body_at_bptt by lia.
    reflexivity. }
  split; [now apply Hone|].
  intros ds' Hlen' Heq.
  rewrite !Hone by assumption.
  assert (Hcols : shape1 ds' = shape1 data_source).
  { unfold shape1; f_equal.
    change (nd_cols (nd_window ds' 0 (bptt + 1))
            = nd_cols (nd_window data_source 0 (bptt + 1))).
    now rewrite Heq. }
  rewrite Hcols.
  rewrite <- (nd_window_prefix ds' 0 bptt (bptt + 1)) by lia.
  rewrite <- (nd_window_prefix ds' 1 (1 + bptt) (bptt + 1)) by lia.
  rewrite <- (nd_window_prefix data_source 0 bptt (bptt + 1)) by lia.
  rewrite <- (nd_window_prefix data_source 1 (1 + bptt) (bptt + 1)) by lia.
  now rewrite Heq.
Qed.
End EvaluateCache.

Lemma evaluate_cache_one_window_witness :
  evaluate_cache sample_detach 2 sample_cache_model stream5 1 tt [] =
    (Ok ((0 + (0 + - ln (/ 2) + - ln (/ 2)) / 1) / 2)%R,
     [(2, exp ((0 + (0 + - ln (/ 2) + - ln (/ 2)) / 1) / 2))]).
Proof.
  destruct (evaluate_cache_one_window sample_detach 2 sample_cache_model tt
              stream5 1 []) as [H _]; [lia | cbn; lia |].
  rewrite H; reflexivity.
Defined.

(** ** The running loss of [evaluate_cache] *)

Lemma neg_ln_nonneg (p : R) : in_unit_interval p -> (0 <= - ln p)%R.
Proof.
  intros [Hp0 Hp1].
  pose proof (ln_increasing p 1 Hp0 Hp1) as Hln.
  rewrite ln_1 in Hln; lra.
Qed.

Lemma chunk_fold_ge (outs : list R) (acc : R) :
  Forall in_unit_interval outs ->
  (acc <= fold_left (fun L out => L + - ln out) outs acc)%R.
Proof.
  intros H; revert acc.
  induction H as [| p outs Hp _ IH]; intros acc; cbn [fold_left]; [lra|].
  pose proof (neg_ln_nonneg p Hp).
  eapply Rle_trans; [|apply IH]; lra.
Qed.

Lemma chunk_loss_nonneg (outs : list R) :
  Forall in_unit_interval outs -> (0 <= chunk_loss outs)%R.
Proof. apply chunk_fold_ge. Qed.

Lemma py_div_nonneg (x q : R) (n : nat) :
  (0 <= x)%R -> py_div x (Z.of_nat n) = Ok q -> (0 <= q)%R.
Proof.
  intros Hx; unfold py_div.
  destruct (Z.eqb_spec (Z.of_nat n) 0) as [H0 | H0]; [discriminate|].
  intros [= <-].
  assert (0 < IZR (Z.of_nat n))%R by (apply IZR_lt; lia).
  apply Rmult_le_pos; [exact Hx|].
  left; now apply Rinv_0_lt_compat.
Qed.

Section RunningLoss.
Context {Ctx Tensor Hist Cache : Type}.
Variable tensor_detach : Tensor -> Tensor.
Variable bptt : Z.
Variable model : CacheModel Ctx Tensor Hist Cache.

Implicit Types (st : CacheState Tensor Hist Cache) (s : Stdout) (i : Z).
Implicit Types (data_source : NDArray) (ctx : Ctx).

(** What an iteration that lets the loop go on has done. *)
Lemma cache_body_next data_source ctx i st s st' s' :
  cache_body tensor_detach bptt model data_source ctx i st s
    = (Ok (Next st'), s') ->
  exists data target outs nwh ch h q,
    i <> bptt /\
    get_batch bptt data_source i None = Ok (data, target) /\
    cm_forward model data target (next_word_history st) (cache_history st)
      (hidden st) = Ok (outs, nwh, ch, h) /\
    py_div (chunk_loss outs) (shape1 data) = Ok q /\
    st' = mkCacheState (total_L st + q)%R (detach tensor_detach h) nwh ch /\
    s' = snd (report i (total_L st) s).
Proof.
  unfold cache_body, bind.
  assert (Hrep : fst (report i (total_L st) s) = Ok tt)
    by (unfold report; destruct (0 <? i); reflexivity).
  destruct (report i (total_L st) s) as [r s1]; cbn [fst snd] in *; subst r.
  destruct (Z.eqb_spec i bptt) as [Hi | Hi].
  - unfold lift, ret; destruct (py_div _ _); discriminate.
  - unfold lift at 1.
    destruct (get_batch bptt data_source i None) as [[data target] | e]
      eqn:Hg; [|discriminate].
    unfold lift at 1, as_in_context.
    destruct (cm_forward _ _ _ _ _ _) as [[[[outs nwh] ch] h] | e] eqn:Hf;
      [|discriminate].
    unfold lift at 1.
    destruct (py_div _ _) as [q | e] eqn:Hq; [|discriminate].
    unfold ret; intros [= <- <-].
    exists data, target, outs, nwh, ch, h, q.
    repeat split; try reflexivity; assumption.
Qed.

(** C6: if every blended probability the model emits lies strictly between
    0 and 1, the sum of the negative logarithms over a chunk is not
    negative, and [total_L] does not decrease in an iteration of the loop,
    nor over any number of iterations. *)
Theorem cache_total_loss_monotone :
  (forall d t n c h outs n' c' h',
      cm_forward model d t n c h = Ok (outs, n', c', h') ->
      Forall in_unit_interval outs) ->
  (forall d t n c h outs n' c' h',
      cm_forward model d t n c h = Ok (outs, n', c', h') ->
      (0 <= chunk_loss outs)%R) /\
  (forall data_source ctx i st s st' s',
      cache_body tensor_detach bptt model data_source ctx i st s
        = (Ok (Next st'), s') ->
      (total_L st <= total_L st')%R) /\
  (forall data_source ctx cursors st s st' s',
      cache_steps tensor_detach bptt model data_source ctx cursors st s
        = (Ok (Next st'), s') ->
      (total_L st <= total_L st')%R).
Proof.
  intros Hmodel.
  assert (Hbody : forall data_source ctx i st s st' s',
      cache_body tensor_detach bptt model data_source ctx i st s
        = (Ok (Next st'), s') ->
      (total_L st <= total_L st')%R).
  { intros ds ctx i st s st' s' H.
    apply cache_body_next in H
      as (data & target & outs & nwh & ch & h & q & _ & _ & Hf & Hq & -> & _).
    cbn [total_L].
    apply Hmodel, chunk_loss_nonneg in Hf.
    apply (py_div_nonneg _ _ _ Hf) in Hq; lra. }
  split; [|split; [exact Hbody|]].
  - intros d t n c h outs n' c' h' Hf.
    eapply chunk_loss_nonneg, Hmodel, Hf.
  - intros ds ctx cursors.
    induction cursors as [| i cursors IH]; intros st s st' s'.
    + cbn; unfold ret; intros [= <- _]; lra.
    + cbn [cache_steps]; unfold bind at 1.
      destruct (cache_body _ _ _ _ _ _ _ _) as [[[st1 | v] | e] s1] eqn:Hb;
        [| unfold ret; discriminate | discriminate].
      intros Hrest.
      apply Hbody in Hb; apply IH in Hrest; lra.
Qed.
End RunningLoss.

Lemma sample_cache_model_unit_interval d t n c h outs n' c' h' :
  cm_forward sample_cache_model d t n c h = Ok (outs, n', c', h') ->
  Forall in_unit_interval outs.
Proof.
  cbn; intros [= <- _ _ _].
  apply Forall_map, Forall_forall; intros _ _.
  unfold in_unit_interval; lra.
Qed.

Lemma cache_total_loss_monotone_witness :
  (0 <= 0 + (0 + - ln (/ 2) + - ln (/ 2)) / 1)%R.
Proof.
  destruct (cache_total_loss_monotone sample_detach 2 sample_cache_model
              sample_cache_model_unit_interval) as (_ & Hbody & _).
  apply (Hbody stream5 tt 0 (mkCacheState 0 sample_hidden None None) []
           (mkCacheState (0 + (0 + - ln (/ 2) + - ln (/ 2)) / 1)
              (detach sample_detach sample_hidden) (Some tt) (Some tt)) []).
  reflexivity.
Defined.

(** ** Failures of the model *)

Section ModelFailure.
Context {Ctx Tensor Out Hist Cache : Type}.
Variable tensor_detach : Tensor -> Tensor.
Variable reshape_3_1 : Out -> Out.
Variable loss : Out -> list Z -> Res (list Float).
Variable bptt : Z.

Lemma evaluate_loop_app (model : LanguageModel Ctx Tensor Out) ctx
    pre post total ntotal h :
  evaluate_loop tensor_detach reshape_3_1 loss model ctx (pre ++ post)
    total ntotal h =
  (' (total', ntotal', h') <-
     evaluate_loop tensor_detach reshape_3_1 loss model ctx pre
       total ntotal h ;;
   evaluate_loop tensor_detach reshape_3_1 loss model ctx post
     total' ntotal' h')%res.
Proof.
  revert total ntotal h.
  induction pre as [| [data target] pre IH]; intros total ntotal h;
    [reflexivity|].
  cbn [app evaluate_loop].
  destruct (lm_forward model _ h) as [[output h1] | e]; cbn [res_bind];
    [|reflexivity].
  destruct (loss _ _) as [L | e]; cbn [res_bind]; [|reflexivity].
  apply IH.
Qed.

Lemma cache_loop_app (model : CacheModel Ctx Tensor Hist Cache) ds ctx
    pre post st s :
  cache_loop tensor_detach bptt model ds ctx (pre ++ post) st s =
  match cache_steps tensor_detach bptt model ds ctx pre st s with
  | (Ok (Next st'), s') =>
      cache_loop tensor_detach bptt model ds ctx post st' s'
  | (Ok (Return v), s') => (Ok v, s')
  | (Raise e, s') => (Raise e, s')
  end.
Proof.
  revert st s.
  induction pre as [| i pre IH]; intros st s; [reflexivity|].
  cbn [app cache_loop cache_steps]; unfold bind.
  destruct (cache_body _ _ _ _ _ _ _ _) as [[[st1 | v] | e] s1];
    [apply IH | reflexivity | reflexivity].
Qed.

(** C8: a failure of the model's forward call leaves [evaluate] and
    [evaluate_cache] as the exception it is.  If the loop has come to a
    chunk and the forward call on it raises [e], the function raises [e]
    and returns no loss. *)
Theorem model_failure_propagates :
  (forall (model : LanguageModel Ctx Tensor Out) pre data target post
          batch_size ctx h0 total ntotal h e,
      lm_begin_state model batch_size ctx = Ok h0 ->
      evaluate_loop tensor_detach reshape_3_1 loss model ctx pre
        (PyFloat (Finite 0)) 0 h0
        = Ok (total, ntotal, h) ->
      lm_forward model (as_in_context data ctx) h = Raise e ->
      evaluate tensor_detach reshape_3_1 loss model
        (pre ++ (data, target) :: post) batch_size ctx = Raise e) /\
  (forall (model : CacheModel Ctx Tensor Hist Cache) data_source batch_size
          ctx s h0 pre i post st s' data target e,
      cm_begin_state model batch_size ctx = Ok h0 ->
      py_range 0 (nd_len data_source - 1) bptt = Ok (pre ++ i :: post) ->
      cache_steps tensor_detach bptt model data_source ctx pre
        (mkCacheState 0%R h0 None None) s = (Ok (Next st), s') ->
      i <> bptt ->
      get_batch bptt data_source i None = Ok (data, target) ->
      cm_forward model (as_in_context data ctx) (as_in_context target ctx)
        (next_word_history st) (cache_history st) (hidden st) = Raise e ->
      evaluate_cache tensor_detach bptt model data_source batch_size ctx s
        = (Raise e, snd (report i (total_L st) s'))).
Proof.
  split.
  - intros model pre data target post batch_size ctx h0 total ntotal h e
      Hbegin Hpre Hfail.
    unfold evaluate; cbv zeta.
    rewrite Hbegin; cbn [res_bind].
    rewrite evaluate_loop_app, Hpre; cbn [res_bind evaluate_loop].
    now rewrite Hfail.
  - intros model ds batch_size ctx s h0 pre i post st s' data target e
      Hbegin Hrange Hpre Hi Hbatch Hfail.
    unfold evaluate_cache; cbv zeta.
    unfold bind at 1, lift at 1; rewrite Hbegin.
    unfold bind at 1, lift at 1; rewrite Hrange.
    rewrite cache_loop_app, Hpre.
    cbn [cache_loop]; unfold bind at 1, cache_body, bind at 1.
    assert (Hrep : fst (report i (total_L st) s') = Ok tt)
      by (unfold report; destruct (0 <? i); reflexivity).
    destruct (report i (total_L st) s') as [r s1];
      cbn [fst snd] in *; subst r.
    destruct (Z.eqb_spec i bptt) as [Heq | _]; [contradiction|].
    unfold bind at 1, lift at 1; rewrite Hbatch.
    unfold bind at 1, lift at 1; rewrite Hfail.
    reflexivity.
Qed.
End ModelFailure.

Lemma model_failure_propagates_witness :
  evaluate sample_detach (fun o => o) sample_loss failing_language_model
    sample_batches 1 tt = Raise (Foreign "MXNetError") /\
  evaluate_cache sample_detach 2 failing_cache_model stream5 1 tt []
    = (Raise (Foreign "MXNetError"), []).
Proof.
  destruct (@model_failure_propagates unit SampleTensor unit unit unit
              sample_detach (fun o => o) sample_loss 2) as [Hlm Hcache].
  split.
  - apply (Hlm failing_language_model
             [(mkND [[10]; [11]] 1, mkND [[11]; [12]] 1)]
             (mkND [[12]; [13]] 1) (mkND [[13]; [14]] 1)
             [(mkND [[14]; [15]] 1, mkND [[15]; [16]] 1)]
             1 tt (HTensor (0, true))
             (NpFloat (Finite (0 + (1 + (1 + 0))))) 2 (HTensor (0, false)));
      reflexivity.
  - apply (Hcache failing_cache_model stream5 1 tt [] sample_hidden
             [] 0 [2] (mkCacheState 0%R sample_hidden None None) []
             (mkND [[10]; [11]] 1) (mkND [[11]; [12]] 1));
      try reflexivity.
    discriminate.
Defined.

(** ** Runs of [evaluate_cache] *)

Section RunsOfEvaluateCache.
Context {Ctx Tensor Hist Cache : Type}.
Variable tensor_detach : Tensor -> Tensor.
Variable bptt : Z.

Implicit Types (st : CacheState Tensor Hist Cache) (s : Stdout) (i : Z).
Implicit Types (data_source : NDArray) (ctx : Ctx).

Lemma graph_deterministic (m : CacheModel Ctx Tensor Hist Cache) :
  deterministic (graph m).
Proof. split; cbn; intros; congruence. Qed.

(** On a functional model an iteration runs as [cache_body] computes. *)
Lemma cache_body_iter (m : CacheModel Ctx Tensor Hist Cache)
    data_source ctx i st s :
  exists outs,
    cache_iter tensor_detach bptt (graph m) data_source ctx i st s
      (fst (cache_body tensor_detach bptt m data_source ctx i st s))
      (snd (cache_body tensor_detach bptt m data_source ctx i st s))
      outs.
Proof.
  unfold cache_body, bind.
  assert (Hrep : report i (total_L st) s
                 = (Ok tt, snd (report i (total_L st) s)))
    by (unfold report; destruct (0 <? i); reflexivity).
  rewrite Hrep.
  destruct (Z.eqb_spec i bptt) as [Hi | Hi].
  - exists [].
    pose proof (iter_return tensor_detach bptt (graph m) data_source ctx
                  i st s Hi) as H.
    unfold lift, ret.
    destruct (py_div (total_L st) i); exact H.
  - unfold lift, ret.
    destruct (get_batch bptt data_source i None) as [[data target] | e]
      eqn:Hg.
    + destruct (cm_forward _ _ _ _ _ _) as [[[[outs nwh] ch] h] | e] eqn:Hf.
      * exists outs.
        pose proof (iter_chunk tensor_detach bptt (graph m) data_source ctx
                      i st s data target outs nwh ch h Hi Hg Hf) as H.
        unfold as_in_context in *.
        destruct (py_div (chunk_loss outs) _); exact H.
      * exists []. cbn [fst snd].
        eapply iter_model_raise; [exact Hi | exact Hg | exact Hf].
    + exists []. cbn [fst snd].
      eapply iter_batch_raise; [exact Hi | exact Hg].
Qed.

Lemma cache_loop_run (m : CacheModel Ctx Tensor Hist Cache)
    data_source ctx cursors st s tr :
  exists tr',
    cache_run_loop tensor_detach bptt (graph m) data_source ctx
      cursors st s tr
      (fst (cache_loop tensor_detach bptt m data_source ctx cursors st s))
      (snd (cache_loop tensor_detach bptt m data_source ctx cursors st s))
      tr'.
Proof.
  revert st s tr.
  induction cursors as [| i cursors IH]; intros st s tr.
  - exists tr; cbn; apply loop_exhausted.
  - cbn [cache_loop]; unfold bind.
    destruct (cache_body_iter m data_source ctx i st s) as [outs Hiter].
    destruct (cache_body _ _ _ _ _ _ _ _) as [[[st1 | v] | e] s1];
      cbn [fst snd] in Hiter.
    + destruct (IH st1 s1 (tr ++ outs)) as [tr' Hrest].
      exists tr'; eapply loop_next; eassumption.
    + exists (tr ++ outs); cbn; eapply loop_return; eassumption.
    + exists (tr ++ outs); cbn; eapply loop_raise; eassumption.
Qed.

(** On a functional model [evaluate_cache] has a run, with the result and
    the output it computes. *)
Lemma evaluate_cache_run (m : CacheModel Ctx Tensor Hist Cache)
    data_source batch_size ctx s :
  exists tr,
    cache_run tensor_detach bptt (graph m) data_source batch_size ctx s
      (fst (evaluate_cache tensor_detach bptt m data_source batch_size ctx s))
      (snd (evaluate_cache tensor_detach bptt m data_source batch_size ctx s))
      tr.
Proof.
  unfold evaluate_cache; cbv zeta.
  unfold bind at 1, lift at 1.
  destruct (cm_begin_state m batch_size ctx) as [h0 | e] eqn:Hb.
  - unfold bind at 1, lift at 1.
    destruct (py_range 0 (nd_len data_source - 1) bptt) as [cursors | e]
      eqn:Hr.
    + destruct (cache_loop_run m data_source ctx cursors
                  (mkCacheState 0%R h0 None None) s []) as [tr Hrun].
      exists tr; eapply run_loop; [exact Hb | exact Hr | exact Hrun].
    + exists []; eapply run_range_raise; [exact Hb | exact Hr].
  - exists []; now apply run_begin_raise.
Qed.

Variable model : CacheModelRel Ctx Tensor Hist Cache.
Hypothesis model_deterministic : deterministic model.

Lemma cache_iter_deterministic data_source ctx i st s r1 s1 o1 r2 s2 o2 :
  cache_iter tensor_detach bptt model data_source ctx i st s r1 s1 o1 ->
  cache_iter tensor_detach bptt model data_source ctx i st s r2 s2 o2 ->
  r1 = r2 /\ s1 = s2 /\ o1 = o2.
Proof.
  destruct model_deterministic as [_ Hforward].
  intros H1 H2.
  destruct H1 as [Hi | e Hi Hb | data target e Hi Hb Hf
                 | data target outs nwh ch h Hi Hb Hf];
    destruct H2 as [Hi' | e' Hi' Hb' | data' target' e' Hi' Hb' Hf'
                   | data' target' outs' nwh' ch' h' Hi' Hb' Hf'];
    try contradiction;
    try (repeat split; reflexivity);
    rewrite Hb in Hb'; try discriminate;
    try (injection Hb' as <-; repeat split; reflexivity);
    injection Hb' as <- <-;
    pose proof (Hforward _ _ _ _ _ _ _ Hf Hf') as Heq;
    try discriminate;
    injection Heq as <-; subst; repeat split; reflexivity.
Qed.

Lemma cache_run_loop_deterministic data_source ctx cursors st s tr
    r1 s1 t1 r2 s2 t2 :
  cache_run_loop tensor_detach bptt model data_source ctx cursors st s tr
    r1 s1 t1 ->
  cache_run_loop tensor_detach bptt model data_source ctx cursors st s tr
    r2 s2 t2 ->
  r1 = r2 /\ s1 = s2 /\ t1 = t2.
Proof.
  intros H1; revert r2 s2 t2.
  induction H1 as [st s tr
                  | i cursors st s tr e s' outs Hiter
                  | i cursors st s tr v s' outs Hiter
                  | i cursors st s tr st' s' outs r s'' tr'' Hiter Hrest IH];
    intros r2 s2 t2 H2; inversion H2; subst;
    try (repeat split; reflexivity);
    match goal with
    | Hother : cache_iter _ _ _ _ _ _ _ _ _ _ _ |- _ =>
        destruct (cache_iter_deterministic _ _ _ _ _ _ _ _ _ _ _
                    Hiter Hother) as (Hr & Hs & Ho)
    end;
    try discriminate.
  - injection Hr as <-; subst; repeat split; reflexivity.
  - injection Hr as <-; subst; repeat split; reflexivity.
  - injection Hr as <-; subst. now apply IH.
Qed.
End RunsOfEvaluateCache.

(** C7: [evaluate_cache] is deterministic.  Against a model that answers
    every call in at most one way, two runs on the same data source, from
    fresh histories and the same output so far, end with the same result
    (the same loss or the same exception), the same sequence of blended
    probabilities and the same printed lines.  Against a model that is a
    function, every run ends as [evaluate_cache] computes. *)
Theorem evaluate_cache_deterministic {Ctx Tensor Hist Cache : Type}
    (tensor_detach : Tensor -> Tensor) (bptt : Z) :
  (forall (model : CacheModelRel Ctx Tensor Hist Cache) data_source
          batch_size ctx s r1 s1 tr1 r2 s2 tr2,
      deterministic model ->
      cache_run tensor_detach bptt model data_source batch_size ctx s
        r1 s1 tr1 ->
      cache_run tensor_detach bptt model data_source batch_size ctx s
        r2 s2 tr2 ->
      r1 = r2 /\ tr1 = tr2 /\ s1 = s2) /\
  (forall (m : CacheModel Ctx Tensor Hist Cache) data_source batch_size
          ctx s r s' tr,
      cache_run tensor_detach bptt (graph m) data_source batch_size ctx s
        r s' tr ->
      r = fst (evaluate_cache tensor_detach bptt m data_source batch_size
                 ctx s) /\
      s' = snd (evaluate_cache tensor_detach bptt m data_source batch_size
                  ctx s)).
Proof.
  assert (Hdet : forall (model : CacheModelRel Ctx Tensor Hist Cache)
      data_source batch_size ctx s r1 s1 tr1 r2 s2 tr2,
      deterministic model ->
      cache_run tensor_detach bptt model data_source batch_size ctx s
        r1 s1 tr1 ->
      cache_run tensor_detach bptt model data_source batch_size ctx s
        r2 s2 tr2 ->
      r1 = r2 /\ tr1 = tr2 /\ s1 = s2).
  { intros model ds batch_size ctx s r1 s1 tr1 r2 s2 tr2 Hmodel H1 H2.
    pose proof (proj1 Hmodel) as Hbegin.
    destruct H1 as [e Hb | h e Hb Hr | h cursors r s' tr Hb Hr Hloop];
      destruct H2 as [e' Hb' | h' e' Hb' Hr' | h' cursors' r' s'' tr' Hb' Hr'
                        Hloop'];
      pose proof (Hbegin _ _ _ _ Hb Hb') as Hh;
      try discriminate;
      try (injection Hh as <-; repeat split; reflexivity);
      injection Hh as <-;
      rewrite Hr in Hr'; try discriminate.
    - injection Hr' as <-; repeat split; reflexivity.
    - injection Hr' as <-.
      destruct (cache_run_loop_deterministic tensor_detach bptt model
                  Hmodel _ _ _ _ _ _ _ _ _ _ _ _ Hloop Hloop')
        as (-> & -> & ->).
      repeat split; reflexivity. }
  split; [exact Hdet|].
  intros m ds batch_size ctx s r s' tr Hrun.
  destruct (evaluate_cache_run tensor_detach bptt m ds batch_size ctx s)
    as [tr0 Hfun].
  destruct (Hdet _ _ _ _ _ _ _ _ _ _ _ (graph_deterministic m) Hrun Hfun)
    as (-> & _ & ->).
  split; reflexivity.
Qed.

(** A run of [evaluate_cache] on the three-step stream with [bptt = 2]:
    one chunk of two steps, then the range is exhausted. *)
Lemma sample_cache_run :
  cache_run sample_detach 2 (graph sample_cache_model) stream3 1 tt []
    (Ok ((0 + (0 + - ln (/ 2) + - ln (/ 2)) / 1) / 3)%R)
    [] [(/ 2)%R; (/ 2)%R].
Proof.
  eapply run_loop with (h := sample_hidden) (cursors := [0]);
    [reflexivity | reflexivity |].
  eapply loop_next with (outs := [(/ 2)%R; (/ 2)%R]) (s' := []).
  - exact (iter_chunk sample_detach 2 (graph sample_cache_model) stream3 tt
             0 (mkCacheState 0%R sample_hidden None None) []
             _ _ _ _ _ _ ltac:(discriminate) eq_refl eq_refl).
  - exact (loop_exhausted sample_detach 2 (graph sample_cache_model) stream3
             tt _ [] [(/ 2)%R; (/ 2)%R]).
Qed.

Lemma evaluate_cache_deterministic_witness :
  (Ok ((0 + (0 + - ln (/ 2) + - ln (/ 2)) / 1) / 3)%R
   = fst (evaluate_cache sample_detach 2 sample_cache_model stream3 1 tt [])
   /\ [] = snd (evaluate_cache sample_detach 2 sample_cache_model stream3 1
                  tt [])) /\
  (Ok ((0 + (0 + - ln (/ 2) + - ln (/ 2)) / 1) / 3)%R
   = Ok ((0 + (0 + - ln (/ 2) + - ln (/ 2)) / 1) / 3)%R /\
   [(/ 2)%R; (/ 2)%R] = [(/ 2)%R; (/ 2)%R] /\
   @nil Line = []).
Proof.
  destruct (@evaluate_cache_deterministic unit SampleTensor unit unit
              sample_detach 2) as [Hdet Hfun].
  split.
  - exact (Hfun sample_cache_model stream3 1 tt [] _ _ _ sample_cache_run).
  - exact (Hdet (graph sample_cache_model) stream3 1 tt [] _ _ _ _ _ _
             (graph_deterministic sample_cache_model)
             sample_cache_run sample_cache_run).
Defined.

(** * Further properties of the notebooks' functions *)

(** ** More on slicing and [range] *)

Lemma firstn_plus {A : Type} (p q : nat) (l : list A) :
  firstn (p + q) l = firstn p l ++ firstn q (skipn p l).
Proof.
  revert l; induction p as [| p IH]; intros [| x l]; cbn;
    rewrite ?firstn_nil; try reflexivity.
  now rewrite IH.
Qed.

(** Two adjacent slices make one slice. *)
Lemma py_slice_app {A : Type} (l : list A) (a b c : Z) :
  0 <= a <= b -> b <= c -> c <= py_len l ->
  py_slice l a b ++ py_slice l b c = py_slice l a c.
Proof.
  intros Ha Hb Hc.
  rewrite !py_slice_inside by lia.
  replace (Z.to_nat (c - a)) with (Z.to_nat (b - a) + Z.to_nat (c - b))%nat
    by lia.
  rewrite firstn_plus, skipn_skipn.
  do 3 f_equal; lia.
Qed.

(** The cursors of [range(0, stop, step)] for a positive step: multiples of
    the step, the last one below [stop], the next one not. *)
Lemma py_range_cursors (stop step : Z) :
  1 <= step -> 0 <= stop ->
  exists m : nat,
    py_range 0 stop step
      = Ok (map (fun k => 0 + Z.of_nat k * step) (seq 0 m)) /\
    stop <= Z.of_nat m * step /\
    (m = 0%nat \/ (Z.of_nat m - 1) * step < stop).
Proof.
  intros Hstep Hstop; unfold py_range, range_count.
  destruct (Z.eqb_spec step 0) as [H0 | H0]; [lia|].
  destruct (Z.ltb_spec 0 step) as [Hs | Hs]; [|lia].
  destruct (Z.ltb_spec 0 stop) as [Hp | Hp].
  - exists (Z.to_nat ((stop - 0 - 1) / step + 1)).
    split; [reflexivity|].
    pose proof (Z.div_mod (stop - 0 - 1) step H0) as Hdm.
    pose proof (Z.mod_pos_bound (stop - 0 - 1) step Hs) as Hmod.
    assert (0 <= (stop - 0 - 1) / step) by (apply Z.div_pos; lia).
    rewrite Z2Nat.id by lia.
    split; [nia | right; nia].
  - exists 0%nat; split; [reflexivity|]; split; [lia | now left].
Qed.

(** Consecutive windows of at most [step] positions, cut at cursors
    [c, c + step, ...] below [n] and read at offset [o], make up the slice
    from [c + o] to [n + o]. *)
Lemma windows_concat {A : Type} (l : list A) (step n o : Z) :
  1 <= step -> 0 <= o -> n + o <= py_len l ->
  forall (m : nat) (c : Z),
    0 <= c <= n -> n <= c + Z.of_nat m * step ->
    (m = 0%nat \/ c + (Z.of_nat m - 1) * step < n) ->
    concat (map (fun i => py_slice l (i + o) (i + o + Z.min step (n - i)))
              (map (fun k => c + Z.of_nat k * step) (seq 0 m)))
    = py_slice l (c + o) (n + o).
Proof.
  intros Hstep Ho Hlen m.
  induction m as [| m IH]; intros c Hc Hcover Hlast.
  - cbn [seq map concat].
    symmetry; apply py_slice_crossed.
    replace c with n by lia; lia.
  - assert (Hcn : c + Z.of_nat m * step < n) by lia.
    cbn [seq map concat].
    rewrite <- seq_shift, !map_map.
    rewrite (map_ext _ (fun k => py_slice l (c + step + Z.of_nat k * step + o)
                                   (c + step + Z.of_nat k * step + o
                                    + Z.min step (n - (c + step
                                                      + Z.of_nat k * step)))))
      by (intros k; do 2 f_equal; lia).
    replace (c + Z.of_nat 0 * step) with c by lia.
    destruct m as [| m].
    + cbn [seq map concat]; rewrite app_nil_r.
      f_equal; lia.
    + specialize (IH (c + step)).
      rewrite map_map in IH.
      rewrite IH by lia.
      replace (Z.min step (n - c)) with step by lia.
      replace (c + step + o) with (c + o + step) by lia.
      apply py_slice_app; lia.
Qed.

Lemma Forall2_map_graph {A B : Type} (P : A -> Prop) (f : A -> Res B)
    (g : A -> B) (l : list A) :
  (forall a, P a -> f a = Ok (g a)) ->
  Forall P l ->
  Forall2 (fun a b => f a = Ok b) l (map g l).
Proof. intros H; induction 1; cbn; constructor; auto. Qed.

(** [get_batch] over the cursors of the loop: the data windows laid end to
    end are the stream without its last step, the target windows are the
    stream without its first step.  Nothing is skipped and nothing is read
    twice. *)
Theorem get_batch_windows_tile (bptt : Z) (data_source : NDArray) :
  1 <= bptt ->
  exists cursors windows,
    py_range 0 (nd_len data_source - 1) bptt = Ok cursors /\
    Forall2 (fun i w => get_batch bptt data_source i None = Ok w)
      cursors windows /\
    concat (map (fun w => nd_rows (fst w)) windows)
      = py_slice (nd_rows data_source) 0 (nd_len data_source - 1) /\
    concat (map (fun w => nd_rows (snd w)) windows)
      = py_slice (nd_rows data_source) 1 (nd_len data_source).
Proof.
  intros Hb.
  set (window := fun i =>
    (nd_window data_source i
       (i + Z.min bptt (nd_len data_source - 1 - i)),
     nd_window data_source (i + 1)
       (i + 1 + Z.min bptt (nd_len data_source - 1 - i)))).
  assert (Hwin : forall cursors,
    Forall (fun i => 0 <= i <= nd_len data_source - 2) cursors ->
    Forall2 (fun i w => get_batch bptt data_source i None = Ok w)
      cursors (map window cursors)).
  { intros cursors; apply Forall2_map_graph; intros i Hi.
    now destruct (get_batch_window bptt data_source i None Hi). }
  destruct (Z.le_gt_cases 0 (nd_len data_source - 1)) as [Hn | Hn].
  - destruct (py_range_cursors (nd_len data_source - 1) bptt Hb Hn)
      as (m & Hr & Hcover & Hlast).
    eexists _, _; split; [exact Hr|]; split.
    { apply Hwin, Forall_forall; intros i Hi.
      apply in_map_iff in Hi as (k & <- & Hk).
      apply in_seq in Hk; nia. }
    rewrite !map_map; unfold window; cbn [fst snd nd_window nd_rows].
    split.
    + pose proof (windows_concat (nd_rows data_source) bptt
                    (nd_len data_source - 1) 0 Hb (Z.le_refl 0)) as Hc.
      specialize (Hc ltac:(unfold nd_len; lia) m 0
                     ltac:(lia) ltac:(lia) ltac:(lia)).
      replace (py_slice (nd_rows data_source) 0 (nd_len data_source - 1))
        with (py_slice (nd_rows data_source) (0 + 0)
                (nd_len data_source - 1 + 0)) by (f_equal; lia).
      rewrite map_map in Hc; rewrite <- Hc.
      f_equal; apply map_ext; intros i; f_equal; lia.
    + pose proof (windows_concat (nd_rows data_source) bptt
                    (nd_len data_source - 1) 1 Hb ltac:(lia)) as Hc.
      specialize (Hc ltac:(unfold nd_len; lia) m 0
                     ltac:(lia) ltac:(lia) ltac:(lia)).
      replace (py_slice (nd_rows data_source) 1 (nd_len data_source))
        with (py_slice (nd_rows data_source) (0 + 1)
                (nd_len data_source - 1 + 1)) by (f_equal; lia).
      rewrite map_map in Hc; rewrite <- Hc.
      f_equal; apply map_ext; intros i; f_equal; lia.
  - exists [], []; split; [apply py_range_empty; lia|].
    split; [constructor|].
    assert (Hrows : nd_rows data_source = []).
    { pose proof (nd_len_nonneg data_source).
      unfold nd_len, py_len in *.
      destruct (nd_rows data_source); [reflexivity | cbn [length] in *; lia]. }
    rewrite Hrows; unfold py_slice; cbv zeta.
    rewrite !skipn_nil, !firstn_nil; split; reflexivity.
Qed.

Lemma get_batch_windows_tile_witness :
  exists cursors windows,
    py_range 0 (nd_len stream5 - 1) 2 = Ok cursors /\
    Forall2 (fun i w => get_batch 2 stream5 i None = Ok w) cursors windows /\
    concat (map (fun w => nd_rows (fst w)) windows)
      = py_slice (nd_rows stream5) 0 (nd_len stream5 - 1) /\
    concat (map (fun w => nd_rows (snd w)) windows)
      = py_slice (nd_rows stream5) 1 (nd_len stream5).
Proof. apply (get_batch_windows_tile 2 stream5); lia. Defined.

(** ** Floats *)

Lemma float_add_0_l (x : Float) : float_add (Finite 0) x = x.
Proof. destruct x; cbn; try reflexivity; f_equal; lra. Qed.

Lemma float_add_0_r (x : Float) : float_add x (Finite 0) = x.
Proof. destruct x; cbn; try reflexivity; f_equal; lra. Qed.

Lemma float_add_assoc (x y z : Float) :
  float_add x (float_add y z) = float_add (float_add x y) z.
Proof. destruct x, y, z; cbn; try reflexivity; f_equal; lra. Qed.

Lemma np_div_nothing : np_div (Finite 0) 0 = NaN.
Proof. cbn; destruct (Req_dec_T 0 0); [reflexivity | contradiction]. Qed.

(** ** [evaluate] as a mean *)

Section EvaluateMean.
Context {Ctx Tensor Out : Type}.
Variable tensor_detach : Tensor -> Tensor.
Variable reshape_3_1 : Out -> Out.
Variable loss : Out -> list Z -> Res (list Float).
Variable model : LanguageModel Ctx Tensor Out.
Variable ctx : Ctx.

Lemma nd_sum_app (L1 L2 : list Float) :
  nd_sum (L1 ++ L2) = float_add (nd_sum L1) (nd_sum L2).
Proof.
  unfold nd_sum.
  induction L1 as [| x L1 IH]; cbn [app fold_right].
  - now rewrite float_add_0_l.
  - now rewrite IH, float_add_assoc.
Qed.

Lemma nd_size_app (L1 L2 : list Float) :
  nd_size (L1 ++ L2) = nd_size L1 + nd_size L2.
Proof. unfold nd_size, py_len; rewrite length_app; lia. Qed.

Lemma nd_size_pos (L : list Float) : L <> [] -> 1 <= nd_size L.
Proof.
  unfold nd_size, py_len; destruct L; [contradiction | cbn [length]; lia].
Qed.

(** The loop adds up the sums and the sizes of the loss arrays; after the
    first batch [total_L] is a [numpy.float64]. *)
Lemma evaluate_loop_totals batches total ntotal h :
  match evaluate_loop tensor_detach reshape_3_1 loss model ctx batches
          total ntotal h,
        evaluate_losses tensor_detach reshape_3_1 loss model ctx batches h
  with
  | Ok (total', ntotal', _), Ok Ls =>
      scalar_value total'
        = float_add (scalar_value total) (nd_sum (concat Ls)) /\
      ntotal' = ntotal + nd_size (concat Ls) /\
      match batches with
      | [] => total' = total /\ Ls = []
      | _ :: _ => total' = NpFloat (scalar_value total')
      end
  | Raise e, Raise e' => e = e'
  | _, _ => False
  end.
Proof.
  revert total ntotal h.
  induction batches as [| [data target] batches IH]; intros total ntotal h.
  - cbn [evaluate_loop evaluate_losses concat].
    unfold nd_sum, nd_size, py_len; cbn [fold_right length].
    rewrite float_add_0_r; repeat split; lia.
  - cbn [evaluate_loop evaluate_losses].
    destruct (lm_forward model _ h) as [[output h1] | e]; cbn [res_bind];
      [|reflexivity].
    destruct (loss _ _) as [L | e]; cbn [res_bind]; [|reflexivity].
    specialize (IH (scalar_add total (nd_sum L)) (ntotal + nd_size L)
                  (detach tensor_detach h1)).
    destruct (evaluate_loop _ _ _ _ _ _ _ _ _) as [[[t' n'] h'] | e];
      destruct (evaluate_losses _ _ _ _ _ _ _) as [Ls | e'];
      cbn [res_bind]; try assumption; try contradiction.
    destruct IH as (Ht & -> & Htag); cbn [concat].
    rewrite nd_sum_app, nd_size_app, float_add_assoc.
    split; [exact Ht | split; [lia|]].
    destruct batches; [|exact Htag].
    destruct Htag as [-> _]; reflexivity.
Qed.

(** [evaluate] returns the mean of all the loss values of the data source:
    the sum of the loss arrays of all batches divided by the number of
    their entries.  The division is numpy's, since [total_L] is a
    [numpy.float64] after the first batch; only on a data source without
    batches it is still the float [0.0], and [0.0 / 0] raises.  A failure
    of the model or of the loss is raised as it is. *)
Theorem evaluate_mean_loss data_source batch_size :
  evaluate tensor_detach reshape_3_1 loss model data_source batch_size ctx =
    (hidden <- lm_begin_state model batch_size ctx ;;
     Ls <- evaluate_losses tensor_detach reshape_3_1 loss model ctx
             data_source hidden ;;
     match data_source with
     | [] => Raise ZeroDivisionError
     | _ :: _ => Ok (np_div (nd_sum (concat Ls)) (nd_size (concat Ls)))
     end)%res.
Proof.
  unfold evaluate; cbv zeta.
  destruct (lm_begin_state model batch_size ctx) as [h | e]; cbn [res_bind];
    [|reflexivity].
  pose proof (evaluate_loop_totals data_source (PyFloat (Finite 0)) 0 h) as H.
  destruct (evaluate_loop _ _ _ _ _ _ _ _ _) as [[[t' n'] h'] | e];
    destruct (evaluate_losses _ _ _ _ _ _ _) as [Ls | e'];
    cbn [res_bind]; try contradiction.
  - destruct H as (Ht & -> & Htag).
    cbn [scalar_value] in Ht; rewrite float_add_0_l in Ht.
    rewrite Z.add_0_l.
    destruct data_source.
    + destruct Htag as [-> ->]; reflexivity.
    + rewrite Htag, Ht; reflexivity.
  - now subst.
Qed.

(** When the model and the loss succeed on every batch, [evaluate] raises
    [ZeroDivisionError] exactly on a data source without batches.  With at
    least one batch it returns a value, also when no loss value was counted
    (every loss array empty): then the value is nan.  When a loss value was
    counted the value is the sum divided by the count, which is not zero. *)
Theorem evaluate_without_loss_values data_source batch_size hidden Ls :
  lm_begin_state model batch_size ctx = Ok hidden ->
  evaluate_losses tensor_detach reshape_3_1 loss model ctx data_source hidden
    = Ok Ls ->
  (evaluate tensor_detach reshape_3_1 loss model data_source batch_size ctx
     = Raise ZeroDivisionError <-> data_source = []) /\
  (data_source <> [] -> concat Ls = [] ->
   evaluate tensor_detach reshape_3_1 loss model data_source batch_size ctx
     = Ok NaN) /\
  (concat Ls <> [] ->
   evaluate tensor_detach reshape_3_1 loss model data_source batch_size ctx
     = Ok (np_div (nd_sum (concat Ls)) (nd_size (concat Ls))) /\
   1 <= nd_size (concat Ls)).
Proof.
  intros Hb HL.
  unfold evaluate; cbv zeta.
  rewrite Hb; cbn [res_bind].
  pose proof (evaluate_loop_totals data_source (PyFloat (Finite 0)) 0 hidden)
    as H.
  rewrite HL in H.
  destruct (evaluate_loop _ _ _ _ _ _ _ _ _) as [[[t' n'] h'] | e];
    [|contradiction].
  destruct H as (Ht & -> & Htag); cbn [res_bind].
  cbn [scalar_value] in Ht; rewrite float_add_0_l in Ht.
  rewrite Z.add_0_l.
  destruct data_source as [| batch batches].
  - destruct Htag as [-> ->]; cbn.
    repeat split; try reflexivity; intros; contradiction.
  - rewrite Htag, Ht; cbn [scalar_div].
    split; [split; intros; discriminate|].
    split.
    + intros _ ->.
      cbn [nd_sum nd_size py_len fold_right length Z.of_nat].
      now rewrite np_div_nothing.
    + intros Hne; split; [reflexivity | now apply nd_size_pos].
Qed.
End EvaluateMean.

(** On the sample model: no batch, one batch without time steps, and the
    batches of the short corpus. *)
Lemma evaluate_without_loss_values_witness :
  evaluate sample_detach (fun o => o) sample_loss sample_language_model
    [] 1 tt = Raise ZeroDivisionError /\
  evaluate sample_detach (fun o => o) sample_loss sample_language_model
    [(mkND [] 1, mkND [] 1)] 1 tt = Ok NaN /\
  evaluate sample_detach (fun o => o) sample_loss sample_language_model
    sample_batches 1 tt
  = Ok (np_div (nd_sum [Finite 1; Finite 1; Finite 1;
                        Finite 1; Finite 1; Finite 1]) 6).
Proof.
  split; [|split].
  - apply (evaluate_without_loss_values sample_detach (fun o => o)
             sample_loss sample_language_model tt [] 1
             (HTensor (0, true)) []);
      reflexivity.
  - apply (evaluate_without_loss_values sample_detach (fun o => o)
             sample_loss sample_language_model tt
             [(mkND [] 1, mkND [] 1)] 1 (HTensor (0, true)) [[]]);
      try reflexivity.
    discriminate.
  - apply (evaluate_without_loss_values sample_detach (fun o => o)
             sample_loss sample_language_model tt sample_batches 1
             (HTensor (0, true))
             [[Finite 1; Finite 1]; [Finite 1; Finite 1];
              [Finite 1; Finite 1]]);
      try reflexivity.
    discriminate.
Defined.

(** ** [evaluate_cache] on every data source *)

Lemma py_range_one_cursor (stop step : Z) :
  1 <= step -> 0 < stop <= step -> py_range 0 stop step = Ok [0].
Proof.
  intros Hstep Hstop; unfold py_range, range_count.
  destruct (Z.eqb_spec step 0) as [H0 | H0]; [lia|].
  destruct (Z.ltb_spec 0 step) as [Hs | Hs]; [|lia].
  destruct (Z.ltb_spec 0 stop) as [Hp | Hp]; [|lia].
  replace ((stop - 0 - 1) / step) with 0 by (symmetry; apply Z.div_small; lia).
  reflexivity.
Qed.

Section EvaluateCacheClosedForm.
Context {Ctx Tensor Hist Cache : Type}.
Variable tensor_detach : Tensor -> Tensor.
Variable bptt : Z.
Variable ctx : Ctx.

Implicit Types (model : CacheModel Ctx Tensor Hist Cache).
Implicit Types (st : CacheState Tensor Hist Cache) (s : Stdout).
Implicit Types (data_source : NDArray).

(** The iteration at cursor [0]: one call of the model on the first
    [min(bptt, len(data_source) - 1)] steps. *)
Lemma cache_body_cursor0 model data_source st s :
  1 <= bptt -> 2 <= nd_len data_source ->
  cache_body tensor_detach bptt model data_source ctx 0 st s =
    match cm_forward model
            (nd_window data_source 0
               (Z.min bptt (nd_len data_source - 1)))
            (nd_window data_source 1
               (1 + Z.min bptt (nd_len data_source - 1)))
            (next_word_history st) (cache_history st) (hidden st) with
    | Raise e => (Raise e, s)
    | Ok (outs, nwh, ch, h) =>
        match py_div (chunk_loss outs) (shape1 data_source) with
        | Raise e => (Raise e, s)
        | Ok q =>
            (Ok (Next (mkCacheState (total_L st + q)%R
                         (detach tensor_detach h) nwh ch)), s)
        end
    end.
Proof.
  intros Hb Hlen.
  destruct (get_batch_window bptt data_source 0 None) as (Hg & _);
    [lia | cbn; lia |].
  cbn [py_or_default] in Hg.
  replace (nd_len data_source - 1 - 0) with (nd_len data_source - 1)
    in Hg by lia.
  replace (0 + Z.min bptt (nd_len data_source - 1))
    with (Z.min bptt (nd_len data_source - 1)) in Hg by lia.
  replace (0 + 1) with 1 in Hg by lia.
  unfold cache_body, bind, report, lift, ret, as_in_context.
  cbn [Z.ltb Z.compare].
  destruct (Z.eqb_spec 0 bptt); [lia|].
  rewrite Hg.
  destruct (cm_forward _ _ _ _ _ _) as [[[[outs nwh] ch] h] | e];
    [|reflexivity].
  change (shape1 (nd_window data_source 0
                    (Z.min bptt (nd_len data_source - 1))))
    with (shape1 data_source).
  destruct (py_div _ _); reflexivity.
Qed.

(** What [evaluate_cache] computes, for every data source: no call of the
    model when there is no target, one call otherwise. *)
Lemma evaluate_cache_closed_form model data_source batch_size s :
  1 <= bptt ->
  evaluate_cache tensor_detach bptt model data_source batch_size ctx s =
    (hidden <- lift (cm_begin_state model batch_size ctx) ;;
     if nd_len data_source <=? 1 then
       lift (py_div 0 (nd_len data_source))
     else
       ' (outs, _, _, _) <-
          lift (cm_forward model
                  (nd_window data_source 0
                     (Z.min bptt (nd_len data_source - 1)))
                  (nd_window data_source 1
                     (1 + Z.min bptt (nd_len data_source - 1)))
                  None None hidden) ;;
       q <- lift (py_div (chunk_loss outs) (shape1 data_source)) ;;
       let total_L := (0 + q)%R in
       if bptt <? nd_len data_source - 1 then
         print (bptt, exp (total_L / IZR bptt)) ;;
         ret (total_L / IZR bptt)%R
       else
         lift (py_div total_L (nd_len data_source)))%io s.
Proof.
  intros Hb.
  unfold evaluate_cache; cbv zeta.
  unfold bind at 1 3; unfold lift at 1 4.
  destruct (cm_begin_state model batch_size ctx) as [h0 | e]; [|reflexivity].
  destruct (Z.leb_spec (nd_len data_source) 1) as [Hlen | Hlen].
  - unfold bind, lift.
    rewrite py_range_empty by lia; reflexivity.
  - destruct (Z.ltb_spec bptt (nd_len data_source - 1)) as [Hlong | Hshort].
    + destruct (py_range_two_cursors (nd_len data_source - 1) bptt)
        as [rest Hr]; [lia | lia |].
      unfold bind at 1; unfold lift at 1; rewrite Hr.
      cbn [cache_loop].
      unfold bind at 1; rewrite cache_body_cursor0 by lia.
      cbn [next_word_history cache_history hidden total_L].
      unfold bind at 2; unfold lift at 1.
      destruct (cm_forward _ _ _ _ _ _) as [[[[outs nwh] ch] h] | e];
        [|reflexivity].
      unfold bind at 2; unfold lift at 1.
      destruct (py_div _ _) as [q | e]; [|reflexivity].
      unfold bind at 1; rewrite cache_body_at_bptt by lia.
      reflexivity.
    + unfold bind at 1; unfold lift at 1.
      rewrite py_range_one_cursor by lia.
      cbn [cache_loop].
      unfold bind at 1; rewrite cache_body_cursor0 by lia.
      cbn [next_word_history cache_history hidden total_L].
      unfold bind at 1; unfold lift at 2.
      destruct (cm_forward _ _ _ _ _ _) as [[[[outs nwh] ch] h] | e];
        [|reflexivity].
      unfold bind at 1; unfold lift at 2.
      destruct (py_div _ _) as [q | e]; reflexivity.
Qed.
End EvaluateCacheClosedForm.

Section EvaluateCacheEverySource.
Context {Ctx Tensor Hist Cache : Type}.
Variable tensor_detach : Tensor -> Tensor.
Variable bptt : Z.
Variable ctx : Ctx.

Implicit Types (model : CacheModel Ctx Tensor Hist Cache).
Implicit Types (s : Stdout) (data_source : NDArray).

(** On a data source with at least one target and at most [bptt] of them,
    [evaluate_cache] calls the model once on the whole stream (all steps
    but the last as data, all but the first as target), prints nothing, and
    returns the loss of that window divided by [len(data_source)], that is
    by one more than the number of targets. *)
Theorem evaluate_cache_short_source model data_source batch_size s :
  1 <= bptt -> 2 <= nd_len data_source -> nd_len data_source - 1 <= bptt ->
  evaluate_cache tensor_detach bptt model data_source batch_size ctx s =
    (hidden <- lift (cm_begin_state model batch_size ctx) ;;
     ' (outs, _, _, _) <-
        lift (cm_forward model
                (nd_window data_source 0 (nd_len data_source - 1))
                (nd_window data_source 1 (nd_len data_source))
                None None hidden) ;;
     q <- lift (py_div (chunk_loss outs) (shape1 data_source)) ;;
     ret ((0 + q) / IZR (nd_len data_source))%R)%io s.
Proof.
  intros Hb Hlen Hshort.
  rewrite evaluate_cache_closed_form by assumption.
  destruct (Z.leb_spec (nd_len data_source) 1); [lia|].
  destruct (Z.ltb_spec bptt (nd_len data_source - 1)); [lia|].
  replace (Z.min bptt (nd_len data_source - 1))
    with (nd_len data_source - 1) by lia.
  replace (1 + (nd_len data_source - 1)) with (nd_len data_source) by lia.
  unfold bind, lift, ret, py_div.
  destruct (cm_begin_state model batch_size ctx) as [h0 | e]; [|reflexivity].
  destruct (cm_forward _ _ _ _ _ _) as [[[[outs nwh] ch] h] | e];
    [|reflexivity].
  destruct (shape1 data_source =? 0); [reflexivity|].
  destruct (Z.eqb_spec (nd_len data_source) 0); [lia | reflexivity].
Qed.

(** Runs of [evaluate_cache] in which the model's forward call is never
    made: [bptt = 0] makes [range] raise [ValueError]; with [bptt >= 1] an
    empty data source raises [ZeroDivisionError] and a data source of one
    step returns the loss [0]. *)
Theorem evaluate_cache_without_targets model data_source batch_size s h :
  cm_begin_state model batch_size ctx = Ok h ->
  (bptt = 0 ->
   evaluate_cache tensor_detach bptt model data_source batch_size ctx s
     = (Raise ValueError, s)) /\
  (1 <= bptt -> nd_len data_source = 0 ->
   evaluate_cache tensor_detach bptt model data_source batch_size ctx s
     = (Raise ZeroDivisionError, s)) /\
  (1 <= bptt -> nd_len data_source = 1 ->
   evaluate_cache tensor_detach bptt model data_source batch_size ctx s
     = (Ok (0 / 1)%R, s)).
Proof.
  intros Hbegin; split; [|split].
  - intros ->.
    unfold evaluate_cache, bind, lift; cbv zeta.
    rewrite Hbegin; reflexivity.
  - intros Hb Hlen.
    rewrite evaluate_cache_closed_form by assumption.
    unfold bind, lift; rewrite Hbegin, Hlen; reflexivity.
  - intros Hb Hlen.
    rewrite evaluate_cache_closed_form by assumption.
    unfold bind, lift; rewrite Hbegin, Hlen; reflexivity.
Qed.

(** [evaluate_cache] never hands back to the model what the model
    returned: two models with the same initial state and the same
    probabilities on calls with fresh ([None]) histories give the same
    result and the same output, whatever histories and hidden states they
    return. *)
Theorem evaluate_cache_ignores_returned_state model1 model2 data_source
    batch_size s :
  1 <= bptt ->
  cm_begin_state model1 batch_size ctx = cm_begin_state model2 batch_size ctx ->
  (forall data target h,
      match cm_forward model1 data target None None h,
            cm_forward model2 data target None None h with
      | Ok (outs1, _, _, _), Ok (outs2, _, _, _) => outs1 = outs2
      | Raise e1, Raise e2 => e1 = e2
      | _, _ => False
      end) ->
  evaluate_cache tensor_detach bptt model1 data_source batch_size ctx s =
  evaluate_cache tensor_detach bptt model2 data_source batch_size ctx s.
Proof.
  intros Hb Hbegin Hforward.
  rewrite !evaluate_cache_closed_form by assumption.
  unfold bind, lift; rewrite Hbegin.
  destruct (cm_begin_state model2 batch_size ctx) as [h0 | e];
    [|reflexivity].
  destruct (nd_len data_source <=? 1); [reflexivity|].
  specialize (Hforward
    (nd_window data_source 0 (Z.min bptt (nd_len data_source - 1)))
    (nd_window data_source 1 (1 + Z.min bptt (nd_len data_source - 1)))
    h0).
  destruct (cm_forward model1 _ _ _ _ _) as [[[[outs1 n1] c1] h1] | e1];
    destruct (cm_forward model2 _ _ _ _ _) as [[[[outs2 n2] c2] h2] | e2];
    try contradiction; now subst.
Qed.

(** If the model only emits probabilities strictly between 0 and 1, a loss
    returned by [evaluate_cache] is not negative. *)
Theorem evaluate_cache_loss_nonneg model data_source batch_size s v s' :
  1 <= bptt ->
  (forall d t n c h outs n' c' h',
      cm_forward model d t n c h = Ok (outs, n', c', h') ->
      Forall in_unit_interval outs) ->
  evaluate_cache tensor_detach bptt model data_source batch_size ctx s
    = (Ok v, s') ->
  (0 <= v)%R.
Proof.
  intros Hb Hmodel.
  rewrite evaluate_cache_closed_form by assumption.
  unfold bind at 1; unfold lift at 1.
  destruct (cm_begin_state model batch_size ctx) as [h0 | e];
    [|discriminate].
  assert (Hdiv : forall x n q, (0 <= x)%R -> 0 <= n -> py_div x n = Ok q ->
                               (0 <= q)%R).
  { intros x n q Hx Hn Hq.
    apply (py_div_nonneg x q (Z.to_nat n) Hx).
    now rewrite Z2Nat.id. }
  pose proof (nd_len_nonneg data_source) as Hlen.
  destruct (nd_len data_source <=? 1).
  - unfold lift; intros [= Hq _].
    apply (Hdiv 0%R _ _ (Rle_refl 0) Hlen Hq).
  - unfold bind at 1; unfold lift at 1.
    destruct (cm_forward _ _ _ _ _ _) as [[[[outs nwh] ch] h] | e] eqn:Hf;
      [|discriminate].
    apply Hmodel, chunk_loss_nonneg in Hf.
    unfold bind at 1; unfold lift at 1.
    destruct (py_div (chunk_loss outs) _) as [q | e] eqn:Hq; [|discriminate].
    apply (py_div_nonneg _ _ _ Hf) in Hq.
    cbv zeta.
    destruct (bptt <? nd_len data_source - 1).
    + unfold bind, print, ret; intros [= <- _].
      apply Rmult_le_pos; [lra|].
      left; apply Rinv_0_lt_compat, IZR_lt; lia.
    + unfold lift; intros [= Hv _].
      apply (Hdiv (0 + q)%R _ _ ltac:(lra) Hlen Hv).
Qed.
End EvaluateCacheEverySource.

Lemma evaluate_cache_short_source_witness :
  evaluate_cache sample_detach 2 sample_cache_model stream3 1 tt [] =
    (Ok ((0 + (0 + - ln (/ 2) + - ln (/ 2)) / 1) / 3)%R, []).
Proof.
  rewrite (evaluate_cache_short_source sample_detach 2 tt sample_cache_model
             stream3 1 []); [reflexivity | lia | cbn; lia | cbn; lia].
Defined.

Lemma evaluate_cache_without_targets_witness :
  evaluate_cache sample_detach 0 sample_cache_model stream3 1 tt []
    = (Raise ValueError, []) /\
  evaluate_cache sample_detach 2 sample_cache_model (mkND [] 1) 1 tt []
    = (Raise ZeroDivisionError, []) /\
  evaluate_cache sample_detach 2 sample_cache_model (mkND [[10]] 1) 1 tt []
    = (Ok (0 / 1)%R, []).
Proof.
  split; [|split].
  - apply (evaluate_cache_without_targets sample_detach 0 tt
             sample_cache_model stream3 1 [] sample_hidden); reflexivity.
  - apply (evaluate_cache_without_targets sample_detach 2 tt
             sample_cache_model (mkND [] 1) 1 [] sample_hidden);
      [reflexivity | lia | reflexivity].
  - apply (evaluate_cache_without_targets sample_detach 2 tt
             sample_cache_model (mkND [[10]] 1) 1 [] sample_hidden);
      [reflexivity | lia | reflexivity].
Defined.

Lemma evaluate_cache_ignores_returned_state_witness :
  evaluate_cache sample_detach 2 sample_cache_model stream5 1 tt [] =
  evaluate_cache sample_detach 2 forgetful_cache_model stream5 1 tt [].
Proof.
  apply (evaluate_cache_ignores_returned_state sample_detach 2 tt
           sample_cache_model forgetful_cache_model stream5 1 []);
    [lia | reflexivity | intros; reflexivity].
Defined.

Lemma evaluate_cache_loss_nonneg_witness :
  (0 <= (0 + (0 + - ln (/ 2) + - ln (/ 2)) / 1) / 2)%R.
Proof.
  apply (evaluate_cache_loss_nonneg sample_detach 2 tt sample_cache_model
           stream5 1 []
           ((0 + (0 + - ln (/ 2) + - ln (/ 2)) / 1) / 2)%R
           [(2, exp ((0 + (0 + - ln (/ 2) + - ln (/ 2)) / 1) / 2))]);
    [lia | exact sample_cache_model_unit_interval | reflexivity].
Defined.

(** ** [detach] applied again *)

Section DetachTwice.
Context {Tensor : Type}.

Lemma detach_ext (f g : Tensor -> Tensor) :
  (forall t, f t = g t) -> forall h, detach f h = detach g h.
Proof.
  intros Hfg h.
  induction h as [t | hs IH | hs IH] using Hidden_nested_ind;
    cbn [detach]; [now rewrite Hfg | |]; f_equal; now apply Forall_map_eq.
Qed.

Lemma detach_detach (f g : Tensor -> Tensor) (h : Hidden Tensor) :
  detach f (detach g h) = detach (fun t => f (g t)) h.
Proof.
  induction h as [t | hs IH | hs IH] using Hidden_nested_ind;
    cbn [detach]; [reflexivity | |];
    f_equal; rewrite map_map; now apply Forall_map_eq.
Qed.

(** Detaching a detached state: whatever detaching a tensor does, the
    nesting is that of the original state and the leaves are the original
    tensors, in order, each detached twice.  When detaching a detached
    tensor gives the same tensor, detaching a detached state gives the same
    state: [evaluate] and [train] may then detach a state that is already
    detached. *)
Theorem detach_idempotent (tensor_detach : Tensor -> Tensor)
    (h : Hidden Tensor) :
  shape (detach tensor_detach (detach tensor_detach h)) = shape h /\
  leaves (detach tensor_detach (detach tensor_detach h))
    = map (fun t => tensor_detach (tensor_detach t)) (leaves h) /\
  ((forall t, tensor_detach (tensor_detach t) = tensor_detach t) ->
   detach tensor_detach (detach tensor_detach h) = detach tensor_detach h).
Proof.
  rewrite detach_detach.
  split; [apply detach_shape|].
  split; [apply detach_leaves|].
  intros Hidem; now apply detach_ext.
Qed.
End DetachTwice.

Lemma detach_idempotent_witness :
  shape (detach sample_detach (detach sample_detach sample_hidden))
    = shape sample_hidden /\
  leaves (detach sample_detach (detach sample_detach sample_hidden))
    = map (fun t => sample_detach (sample_detach t)) (leaves sample_hidden) /\
  detach sample_detach (detach sample_detach sample_hidden)
    = detach sample_detach sample_hidden.
Proof.
  destruct (detach_idempotent sample_detach sample_hidden) as (Hs & Hl & Hi).
  split; [exact Hs|]; split; [exact Hl|].
  apply Hi; intros [v a]; reflexivity.
Defined.

(** ** [train]: what the computations add to the trace *)

Section TraceFacts.
Context {World : Type}.

Lemma t_bind_ok {A B : Type} (c : T World A) (k : A -> T World B) s b s' :
  t_bind c k s = (Ok b, s') ->
  exists a s1, c s = (Ok a, s1) /\ k a s1 = (Ok b, s').
Proof.
  unfold t_bind; destruct (c s) as [[a | e] s1]; [eauto | discriminate].
Qed.

Lemma quiet_ret {A : Type} (a : A) : quiet (World:=World) (t_ret a).
Proof. intros s r s' [= _ <-]; reflexivity. Qed.

Lemma quiet_lift {A : Type} (r : Res A) : quiet (World:=World) (t_lift r).
Proof. intros s r' s' [= _ <-]; reflexivity. Qed.

Lemma quiet_call {A : Type} (op : World -> Res A * World) : quiet (call op).
Proof.
  intros s r s'; unfold call.
  destruct (op (world s)); intros [= _ <-]; reflexivity.
Qed.

Lemma quiet_call_ (op : World -> World) : quiet (call_ op).
Proof. intros s r s' [= _ <-]; reflexivity. Qed.

Lemma quiet_get_world : quiet (get_world (World:=World)).
Proof. intros s r s' [= _ <-]; reflexivity. Qed.

Lemma quiet_bind {A B : Type} (c : T World A) (k : A -> T World B) :
  quiet c -> (forall a, quiet (k a)) -> quiet (t_bind c k).
Proof.
  intros Hc Hk s r s'; unfold t_bind.
  destruct (c s) as [[a | e] s1] eqn:E; apply Hc in E.
  - intros H; apply Hk in H; congruence.
  - intros [= _ <-]; exact E.
Qed.

Lemma quiet_finally {A : Type} (body : T World A) (leave : T World unit) :
  quiet body -> quiet leave -> quiet (t_finally body leave).
Proof.
  intros Hb Hl s r s'; unfold t_finally.
  destruct (body s) as [r1 s1] eqn:E1; apply Hb in E1.
  destruct (leave s1) as [[u | e] s2] eqn:E2; apply Hl in E2;
    intros [= _ <-]; congruence.
Qed.

Lemma quiet_map {A B : Type} (f : A -> T World B) (xs : list A) :
  (forall x, quiet (f x)) -> quiet (t_map f xs).
Proof.
  intros Hf; induction xs as [| x xs IH]; cbn [t_map].
  - apply quiet_ret.
  - apply quiet_bind; [apply Hf|]; intros y.
    apply quiet_bind; [exact IH|]; intros ys; apply quiet_ret.
Qed.

Lemma emits_quiet {A : Type} (P : Event -> Prop) (c : T World A) :
  quiet c -> emits P c.
Proof.
  intros Hc s r s' H; exists []; rewrite app_nil_r.
  split; [eapply Hc, H | constructor].
Qed.

Lemma emits_emit (P : Event -> Prop) (e : Event) :
  P e -> emits (World:=World) P (emit e).
Proof.
  intros He s r s' [= _ <-]; exists [e]; cbn; split; [reflexivity|].
  repeat constructor; exact He.
Qed.

Lemma emits_bind {A B : Type} (P : Event -> Prop) (c : T World A)
    (k : A -> T World B) :
  emits P c -> (forall a, emits P (k a)) -> emits P (t_bind c k).
Proof.
  intros Hc Hk s r s'; unfold t_bind.
  destruct (c s) as [[a | e] s1] eqn:E; apply Hc in E as (evs1 & E1 & P1).
  - intros H; apply Hk in H as (evs2 & E2 & P2).
    exists (evs1 ++ evs2); split; [|now apply Forall_app].
    now rewrite E2, E1, app_assoc.
  - intros [= _ <-]; eauto.
Qed.

(** A step that succeeds and is quiet. *)
Lemma quiet_step {A B : Type} (c : T World A) (k : A -> T World B) s b s' :
  quiet c ->
  t_bind c k s = (Ok b, s') ->
  exists a s1, trace s1 = trace s /\ k a s1 = (Ok b, s').
Proof.
  intros Hc H; apply t_bind_ok in H as (a & s1 & H1 & H2).
  apply Hc in H1; eauto.
Qed.

(** A step that emits one event. *)
Lemma emit_step {B : Type} (e : Event) (k : unit -> T World B) s b s' :
  t_bind (emit e) k s = (Ok b, s') ->
  exists s1, trace s1 = trace s ++ [e] /\ k tt s1 = (Ok b, s').
Proof.
  intros H; apply t_bind_ok in H as ([] & s1 & [= <-] & H2).
  eexists; split; [|exact H2]; reflexivity.
Qed.
End TraceFacts.

Section TrainTrace.
Context {Ctx Tensor Out World Params Grads Arr : Type}.
Variable tensor_detach : Tensor -> Tensor.
Variable reshape_3_1 : Out -> Out.
Variable loss : Out -> list Z -> Res (list Float).
Variable context0 : Ctx.
Variable context_rest : list Ctx.
Variables batch_size log_interval : Z.
Variable grad_clip : R.
Variables model_name dataset_name : string.
Variable fw : Framework Ctx Tensor Out World Params Grads Arr.

Lemma quiet_clock : quiet (clock fw).
Proof.
  intros s r s'; unfold clock.
  destruct (time_time fw (world s)); intros [= _ <-]; reflexivity.
Qed.

Lemma quiet_loss_sum_add L d : quiet (loss_sum_add fw L d).
Proof.
  destruct L; cbn [loss_sum_add];
    (apply quiet_bind; [apply quiet_call | intros; apply quiet_ret]).
Qed.

Lemma quiet_loss_sum_backward L : quiet (loss_sum_backward fw L).
Proof. destruct L; cbn; [apply quiet_lift | apply quiet_call]. Qed.

Lemma quiet_record_loop j triples L Ls hiddens :
  quiet (record_loop reshape_3_1 context0 context_rest fw j triples L Ls
           hiddens).
Proof.
  revert j L Ls hiddens.
  induction triples as [| [[X y] h] triples IH]; intros j L Ls hiddens;
    cbn [record_loop]; [apply quiet_ret|].
  apply quiet_bind; [apply quiet_call | intros [output h1]].
  apply quiet_bind; [apply quiet_call | intros batch_L].
  apply quiet_bind; [apply quiet_call | intros d].
  apply quiet_bind; [apply quiet_loss_sum_add | intros L1].
  apply quiet_bind; [apply quiet_call | intros l].
  apply quiet_bind; [apply quiet_lift | intros hiddens1].
  apply IH.
Qed.

Lemma quiet_batch_update parameters data target total_L hiddens :
  quiet (batch_update tensor_detach reshape_3_1 context0 context_rest
           grad_clip fw parameters data target total_L hiddens).
Proof.
  unfold batch_update; cbv zeta.
  apply quiet_bind; [apply quiet_call | intros data_list].
  apply quiet_bind; [apply quiet_call | intros target_list].
  apply quiet_bind.
  { apply quiet_finally; [|apply quiet_call_].
    apply quiet_bind; [apply quiet_call_ | intros _].
    apply quiet_record_loop. }
  intros [[L Ls] hiddens1].
  apply quiet_bind; [apply quiet_loss_sum_backward | intros _].
  apply quiet_bind; [apply quiet_call | intros grads].
  apply quiet_bind; [apply quiet_call | intros _].
  apply quiet_bind; [apply quiet_call | intros _].
  apply quiet_bind; [apply quiet_map; intros l; apply quiet_call|].
  intros sums; apply quiet_ret.
Qed.

(** The loop over the batches only prints batch lines. *)
Lemma batch_loop_emits parameters epoch batches i train_data total_L start
    hiddens :
  emits batch_line
    (batch_loop tensor_detach reshape_3_1 context0 context_rest batch_size
       log_interval grad_clip fw parameters epoch batches i train_data
       total_L start hiddens).
Proof.
  revert i total_L start hiddens.
  induction train_data as [| [data target] train_data IH];
    intros i total_L start hiddens; cbn [batch_loop].
  - apply emits_quiet, quiet_ret.
  - apply emits_bind; [apply emits_quiet, quiet_batch_update|].
    intros [total_L1 hiddens1].
    apply emits_bind; [apply emits_quiet, quiet_lift | intros r].
    destruct ((r =? 0) && (0 <? i)); [|apply IH].
    apply emits_bind; [apply emits_quiet, quiet_lift | intros cur_L].
    apply emits_bind; [apply emits_quiet, quiet_clock | intros now].
    apply emits_bind; [apply emits_quiet, quiet_lift | intros throughput].
    apply emits_bind; [now apply emits_emit | intros _].
    apply emits_bind; [apply emits_quiet, quiet_clock | intros start1].
    apply IH.
Qed.

Lemma batch_line_silent e : batch_line e -> silent e.
Proof. destruct e; cbn; tauto. Qed.

(** A completed epoch: what it adds to the trace and what it leaves in
    [best_val] and [lr]. *)
Lemma train_epoch_ok parameters train_data val_data test_data epoch best lr
    s best' lr' s' :
  train_epoch tensor_detach reshape_3_1 loss context0 context_rest batch_size
    log_interval grad_clip model_name dataset_name fw parameters train_data
    val_data test_data epoch best lr s = (Ok (best', lr'), s') ->
  exists pre tc v,
    Forall silent pre /\
    ((float_lt v best = true /\ best' = v /\ lr' = lr /\
      exists t,
        trace s' = trace s ++ pre
                     ++ [PrintValid epoch tc v (float_exp v);
                         SaveParameters (params_file model_name dataset_name
                                           epoch);
                         PrintTest t (float_exp t)]) \/
     (float_lt v best = false /\ best' = best /\ lr' = (lr * 0.25)%R /\
      trace s' = trace s ++ pre
                   ++ [PrintValid epoch tc v (float_exp v);
                       PrintLearningRate (lr * 0.25);
                       SetLearningRate (lr * 0.25)])).
Proof.
  unfold train_epoch; cbv zeta; intros H.
  apply quiet_step in H as (t0 & s1 & E1 & H); [|apply quiet_clock].
  apply quiet_step in H as (t1 & s2 & E2 & H); [|apply quiet_clock].
  apply quiet_step in H as (hiddens & s3 & E3 & H);
    [|apply quiet_map; intros; apply quiet_call].
  apply t_bind_ok in H as (res & s4 & Hloop & H).
  apply batch_loop_emits in Hloop as (bevs & E4 & Hbevs).
  apply quiet_step in H as (u & s5 & E5 & H); [|apply quiet_call].
  apply quiet_step in H as (now & s6 & E6 & H); [|apply quiet_clock].
  apply quiet_step in H as (thr & s7 & E7 & H); [|apply quiet_lift].
  apply emit_step in H as (s8 & E8 & H).
  apply quiet_step in H as (w & s9 & E9 & H); [|apply quiet_get_world].
  apply quiet_step in H as (v & s10 & E10 & H); [|apply quiet_lift].
  apply quiet_step in H as (now' & s11 & E11 & H); [|apply quiet_clock].
  apply emit_step in H as (s12 & E12 & H).
  exists (bevs ++ [PrintEpoch epoch thr]), (now' - t0)%R, v.
  split.
  { apply Forall_app; split.
    - eapply Forall_impl; [apply batch_line_silent | exact Hbevs].
    - repeat constructor. }
  assert (Etrace : trace s12 = trace s ++ (bevs ++ [PrintEpoch epoch thr])
                     ++ [PrintValid epoch (now' - t0) v (float_exp v)]).
  { rewrite E12, E11, E10, E9, E8, E7, E6, E5, E4, E3, E2, E1.
    now rewrite <- !app_assoc. }
  destruct (float_lt v best) eqn:Hlt.
  - left.
    apply quiet_step in H as (w' & s13 & E13 & H); [|apply quiet_get_world].
    apply quiet_step in H as (t & s14 & E14 & H); [|apply quiet_lift].
    apply emit_step in H as (s15 & E15 & H).
    apply quiet_step in H as (u' & s16 & E16 & H); [|apply quiet_call].
    apply emit_step in H as (s17 & E17 & H).
    injection H as <- <- <-.
    repeat split; try reflexivity.
    exists t.
    rewrite E17, E16, E15, E14, E13, Etrace.
    now rewrite <- !app_assoc.
  - right.
    apply emit_step in H as (s13 & E13 & H).
    apply emit_step in H as (s14 & E14 & H).
    apply quiet_step in H as (u' & s15 & E15 & H); [|apply quiet_call].
    injection H as <- <- <-.
    repeat split; try reflexivity.
    rewrite E15, E14, E13, Etrace.
    now rewrite <- !app_assoc.
Qed.

(** The completed epochs of a loop, as an [epochs_trace]. *)
Lemma epoch_loop_ok parameters train_data val_data test_data epochs :
  forall best lr s best' lr' s',
    epoch_loop tensor_detach reshape_3_1 loss context0 context_rest
      batch_size log_interval grad_clip model_name dataset_name fw
      parameters train_data val_data test_data epochs best lr s
    = (Ok (best', lr'), s') ->
    exists evs,
      trace s' = trace s ++ evs /\
      epochs_trace (params_file model_name dataset_name) epochs best lr evs
        best' lr'.
Proof.
  induction epochs as [| epoch epochs IH]; intros best lr s best' lr' s' H;
    cbn [epoch_loop] in H.
  - injection H as <- <- <-.
    exists []; rewrite app_nil_r; split; [reflexivity | constructor].
  - apply t_bind_ok in H as ([best1 lr1] & s1 & Hepoch & Hrest).
    apply train_epoch_ok in Hepoch
      as (pre & tc & v & Hpre
          & [(Hlt & -> & -> & t & E1) | (Hlt & -> & -> & E1)]);
      apply IH in Hrest as (evs & E2 & Hevs).
    + eexists; split; [|eapply epoch_saved; eassumption].
      rewrite E2, E1; now rewrite <- !app_assoc.
    + eexists; split; [|eapply epoch_cut; eassumption].
      rewrite E2, E1; now rewrite <- !app_assoc.
Qed.

(** A completed run of [train]: the epochs of [range(epochs)], then the
    total throughput line. *)
Lemma train_ok train_data val_data test_data epochs lr s s' :
  train tensor_detach reshape_3_1 loss context0 context_rest batch_size
    log_interval grad_clip model_name dataset_name fw train_data val_data
    test_data epochs lr s = (Ok tt, s') ->
  exists range_epochs evs throughput best' lr',
    py_range 0 epochs 1 = Ok range_epochs /\
    trace s' = trace s ++ evs ++ [PrintTotal throughput] /\
    epochs_trace (params_file model_name dataset_name) range_epochs
      Infinity lr evs best' lr'.
Proof.
  unfold train; cbv zeta; intros H.
  apply quiet_step in H as (t0 & s1 & E1 & H); [|apply quiet_clock].
  apply quiet_step in H as (parameters & s2 & E2 & H); [|apply quiet_call].
  apply t_bind_ok in H as (range_epochs & s3 & Hr & H).
  unfold t_lift in Hr.
  pose proof (f_equal snd Hr) as Hs; cbn [snd] in Hs; subst s3.
  apply (f_equal fst) in Hr; cbn [fst] in Hr.
  apply t_bind_ok in H as ([best' lr'] & s4 & Hloop & H).
  apply epoch_loop_ok in Hloop as (evs & E4 & Hevs).
  apply quiet_step in H as (now & s5 & E5 & H); [|apply quiet_clock].
  apply quiet_step in H as (thr & s6 & E6 & H); [|apply quiet_lift].
  injection H as <-.
  exists range_epochs, evs, thr, best', lr'.
  split; [exact Hr|]; split; [|exact Hevs].
  cbn [trace]; rewrite E6, E5, E4, E2, E1.
  now rewrite <- !app_assoc.
Qed.
End TrainTrace.

(** ** [train]: the decisions of a completed run *)

Lemma py_range_epochs (epochs : Z) :
  py_range 0 epochs 1 = Ok (map Z.of_nat (seq 0 (Z.to_nat epochs))).
Proof.
  unfold py_range, range_count; cbn [Z.eqb Z.ltb Z.compare].
  destruct (Z.ltb_spec 0 epochs) as [Hp | Hp].
  - rewrite Z.div_1_r.
    replace (Z.to_nat (epochs - 0 - 1 + 1)) with (Z.to_nat epochs) by lia.
    f_equal; apply map_ext; intros k; lia.
  - replace (Z.to_nat epochs) with 0%nat by lia; reflexivity.
Qed.

Lemma flat_map_silent {A : Type} (g : Event -> list A) (pre l : list Event) :
  (forall e, silent e -> g e = []) ->
  Forall silent pre ->
  flat_map g (pre ++ l) = flat_map g l.
Proof.
  intros Hg; induction 1 as [| e pre He _ IH]; [reflexivity|].
  cbn [app flat_map]; now rewrite (Hg e He), IH.
Qed.

Ltac silent_prefix :=
  intros Hpre; unfold learning_rates, saved_files, valid_losses, decisions;
  rewrite flat_map_silent;
  [reflexivity | intros []; cbn; try reflexivity; contradiction | exact Hpre].

Section EpochsTrace.
Variable file : Z -> string.
Variables (pre evs : list Event) (epoch : Z) (tc lr : R) (v t : Float).
Variable f : string.

Lemma rates_saved :
  Forall silent pre ->
  learning_rates (pre ++ PrintValid epoch tc v (float_exp v) :: SaveParameters f
                      :: PrintTest t (float_exp t) :: evs)
  = learning_rates evs.
Proof. silent_prefix. Qed.

Lemma rates_cut :
  Forall silent pre ->
  learning_rates (pre ++ PrintValid epoch tc v (float_exp v) :: PrintLearningRate lr
                      :: SetLearningRate lr :: evs)
  = lr :: learning_rates evs.
Proof. silent_prefix. Qed.

Lemma files_saved :
  Forall silent pre ->
  saved_files (pre ++ PrintValid epoch tc v (float_exp v) :: SaveParameters f
                   :: PrintTest t (float_exp t) :: evs)
  = f :: saved_files evs.
Proof. silent_prefix. Qed.

Lemma files_cut :
  Forall silent pre ->
  saved_files (pre ++ PrintValid epoch tc v (float_exp v) :: PrintLearningRate lr
                   :: SetLearningRate lr :: evs)
  = saved_files evs.
Proof. silent_prefix. Qed.

Lemma losses_saved :
  Forall silent pre ->
  valid_losses (pre ++ PrintValid epoch tc v (float_exp v) :: SaveParameters f
                    :: PrintTest t (float_exp t) :: evs)
  = v :: valid_losses evs.
Proof. silent_prefix. Qed.

Lemma losses_cut :
  Forall silent pre ->
  valid_losses (pre ++ PrintValid epoch tc v (float_exp v) :: PrintLearningRate lr
                    :: SetLearningRate lr :: evs)
  = v :: valid_losses evs.
Proof. silent_prefix. Qed.

Lemma decisions_saved :
  Forall silent pre ->
  decisions (pre ++ PrintValid epoch tc v (float_exp v) :: SaveParameters f
                 :: PrintTest t (float_exp t) :: evs)
  = true :: decisions evs.
Proof. silent_prefix. Qed.

Lemma decisions_cut :
  Forall silent pre ->
  decisions (pre ++ PrintValid epoch tc v (float_exp v) :: PrintLearningRate lr
                 :: SetLearningRate lr :: evs)
  = false :: decisions evs.
Proof. silent_prefix. Qed.
End EpochsTrace.

Ltac float_cases :=
  cbn [float_lt is_nan] in *; try discriminate; try reflexivity;
  repeat match goal with
         | H : context [Rlt_dec ?a ?b] |- _ => destruct (Rlt_dec a b)
         | |- context [Rlt_dec ?a ?b] => destruct (Rlt_dec a b)
         end;
  try discriminate; try reflexivity; try lra.

Section EpochsTraceFacts.
Variable file : Z -> string.

Ltac project_trace Hpre :=
  rewrite ?rates_saved, ?rates_cut, ?files_saved, ?files_cut, ?losses_saved,
    ?losses_cut, ?decisions_saved, ?decisions_cut by exact Hpre.

Lemma epochs_trace_rates epochs best lr evs best' lr' :
  epochs_trace file epochs best lr evs best' lr' ->
  learning_rates evs
    = map (fun k => (lr * 0.25 ^ S k)%R)
        (seq 0 (length (learning_rates evs))) /\
  lr' = (lr * 0.25 ^ length (learning_rates evs))%R.
Proof.
  induction 1 as [best lr
                 | epoch epochs best lr pre tc v t evs best' lr' Hpre Hlt _ IH
                 | epoch epochs best lr pre tc v evs best' lr' Hpre Hlt _ IH].
  - cbn; split; [reflexivity | lra].
  - project_trace Hpre; exact IH.
  - project_trace Hpre.
    destruct IH as [IH1 IH2]; cbn [length seq map].
    split.
    + f_equal; [cbn; lra|].
      rewrite <- seq_shift, map_map.
      rewrite IH1 at 1.
      apply map_ext; intros k; cbn [pow]; lra.
    + rewrite IH2; cbn [pow]; lra.
Qed.

Lemma epochs_trace_counts epochs best lr evs best' lr' :
  epochs_trace file epochs best lr evs best' lr' ->
  length (decisions evs) = length epochs /\
  length (valid_losses evs) = length epochs /\
  (length (saved_files evs) + length (learning_rates evs))%nat
    = length epochs.
Proof.
  induction 1 as [best lr
                 | epoch epochs best lr pre tc v t evs best' lr' Hpre Hlt _ IH
                 | epoch epochs best lr pre tc v evs best' lr' Hpre Hlt _ IH].
  - repeat split; reflexivity.
  - project_trace Hpre; cbn [length]; lia.
  - project_trace Hpre; cbn [length]; lia.
Qed.

Lemma epochs_trace_files epochs best lr evs best' lr' :
  epochs_trace file epochs best lr evs best' lr' ->
  saved_files evs
    = map file (map fst (filter snd (combine epochs (decisions evs)))).
Proof.
  induction 1 as [best lr
                 | epoch epochs best lr pre tc v t evs best' lr' Hpre Hlt _ IH
                 | epoch epochs best lr pre tc v evs best' lr' Hpre Hlt _ IH].
  - reflexivity.
  - project_trace Hpre; cbn [combine filter snd map fst]; now rewrite IH.
  - project_trace Hpre; cbn [combine filter snd map fst]; exact IH.
Qed.

Lemma float_lt_not_nan v b :
  float_lt v b = true -> is_nan v = false /\ is_nan b = false.
Proof. destruct v, b; cbn; intros H; try discriminate; split; reflexivity. Qed.

Lemma float_lt_trans v w b :
  float_lt v w = true -> float_lt w b = true -> float_lt v b = true.
Proof. destruct v, w, b; float_cases. Qed.

(** What is below [b] is below every number that is not below [b]. *)
Lemma float_lt_below v w b :
  float_lt v b = true -> float_lt w b = false -> is_nan w = false ->
  float_lt v w = true.
Proof. destruct v, w, b; float_cases. Qed.

(** Relative to the best loss [best] the loop starts with, which is not
    nan: parameters are saved at a loss exactly when it compares below
    [best] and below every earlier loss that is not nan. *)
Lemma epochs_trace_improvements epochs best lr evs best' lr' :
  epochs_trace file epochs best lr evs best' lr' ->
  is_nan best = false ->
  forall before v saved after,
    combine (valid_losses evs) (decisions evs)
      = before ++ (v, saved) :: after ->
    saved = true <->
    Forall (fun b => is_nan b = false -> float_lt v b = true)
      (best :: map fst before).
Proof.
  induction 1 as [best lr
                 | epoch epochs best lr pre tc v0 t evs best' lr' Hpre Hlt _ IH
                 | epoch epochs best lr pre tc v0 evs best' lr' Hpre Hlt _ IH];
    intros Hbest before v saved after.
  - destruct before; discriminate.
  - project_trace Hpre; cbn [combine].
    destruct (float_lt_not_nan _ _ Hlt) as [Hv0 _].
    destruct before as [| p before]; cbn [app map].
    + intros [= <- <- _]; split; [|reflexivity].
      intros _; constructor; [intros _; exact Hlt | constructor].
    + intros [= <- Hrest]; cbn [fst].
      apply (IH Hv0) in Hrest; rewrite Hrest; split; intros Hall.
      * constructor; [|exact Hall].
        intros _; inversion Hall as [| ? ? Hb _]; subst.
        eapply float_lt_trans; [exact (Hb Hv0) | exact Hlt].
      * inversion Hall; assumption.
  - project_trace Hpre; cbn [combine].
    destruct before as [| p before]; cbn [app map].
    + intros [= <- <- _]; split; [discriminate|].
      intros Hall; inversion Hall as [| ? ? Hb _]; subst.
      rewrite (Hb Hbest) in Hlt; discriminate.
    + intros [= <- Hrest]; cbn [fst].
      apply (IH Hbest) in Hrest; rewrite Hrest; split; intros Hall.
      * inversion Hall as [| ? ? Hb Hrest']; subst.
        constructor; [exact Hb|]; constructor; [|exact Hrest'].
        intros Hv0; eapply float_lt_below; [exact (Hb Hbest) | exact Hlt|].
        exact Hv0.
      * inversion Hall as [| ? ? Hb Hrest']; subst.
        inversion Hrest'; subst; constructor; assumption.
Qed.
End EpochsTraceFacts.

Section TrainDecisions.
Context {Ctx Tensor Out World Params Grads Arr : Type}.
Variable tensor_detach : Tensor -> Tensor.
Variable reshape_3_1 : Out -> Out.
Variable loss : Out -> list Z -> Res (list Float).
Variable context0 : Ctx.
Variable context_rest : list Ctx.
Variables batch_size log_interval : Z.
Variable grad_clip : R.
Variables model_name dataset_name : string.
Variable fw : Framework Ctx Tensor Out World Params Grads Arr.
Variables train_data val_data test_data : list (NDArray * NDArray).
Variable epochs : Z.
Variable lr : R.
Variables s s' : TrainState World.

(** The run under consideration has come to its end without an
    exception. *)
Hypothesis completed :
  train tensor_detach reshape_3_1 loss context0 context_rest batch_size
    log_interval grad_clip model_name dataset_name fw train_data val_data
    test_data epochs lr s = (Ok tt, s').

(** In a completed run of [train], the learning rates handed to the
    trainer are [lr * 0.25], [lr * 0.25^2], ... in this order: the k-th one
    is [lr * 0.25^k] (in real arithmetic), and there are at most [epochs]
    of them. *)
Theorem train_learning_rate_schedule :
  exists evs,
    trace s' = trace s ++ evs /\
    learning_rates evs
      = map (fun k => (lr * 0.25 ^ S k)%R)
          (seq 0 (length (learning_rates evs))) /\
    (length (learning_rates evs) <= Z.to_nat epochs)%nat.
Proof.
  destruct (train_ok _ _ _ _ _ _ _ _ _ _ _ _ _ _ _ _ _ _ completed)
    as (range_epochs & evs & thr & best' & lr' & Hr & Etrace & Hevs).
  rewrite py_range_epochs in Hr; injection Hr as <-.
  exists (evs ++ [PrintTotal thr]); split; [exact Etrace|].
  assert (Hproj : learning_rates (evs ++ [PrintTotal thr])
                  = learning_rates evs).
  { unfold learning_rates; rewrite flat_map_app; cbn; apply app_nil_r. }
  rewrite Hproj.
  split; [eapply epochs_trace_rates, Hevs|].
  apply epochs_trace_counts in Hevs as (_ & _ & Hcount).
  rewrite length_map, length_seq in Hcount; lia.
Qed.

(** In a completed run of [train] every epoch of [range(epochs)] prints
    one validation loss and takes one decision: it either saves the
    parameters or sets a new learning rate, never both and never neither.
    With [epochs <= 0] the run only prints the total throughput. *)
Theorem train_one_decision_per_epoch :
  exists evs,
    trace s' = trace s ++ evs /\
    length (valid_losses evs) = Z.to_nat epochs /\
    length (decisions evs) = Z.to_nat epochs /\
    (length (saved_files evs) + length (learning_rates evs))%nat
      = Z.to_nat epochs /\
    (epochs <= 0 -> exists throughput, evs = [PrintTotal throughput]).
Proof.
  destruct (train_ok _ _ _ _ _ _ _ _ _ _ _ _ _ _ _ _ _ _ completed)
    as (range_epochs & evs & thr & best' & lr' & Hr & Etrace & Hevs).
  rewrite py_range_epochs in Hr; injection Hr as <-.
  exists (evs ++ [PrintTotal thr]); split; [exact Etrace|].
  assert (Hproj : valid_losses (evs ++ [PrintTotal thr]) = valid_losses evs
                  /\ decisions (evs ++ [PrintTotal thr]) = decisions evs
                  /\ saved_files (evs ++ [PrintTotal thr]) = saved_files evs
                  /\ learning_rates (evs ++ [PrintTotal thr])
                     = learning_rates evs).
  { unfold valid_losses, decisions, saved_files, learning_rates.
    rewrite !flat_map_app; cbn; now rewrite !app_nil_r. }
  destruct Hproj as (-> & -> & -> & ->).
  pose proof (epochs_trace_counts _ _ _ _ _ _ _ Hevs) as (Hd & Hv & Hc).
  rewrite length_map, length_seq in Hd, Hv, Hc.
  repeat split; try assumption.
  intros Hle; exists thr.
  replace (Z.to_nat epochs) with 0%nat in Hevs by lia.
  inversion Hevs; reflexivity.
Qed.

(** In a completed run of [train], an epoch saves the parameters exactly
    when its validation loss compares below ([<]) [float("Inf")] and below
    every earlier validation loss that is not nan; otherwise it sets a new
    learning rate.  A loss that is nan is never saved and is passed over by
    the comparisons of later epochs.  The first epoch saves exactly when
    its validation loss is below [float("Inf")]: not when it is nan or
    infinite. *)
Theorem train_saves_only_improvements :
  exists evs,
    trace s' = trace s ++ evs /\
    forall before v saved after,
      combine (valid_losses evs) (decisions evs)
        = before ++ (v, saved) :: after ->
      (saved = true <->
       Forall (fun b => is_nan b = false -> float_lt v b = true)
         (Infinity :: map fst before)) /\
      (before = [] -> saved = float_lt v Infinity).
Proof.
  destruct (train_ok _ _ _ _ _ _ _ _ _ _ _ _ _ _ _ _ _ _ completed)
    as (range_epochs & evs & thr & best' & lr' & Hr & Etrace & Hevs).
  exists (evs ++ [PrintTotal thr]); split; [exact Etrace|].
  assert (Hproj : valid_losses (evs ++ [PrintTotal thr]) = valid_losses evs
                  /\ decisions (evs ++ [PrintTotal thr]) = decisions evs).
  { unfold valid_losses, decisions.
    rewrite !flat_map_app; cbn; now rewrite !app_nil_r. }
  destruct Hproj as (-> & ->).
  intros before v saved after Hsplit.
  pose proof (epochs_trace_improvements _ _ _ _ _ _ _ Hevs eq_refl
                _ _ _ _ Hsplit) as H.
  split; [exact H|].
  intros ->; cbn [map] in H.
  destruct saved, (float_lt v Infinity) eqn:Hlt; try reflexivity.
  - destruct H as [H _]; specialize (H eq_refl).
    inversion H as [| ? ? Hb _]; subst.
    rewrite (Hb eq_refl) in Hlt; discriminate.
  - destruct H as [_ H]; apply H.
    constructor; [intros _; exact Hlt | constructor].
Qed.

(** In a completed run of [train], the files written are
    [model_name_dataset_name-epoch.params] for exactly the epochs that
    saved, in the order of the epochs. *)
Theorem train_saved_files :
  exists evs,
    trace s' = trace s ++ evs /\
    saved_files evs
      = map (params_file model_name dataset_name)
          (map fst (filter snd
                      (combine (map Z.of_nat (seq 0 (Z.to_nat epochs)))
                         (decisions evs)))).
Proof.
  destruct (train_ok _ _ _ _ _ _ _ _ _ _ _ _ _ _ _ _ _ _ completed)
    as (range_epochs & evs & thr & best' & lr' & Hr & Etrace & Hevs).
  rewrite py_range_epochs in Hr; injection Hr as <-.
  exists (evs ++ [PrintTotal thr]); split; [exact Etrace|].
  assert (Hproj : saved_files (evs ++ [PrintTotal thr]) = saved_files evs
                  /\ decisions (evs ++ [PrintTotal thr]) = decisions evs).
  { unfold saved_files, decisions.
    rewrite !flat_map_app; cbn; now rewrite !app_nil_r. }
  destruct Hproj as (-> & ->).
  eapply epochs_trace_files, Hevs.
Qed.
End TrainDecisions.

(** *** A completed run on the sample framework *)

Ltac run_floats :=
  cbv -[exp IZR Rplus Rminus Rmult Rdiv Rinv Ropp Req_dec_T Rlt_dec pow];
  repeat (match goal with
          | |- context [Req_dec_T ?a ?b] =>
              let Hc := fresh in
              destruct (Req_dec_T a b) as [Hc | Hc]; try (exfalso; lra);
              clear Hc
          | |- context [Rlt_dec ?a ?b] =>
              let Hc := fresh in
              destruct (Rlt_dec a b) as [Hc | Hc]; try (exfalso; lra);
              clear Hc
          end;
          cbv -[exp IZR Rplus Rminus Rmult Rdiv Rinv Ropp Req_dec_T Rlt_dec
                pow]).

(** [train] on the sample framework: one context, one training batch,
    three epochs, learning rate 20.  The validation loss does not change:
    the first epoch saves, the next two quarter the learning rate. *)
Lemma sample_train_trace :
  exists w,
    train sample_detach (fun o => o) sample_loss tt [] 1 200 (25 / 100)%R
      "standard_lstm_lm_200" "wikitext-2" sample_framework
      [(mkND [[10]; [11]] 1, mkND [[11]; [12]] 1)]
      sample_batches sample_batches 3 20%R
      (mkTrainState 0 [])
    = (Ok tt, mkTrainState w
      [PrintEpoch 0 (1 / (3 - 1));
       PrintValid 0 (4 - 1)
         (Finite ((0 + (1 + (1 + 0)) + (1 + (1 + 0)) + (1 + (1 + 0))) / 6))
         (Finite (exp ((0 + (1 + (1 + 0)) + (1 + (1 + 0)) + (1 + (1 + 0))) / 6)));
       SaveParameters "standard_lstm_lm_200_wikitext-2-0.params";
       PrintTest (Finite ((0 + (1 + (1 + 0)) + (1 + (1 + 0)) + (1 + (1 + 0))) / 6))
         (Finite (exp ((0 + (1 + (1 + 0)) + (1 + (1 + 0)) + (1 + (1 + 0))) / 6)));
       PrintEpoch 1 (1 / (7 - 5));
       PrintValid 1 (8 - 5)
         (Finite ((0 + (1 + (1 + 0)) + (1 + (1 + 0)) + (1 + (1 + 0))) / 6))
         (Finite (exp ((0 + (1 + (1 + 0)) + (1 + (1 + 0)) + (1 + (1 + 0))) / 6)));
       PrintLearningRate (20 * 0.25);
       SetLearningRate (20 * 0.25);
       PrintEpoch 2 (1 / (11 - 9));
       PrintValid 2 (12 - 9)
         (Finite ((0 + (1 + (1 + 0)) + (1 + (1 + 0)) + (1 + (1 + 0))) / 6))
         (Finite (exp ((0 + (1 + (1 + 0)) + (1 + (1 + 0)) + (1 + (1 + 0))) / 6)));
       PrintLearningRate (20 * 0.25 * 0.25);
       SetLearningRate (20 * 0.25 * 0.25);
       PrintTotal (3 / (13 - 0))]%R).
Proof.
  eexists.
  run_floats.
  reflexivity.
Qed.

Lemma sample_train_completes :
  exists s',
    train sample_detach (fun o => o) sample_loss tt [] 1 200 (25 / 100)%R
      "standard_lstm_lm_200" "wikitext-2" sample_framework
      [(mkND [[10]; [11]] 1, mkND [[11]; [12]] 1)]
      sample_batches sample_batches 3 20%R
      (mkTrainState 0 [])
    = (Ok tt, s').
Proof. destruct sample_train_trace as [w H]; eauto. Qed.

(** The same run with a validation set whose only batch has no time step:
    no loss value is counted, the validation loss is nan, and the first
    epoch lowers the learning rate instead of saving. *)
Lemma sample_train_nan_trace :
  exists w,
    train sample_detach (fun o => o) sample_loss tt [] 1 200 (25 / 100)%R
      "standard_lstm_lm_200" "wikitext-2" sample_framework
      [(mkND [[10]; [11]] 1, mkND [[11]; [12]] 1)]
      [(mkND [] 1, mkND [] 1)] sample_batches 2 20%R
      (mkTrainState 0 [])
    = (Ok tt, mkTrainState w
      [PrintEpoch 0 (1 / (3 - 1));
       PrintValid 0 (4 - 1) NaN NaN;
       PrintLearningRate (20 * 0.25);
       SetLearningRate (20 * 0.25);
       PrintEpoch 1 (1 / (7 - 5));
       PrintValid 1 (8 - 5) NaN NaN;
       PrintLearningRate (20 * 0.25 * 0.25);
       SetLearningRate (20 * 0.25 * 0.25);
       PrintTotal (2 / (9 - 0))]%R).
Proof.
  eexists.
  run_floats.
  reflexivity.
Qed.

Lemma sample_train_nan_completes :
  exists s',
    train sample_detach (fun o => o) sample_loss tt [] 1 200 (25 / 100)%R
      "standard_lstm_lm_200" "wikitext-2" sample_framework
      [(mkND [[10]; [11]] 1, mkND [[11]; [12]] 1)]
      [(mkND [] 1, mkND [] 1)] sample_batches 2 20%R
      (mkTrainState 0 [])
    = (Ok tt, s').
Proof. destruct sample_train_nan_trace as [w H]; eauto. Qed.

Lemma train_learning_rate_schedule_witness :
  exists s',
    train sample_detach (fun o => o) sample_loss tt [] 1 200 (25 / 100)%R
      "standard_lstm_lm_200" "wikitext-2" sample_framework
      [(mkND [[10]; [11]] 1, mkND [[11]; [12]] 1)]
      sample_batches sample_batches 3 20%R
      (mkTrainState 0 [])
    = (Ok tt, s') /\
    exists evs,
      trace s' = [] ++ evs /\
      learning_rates evs
        = map (fun k => (20 * 0.25 ^ S k)%R)
            (seq 0 (length (learning_rates evs))) /\
      (length (learning_rates evs) <= Z.to_nat 3)%nat.
Proof.
  destruct sample_train_completes as [s' H].
  exists s'; split; [exact H|].
  exact (train_learning_rate_schedule _ _ _ _ _ _ _ _ _ _ _ _ _ _ _ _ _ _ H).
Defined.

Lemma train_one_decision_per_epoch_witness :
  exists s',
    train sample_detach (fun o => o) sample_loss tt [] 1 200 (25 / 100)%R
      "standard_lstm_lm_200" "wikitext-2" sample_framework
      [(mkND [[10]; [11]] 1, mkND [[11]; [12]] 1)]
      sample_batches sample_batches 3 20%R
      (mkTrainState 0 [])
    = (Ok tt, s') /\
    exists evs,
      trace s' = [] ++ evs /\
      length (valid_losses evs) = Z.to_nat 3 /\
      length (decisions evs) = Z.to_nat 3 /\
      (length (saved_files evs) + length (learning_rates evs))%nat
        = Z.to_nat 3 /\
      (3 <= 0 -> exists throughput, evs = [PrintTotal throughput]).
Proof.
  destruct sample_train_completes as [s' H].
  exists s'; split; [exact H|].
  exact (train_one_decision_per_epoch _ _ _ _ _ _ _ _ _ _ _ _ _ _ _ _ _ _ H).
Defined.

Lemma train_saves_only_improvements_witness :
  (exists s',
      train sample_detach (fun o => o) sample_loss tt [] 1 200 (25 / 100)%R
        "standard_lstm_lm_200" "wikitext-2" sample_framework
        [(mkND [[10]; [11]] 1, mkND [[11]; [12]] 1)]
        sample_batches sample_batches 3 20%R
        (mkTrainState 0 [])
      = (Ok tt, s') /\
      exists evs,
        trace s' = [] ++ evs /\
        forall before v saved after,
          combine (valid_losses evs) (decisions evs)
            = before ++ (v, saved) :: after ->
          (saved = true <->
           Forall (fun b => is_nan b = false -> float_lt v b = true)
             (Infinity :: map fst before)) /\
          (before = [] -> saved = float_lt v Infinity)) /\
  (exists s',
      train sample_detach (fun o => o) sample_loss tt [] 1 200 (25 / 100)%R
        "standard_lstm_lm_200" "wikitext-2" sample_framework
        [(mkND [[10]; [11]] 1, mkND [[11]; [12]] 1)]
        [(mkND [] 1, mkND [] 1)] sample_batches 2 20%R
        (mkTrainState 0 [])
      = (Ok tt, s') /\
      exists evs,
        trace s' = [] ++ evs /\
        forall before v saved after,
          combine (valid_losses evs) (decisions evs)
            = before ++ (v, saved) :: after ->
          (saved = true <->
           Forall (fun b => is_nan b = false -> float_lt v b = true)
             (Infinity :: map fst before)) /\
          (before = [] -> saved = float_lt v Infinity)).
Proof.
  split.
  - destruct sample_train_completes as [s' H].
    exists s'; split; [exact H|].
    exact (train_saves_only_improvements _ _ _ _ _ _ _ _ _ _ _ _ _ _ _ _ _ _
             H).
  - destruct sample_train_nan_completes as [s' H].
    exists s'; split; [exact H|].
    exact (train_saves_only_improvements _ _ _ _ _ _ _ _ _ _ _ _ _ _ _ _ _ _
             H).
Defined.

Lemma train_saved_files_witness :
  exists s',
    train sample_detach (fun o => o) sample_loss tt [] 1 200 (25 / 100)%R
      "standard_lstm_lm_200" "wikitext-2" sample_framework
      [(mkND [[10]; [11]] 1, mkND [[11]; [12]] 1)]
      sample_batches sample_batches 3 20%R
      (mkTrainState 0 [])
    = (Ok tt, s') /\
    exists evs,
      trace s' = [] ++ evs /\
      saved_files evs
        = map (params_file "standard_lstm_lm_200" "wikitext-2")
            (map fst (filter snd
                        (combine (map Z.of_nat (seq 0 (Z.to_nat 3)))
                           (decisions evs)))).
Proof.
  destruct sample_train_completes as [s' H].
  exists s'; split; [exact H|].
  exact (train_saved_files _ _ _ _ _ _ _ _ _ _ _ _ _ _ _ _ _ _ H).
Defined.

(** ** [train]: the batch lines *)

Section BatchLines.
Context {World : Type}.

Lemma batch_lines_app (evs1 evs2 : list Event) :
  batch_lines (evs1 ++ evs2) = batch_lines evs1 ++ batch_lines evs2.
Proof. apply flat_map_app. Qed.

Lemma prints_quiet {A : Type} (c : T World A) :
  quiet c -> prints_batches [] c.
Proof.
  intros Hc s a s' H; exists []; rewrite app_nil_r.
  split; [eapply Hc, H | reflexivity].
Qed.

Lemma prints_emit (e : Event) :
  batch_lines [e] = [] -> prints_batches (World:=World) [] (emit e).
Proof. intros He s a s' [= _ <-]; exists [e]; split; [reflexivity | exact He]. Qed.

Lemma prints_bind {A B : Type} (c : T World A) (k : A -> T World B)
    (lines1 lines2 : list (Z * Z)) :
  prints_batches lines1 c ->
  (forall a, prints_batches lines2 (k a)) ->
  prints_batches (lines1 ++ lines2) (t_bind c k).
Proof.
  intros Hc Hk s b s' H.
  apply t_bind_ok in H as (a & s1 & H1 & H2).
  apply Hc in H1 as (evs1 & E1 & L1).
  apply Hk in H2 as (evs2 & E2 & L2).
  exists (evs1 ++ evs2); split.
  - now rewrite E2, E1, app_assoc.
  - now rewrite batch_lines_app, L1, L2.
Qed.

(** Prefixing a step that prints no batch line. *)
Lemma prints_after {A B : Type} (c : T World A) (k : A -> T World B)
    (lines : list (Z * Z)) :
  prints_batches [] c ->
  (forall a, prints_batches lines (k a)) ->
  prints_batches lines (t_bind c k).
Proof. intros Hc Hk; apply (prints_bind c k [] lines Hc Hk). Qed.
End BatchLines.

Section TrainBatchLines.
Context {Ctx Tensor Out World Params Grads Arr : Type}.
Variable tensor_detach : Tensor -> Tensor.
Variable reshape_3_1 : Out -> Out.
Variable loss : Out -> list Z -> Res (list Float).
Variable context0 : Ctx.
Variable context_rest : list Ctx.
Variables batch_size log_interval : Z.
Variable grad_clip : R.
Variables model_name dataset_name : string.
Variable fw : Framework Ctx Tensor Out World Params Grads Arr.

Lemma logged_batches_next first n :
  logged_batches log_interval first (S n)
  = (if (first mod log_interval =? 0) && (0 <? first) then [first] else [])
    ++ logged_batches log_interval (first + 1) n.
Proof.
  unfold logged_batches; cbn [seq map filter].
  replace (first + Z.of_nat 0) with first by lia.
  rewrite <- seq_shift, map_map.
  rewrite (map_ext (fun k => first + Z.of_nat (S k))
             (fun k => first + 1 + Z.of_nat k)) by (intros; lia).
  destruct ((first mod log_interval =? 0) && (0 <? first)); reflexivity.
Qed.

(** The loop over the batches prints a line for the batches it is told to
    log, and for no other. *)
Lemma batch_loop_lines parameters epoch batches i train_data total_L start
    hiddens :
  prints_batches
    (map (pair epoch) (logged_batches log_interval i (length train_data)))
    (batch_loop tensor_detach reshape_3_1 context0 context_rest batch_size
       log_interval grad_clip fw parameters epoch batches i train_data
       total_L start hiddens).
Proof.
  revert i total_L start hiddens.
  induction train_data as [| [data target] train_data IH];
    intros i total_L start hiddens; cbn [batch_loop length].
  - apply prints_quiet, quiet_ret.
  - rewrite logged_batches_next, map_app.
    intros s a s' H.
    apply quiet_step in H as ([total_L1 hiddens1] & s8 & E0 & H);
      [|apply quiet_batch_update].
    apply t_bind_ok in H as (r & s9 & Hmod & H).
    unfold t_lift, py_mod in Hmod.
    destruct (log_interval =? 0); [discriminate|].
    injection Hmod as <- <-.
    destruct ((i mod log_interval =? 0) && (0 <? i)).
    + apply quiet_step in H as (cur_L & s10 & E10 & H); [|apply quiet_lift].
      apply quiet_step in H as (now & s11 & E11 & H); [|apply quiet_clock].
      apply quiet_step in H as (thr & s12 & E12 & H); [|apply quiet_lift].
      apply emit_step in H as (s13 & E13 & H).
      apply quiet_step in H as (start1 & s14 & E14 & H);
        [|apply quiet_clock].
      apply IH in H as (evs & E & Hlines).
      eexists (_ :: evs); split.
      * rewrite E, E14, E13, E12, E11, E10, E0.
        rewrite <- app_assoc; reflexivity.
      * cbn [batch_lines flat_map map app].
        f_equal; exact Hlines.
    + apply IH in H as (evs & E & Hlines).
      exists evs; split; [congruence | exact Hlines].
Qed.

Lemma train_epoch_lines parameters train_data val_data test_data epoch best
    lr :
  prints_batches
    (map (pair epoch) (logged_batches log_interval 0 (length train_data)))
    (train_epoch tensor_detach reshape_3_1 loss context0 context_rest
       batch_size log_interval grad_clip model_name dataset_name fw
       parameters train_data val_data test_data epoch best lr).
Proof.
  unfold train_epoch; cbv zeta.
  apply prints_after; [apply prints_quiet, quiet_clock | intros t0].
  apply prints_after; [apply prints_quiet, quiet_clock | intros t1].
  apply prints_after;
    [apply prints_quiet, quiet_map; intros; apply quiet_call
    | intros hiddens].
  rewrite <- (app_nil_r (map _ _)).
  apply prints_bind; [apply batch_loop_lines | intros res].
  apply prints_after; [apply prints_quiet, quiet_call | intros _].
  apply prints_after; [apply prints_quiet, quiet_clock | intros now].
  apply prints_after; [apply prints_quiet, quiet_lift | intros thr].
  apply prints_after; [now apply prints_emit | intros _].
  apply prints_after; [apply prints_quiet, quiet_get_world | intros w].
  apply prints_after; [apply prints_quiet, quiet_lift | intros v].
  apply prints_after; [apply prints_quiet, quiet_clock | intros now'].
  apply prints_after; [now apply prints_emit | intros _].
  destruct (float_lt v best).
  - apply prints_after; [apply prints_quiet, quiet_get_world | intros w'].
    apply prints_after; [apply prints_quiet, quiet_lift | intros t].
    apply prints_after; [now apply prints_emit | intros _].
    apply prints_after; [apply prints_quiet, quiet_call | intros _].
    apply prints_after; [now apply prints_emit | intros _].
    apply prints_quiet, quiet_ret.
  - apply prints_after; [now apply prints_emit | intros _].
    apply prints_after; [now apply prints_emit | intros _].
    apply prints_after; [apply prints_quiet, quiet_call | intros _].
    apply prints_quiet, quiet_ret.
Qed.

Lemma epoch_loop_lines parameters train_data val_data test_data epochs :
  forall best lr,
    prints_batches
      (flat_map (fun epoch =>
                   map (pair epoch)
                     (logged_batches log_interval 0 (length train_data)))
         epochs)
      (epoch_loop tensor_detach reshape_3_1 loss context0 context_rest
         batch_size log_interval grad_clip model_name dataset_name fw
         parameters train_data val_data test_data epochs best lr).
Proof.
  induction epochs as [| epoch epochs IH]; intros best lr;
    cbn [epoch_loop flat_map].
  - apply prints_quiet, quiet_ret.
  - apply prints_bind; [apply train_epoch_lines | intros [best1 lr1]].
    apply IH.
Qed.

(** In a run of [train] that ends without an exception, each epoch prints
    a batch line for the batches with index [i > 0] and
    [i % log_interval == 0], in order, and for no other batch: never for
    the first batch, and for none at all when there are no more than
    [log_interval] batches. *)
Theorem train_batch_lines train_data val_data test_data epochs lr s s' :
  train tensor_detach reshape_3_1 loss context0 context_rest batch_size
    log_interval grad_clip model_name dataset_name fw train_data val_data
    test_data epochs lr s = (Ok tt, s') ->
  exists evs,
    trace s' = trace s ++ evs /\
    batch_lines evs
      = flat_map (fun epoch =>
                    map (pair epoch)
                      (logged_batches log_interval 0 (length train_data)))
          (map Z.of_nat (seq 0 (Z.to_nat epochs))).
Proof.
  unfold train; cbv zeta; intros H.
  apply quiet_step in H as (t0 & s1 & E1 & H); [|apply quiet_clock].
  apply quiet_step in H as (parameters & s2 & E2 & H); [|apply quiet_call].
  apply t_bind_ok in H as (range_epochs & s3 & Hr & H).
  unfold t_lift in Hr; rewrite py_range_epochs in Hr.
  injection Hr as <- <-.
  apply t_bind_ok in H as ([best' lr'] & s4 & Hloop & H).
  apply epoch_loop_lines in Hloop as (evs & E4 & Hlines).
  apply quiet_step in H as (now & s5 & E5 & H); [|apply quiet_clock].
  apply quiet_step in H as (thr & s6 & E6 & H); [|apply quiet_lift].
  injection H as <-.
  exists (evs ++ [PrintTotal thr]); split.
  - cbn [trace]; rewrite E6, E5, E4, E2, E1.
    now rewrite <- !app_assoc.
  - rewrite batch_lines_app, Hlines; cbn; apply app_nil_r.
Qed.
End TrainBatchLines.


(** A run on the sample framework with a line every batch
    ([log_interval = 1]): three training batches, one epoch. *)
Lemma sample_train_logging_completes :
  exists s',
    train sample_detach (fun o => o) sample_loss tt [] 1 1 (25 / 100)%R
      "standard_lstm_lm_200" "wikitext-2" sample_framework
      sample_batches sample_batches sample_batches 1 20%R
      (mkTrainState 0 [])
    = (Ok tt, s').
Proof.
  eexists.
  run_floats.
  reflexivity.
Qed.

Lemma train_batch_lines_witness :
  exists s',
    train sample_detach (fun o => o) sample_loss tt [] 1 1 (25 / 100)%R
      "standard_lstm_lm_200" "wikitext-2" sample_framework
      sample_batches sample_batches sample_batches 1 20%R
      (mkTrainState 0 [])
    = (Ok tt, s') /\
    exists evs,
      trace s' = [] ++ evs /\
      batch_lines evs = [(0, 1); (0, 2)].
Proof.
  destruct sample_train_logging_completes as [s' H].
  exists s'; split; [exact H|].
  exact (train_batch_lines _ _ _ _ _ _ _ _ _ _ _ _ _ _ _ _ _ _ H).
Defined.

(** ** [train]: a zero [log_interval] *)

Section TrainLogInterval.
Context {Ctx Tensor Out World Params Grads Arr : Type}.
Variable tensor_detach : Tensor -> Tensor.
Variable reshape_3_1 : Out -> Out.
Variable loss : Out -> list Z -> Res (list Float).
Variable context0 : Ctx.
Variable context_rest : list Ctx.
Variable batch_size : Z.
Variable grad_clip : R.
Variables model_name dataset_name : string.
Variable fw : Framework Ctx Tensor Out World Params Grads Arr.

Lemma t_bind_run {A B : Type} (c : T World A) (k : A -> T World B) s a s1 :
  c s = (Ok a, s1) -> t_bind c k s = k a s1.
Proof. intros H; unfold t_bind; now rewrite H. Qed.

(** A computation raises without a word when every step it gets to is
    quiet and the last one raises. *)
Lemma t_bind_raises {A B : Type} (c : T World A) (k : A -> T World B) s :
  quiet c ->
  (forall a s1, c s = (Ok a, s1) ->
     exists e s', k a s1 = (Raise e, s') /\ trace s' = trace s1) ->
  exists e s', t_bind c k s = (Raise e, s') /\ trace s' = trace s.
Proof.
  intros Hc Hk; unfold t_bind.
  destruct (c s) as [[a | e] s1] eqn:E.
  - destruct (Hk a s1 eq_refl) as (e & s' & -> & Htrace).
    exists e, s'; split; [reflexivity|].
    apply Hc in E; congruence.
  - exists e, s1; split; [reflexivity | eapply Hc, E].
Qed.

Lemma t_bind_raised {A B : Type} (c : T World A) (k : A -> T World B) s :
  (exists e s', c s = (Raise e, s') /\ trace s' = trace s) ->
  exists e s', t_bind c k s = (Raise e, s') /\ trace s' = trace s.
Proof.
  intros (e & s' & H & Htrace); exists e, s'; split; [|exact Htrace].
  unfold t_bind; now rewrite H.
Qed.

(** With [log_interval = 0] a batch gets as far as the update of [total_L];
    then [i % log_interval] raises. *)
Lemma batch_loop_interval_zero parameters epoch batches i data target
    train_data total_L start hiddens s :
  batch_loop tensor_detach reshape_3_1 context0 context_rest batch_size
    0 grad_clip fw parameters epoch batches i
    ((data, target) :: train_data) total_L start hiddens s =
  match batch_update tensor_detach reshape_3_1 context0 context_rest
          grad_clip fw parameters data target total_L hiddens s with
  | (Ok _, s1) => (Raise ZeroDivisionError, s1)
  | (Raise e, s1) => (Raise e, s1)
  end.
Proof.
  cbn [batch_loop]; unfold t_bind at 1.
  destruct (batch_update _ _ _ _ _ _ _ _ _ _ _ s) as [[[tl hs] | e] s1];
    reflexivity.
Qed.

(** With [log_interval = 0], a batch to train on and an epoch to run,
    [train] does not come to its end: it raises, and has printed nothing
    and saved nothing by then.  If the calls up to the update of [total_L]
    in the first batch succeed (the two calls before the loop, the two
    readings of the clock and the initial states of the first epoch, and
    the batch itself up to [trainer.step(1)] and the sums of the losses),
    the exception is the [ZeroDivisionError] of [i % log_interval], raised
    in the state these calls have left. *)
Theorem train_log_interval_zero data target train_data val_data test_data
    epochs lr s :
  1 <= epochs ->
  (exists e s',
      train tensor_detach reshape_3_1 loss context0 context_rest batch_size
        0 grad_clip model_name dataset_name fw
        ((data, target) :: train_data) val_data test_data epochs lr s
      = (Raise e, s') /\
      trace s' = trace s) /\
  (forall t0 s1 parameters s2 t1 s3 t2 s4 hiddens s5 r s6,
      clock fw s = (Ok t0, s1) ->
      call (collect_params fw) s1 = (Ok parameters, s2) ->
      clock fw s2 = (Ok t1, s3) ->
      clock fw s3 = (Ok t2, s4) ->
      t_map (fun ctx =>
               call (begin_state fw
                       (batch_size / py_len (context context0 context_rest))
                       ctx))
        (context context0 context_rest) s4 = (Ok hiddens, s5) ->
      batch_update tensor_detach reshape_3_1 context0 context_rest
        grad_clip fw parameters data target 0 hiddens s5 = (Ok r, s6) ->
      train tensor_detach reshape_3_1 loss context0 context_rest batch_size
        0 grad_clip model_name dataset_name fw
        ((data, target) :: train_data) val_data test_data epochs lr s
      = (Raise ZeroDivisionError, s6)).
Proof.
  intros Hepochs.
  assert (Hrange : py_range 0 epochs 1
                   = Ok (0 :: map Z.of_nat (seq 1 (Z.to_nat epochs - 1)))).
  { rewrite py_range_epochs.
    destruct (Z.to_nat epochs) as [| n] eqn:En; [lia|].
    replace (S n - 1)%nat with n by lia; reflexivity. }
  split.
  - unfold train; cbv zeta.
    apply t_bind_raises; [apply quiet_clock | intros t0 s1 _].
    apply t_bind_raises; [apply quiet_call | intros parameters s2 _].
    rewrite Hrange.
    apply t_bind_raises; [apply quiet_lift | intros range s3 [= <- <-]].
    apply t_bind_raised; cbn [epoch_loop].
    apply t_bind_raised; unfold train_epoch; cbv zeta.
    apply t_bind_raises; [apply quiet_clock | intros t1 s4 _].
    apply t_bind_raises; [apply quiet_clock | intros t2 s5 _].
    apply t_bind_raises;
      [apply quiet_map; intros; apply quiet_call | intros hiddens s6 _].
    apply t_bind_raised.
    rewrite batch_loop_interval_zero.
    destruct (batch_update _ _ _ _ _ _ _ _ _ _ _ s6) as [[a | e] s7] eqn:E;
      apply quiet_batch_update in E; eauto.
  - intros t0 s1 parameters s2 t1 s3 t2 s4 hiddens s5 r s6 H1 H2 H3 H4 H5 H6.
    unfold train; cbv zeta.
    rewrite (t_bind_run _ _ _ _ _ H1), (t_bind_run _ _ _ _ _ H2), Hrange.
    unfold t_bind at 1, t_lift at 1.
    cbn [epoch_loop]; unfold t_bind at 1, t_bind at 1.
    unfold train_epoch; cbv zeta.
    rewrite (t_bind_run _ _ _ _ _ H3), (t_bind_run _ _ _ _ _ H4),
      (t_bind_run _ _ _ _ _ H5).
    unfold t_bind at 1.
    now rewrite batch_loop_interval_zero, H6.
Qed.
End TrainLogInterval.

(** On the sample framework with [log_interval = 0]: the first batch is
    trained on, then [train] raises. *)
Lemma train_log_interval_zero_witness :
  train sample_detach (fun o => o) sample_loss tt [] 1 0 (25 / 100)%R
    "standard_lstm_lm_200" "wikitext-2" sample_framework
    sample_batches sample_batches sample_batches 1 20%R
    (mkTrainState 0 [])
  = (Raise ZeroDivisionError, mkTrainState 3 []).
Proof.
  destruct (train_log_interval_zero sample_detach (fun o => o) sample_loss
              tt [] 1 (25 / 100)%R "standard_lstm_lm_200" "wikitext-2"
              sample_framework
              (mkND [[10]; [11]] 1) (mkND [[11]; [12]] 1)
              [(mkND [[12]; [13]] 1, mkND [[13]; [14]] 1);
               (mkND [[14]; [15]] 1, mkND [[15]; [16]] 1)]
              sample_batches sample_batches 1 20%R (mkTrainState 0 []))
    as [_ H]; [lia|].
  eapply H; try reflexivity.
  run_floats; reflexivity.
Defined.
